(** * A model of the recipe dispatcher of the variant-filtration harness

    The development follows two source files:
    - [recipes.py]: the command-line dispatcher [run] and the recipes it
      selects (Module [Recipes]);
    - [api_tutorials/keras_example.py]: the MNIST tutorial
      (Module [KerasExample]).

    Python values are modelled by the inductive [pyobj]; the argparse
    namespace by the record [Args]; calls into modules whose code is not part
    of the development ([training_data], [models], [plots], [defines],
    [arguments], [os], keras) go through the interface [Library]: such a call
    returns the object the library gives in the current world and is recorded
    in a trace.  Library calls are taken to return and to leave the namespace
    object alone; exceptions arise from the modelled code itself (name
    resolution, dictionary lookup, subscripting).

    Of the recipes, the model covers the dispatch of [run], the recipes
    whose control flow the properties are about ([inspect_architectures],
    the BQSR and ROC recipes, the test recipes), and the parts of the others
    that compute on what the libraries returned: the score lists built over
    the keys of a baseline, the test arrays filled from a generator, the
    subsets and the report of extreme scores.

    The file has three parts: the model of the two source files, the
    vocabulary in which the properties are stated, and the properties with
    their proofs. *)

From Stdlib Require Import ZArith NArith List String Ascii Lia DecimalString
  DecimalPos DecimalZ.
From stdpp Require Import base option gmap sets list strings sorting.

Local Open Scope string_scope.
Local Open Scope list_scope.

(** ** Python objects *)

#[warnings="-register-all"]
Inductive pyobj :=
| ONone
| OBool (b : bool)
| OInt (z : Z)
| OStr (s : string)
| OList (items : list pyobj)
| OTuple (items : list pyobj)
| OModule (qualified : string)          (* an imported module *)
| OClass (qualified : string)           (* an imported class *)
| OFeature (name : string)              (* a [__future__] feature object *)
| OFunction (name : string) (line : N)  (* a [def] of the module, by the line of its [def] *)
| OBuiltin (name : string)
| OOpaque (handle : N).                 (* an object owned by a library *)

(** Truth value of an object in a condition. *)
Definition truthy (o : pyobj) : bool :=
  match o with
  | ONone => false
  | OBool b => b
  | OInt z => negb (Z.eqb z 0)
  | OStr s => negb (String.eqb s "")
  | OList l | OTuple l => match l with [] => false | _ => true end
  | _ => true
  end.

(** [str(i)] for an integer. *)
Definition str (i : Z) : string := NilZero.string_of_int (Z.to_int i).

(** [range(n)]: the integers [0 .. n-1], empty when [n <= 0]. *)
Definition range (n : Z) : list Z := Z.of_nat <$> seq 0 (Z.to_nat n).

(** ** The parsed command line

    The attributes of the namespace that [recipes.py] reads or writes. *)

Record Args := {
  mode : string;
  data_dir : string;
  id_ : string;                       (* [args.id] *)
  labels : pyobj;
  input_symbols : pyobj;
  annotations : pyobj;
  annotation_set : string;
  tensor_map : string;
  architectures : pyobj;
  score_keys : pyobj;
  samples : Z;
  batch_size : Z;
  window_size : Z;
  read_limit : Z;
  iterations : Z;
  epochs : Z;
  channels_last : bool;
  single_sample_vqsr : bool;
  emit_interesting_sites : bool;
  deep_variant_vcf : option string;
  negative_vcf : option string;
  negative_vcf_2 : option string;
  negative_vcf_3 : option string;
  train_vcf : option string;
  bed_file : option string;
  weights_hd5 : option string;
  output_vcf : option string
}.

(** [args.labels = v] *)
Definition set_labels (v : pyobj) (a : Args) : Args :=
  {| mode := mode a; data_dir := data_dir a; id_ := id_ a; labels := v;
     input_symbols := input_symbols a; annotations := annotations a;
     annotation_set := annotation_set a; tensor_map := tensor_map a;
     architectures := architectures a; score_keys := score_keys a;
     samples := samples a; batch_size := batch_size a;
     window_size := window_size a; read_limit := read_limit a;
     iterations := iterations a; epochs := epochs a;
     channels_last := channels_last a;
     single_sample_vqsr := single_sample_vqsr a;
     emit_interesting_sites := emit_interesting_sites a;
     deep_variant_vcf := deep_variant_vcf a; negative_vcf := negative_vcf a;
     negative_vcf_2 := negative_vcf_2 a; negative_vcf_3 := negative_vcf_3 a;
     train_vcf := train_vcf a; bed_file := bed_file a;
     weights_hd5 := weights_hd5 a; output_vcf := output_vcf a |}.

(** [args.input_symbols = v] *)
Definition set_input_symbols (v : pyobj) (a : Args) : Args :=
  {| mode := mode a; data_dir := data_dir a; id_ := id_ a; labels := labels a;
     input_symbols := v; annotations := annotations a;
     annotation_set := annotation_set a; tensor_map := tensor_map a;
     architectures := architectures a; score_keys := score_keys a;
     samples := samples a; batch_size := batch_size a;
     window_size := window_size a; read_limit := read_limit a;
     iterations := iterations a; epochs := epochs a;
     channels_last := channels_last a;
     single_sample_vqsr := single_sample_vqsr a;
     emit_interesting_sites := emit_interesting_sites a;
     deep_variant_vcf := deep_variant_vcf a; negative_vcf := negative_vcf a;
     negative_vcf_2 := negative_vcf_2 a; negative_vcf_3 := negative_vcf_3 a;
     train_vcf := train_vcf a; bed_file := bed_file a;
     weights_hd5 := weights_hd5 a; output_vcf := output_vcf a |}.

(** [args.samples = v] *)
Definition set_samples (v : Z) (a : Args) : Args :=
  {| mode := mode a; data_dir := data_dir a; id_ := id_ a; labels := labels a;
     input_symbols := input_symbols a; annotations := annotations a;
     annotation_set := annotation_set a; tensor_map := tensor_map a;
     architectures := architectures a; score_keys := score_keys a; samples := v;
     batch_size := batch_size a; window_size := window_size a;
     read_limit := read_limit a; iterations := iterations a; epochs := epochs a;
     channels_last := channels_last a; single_sample_vqsr := single_sample_vqsr a;
     emit_interesting_sites := emit_interesting_sites a;
     deep_variant_vcf := deep_variant_vcf a; negative_vcf := negative_vcf a;
     negative_vcf_2 := negative_vcf_2 a; negative_vcf_3 := negative_vcf_3 a;
     train_vcf := train_vcf a; bed_file := bed_file a; weights_hd5 := weights_hd5 a;
     output_vcf := output_vcf a |}.

(** [args.tensor_map = v] *)
Definition set_tensor_map (v : string) (a : Args) : Args :=
  {| mode := mode a; data_dir := data_dir a; id_ := id_ a; labels := labels a;
     input_symbols := input_symbols a; annotations := annotations a;
     annotation_set := annotation_set a; tensor_map := v;
     architectures := architectures a; score_keys := score_keys a;
     samples := samples a; batch_size := batch_size a; window_size := window_size a;
     read_limit := read_limit a; iterations := iterations a; epochs := epochs a;
     channels_last := channels_last a; single_sample_vqsr := single_sample_vqsr a;
     emit_interesting_sites := emit_interesting_sites a;
     deep_variant_vcf := deep_variant_vcf a; negative_vcf := negative_vcf a;
     negative_vcf_2 := negative_vcf_2 a; negative_vcf_3 := negative_vcf_3 a;
     train_vcf := train_vcf a; bed_file := bed_file a; weights_hd5 := weights_hd5 a;
     output_vcf := output_vcf a |}.

(** [args.window_size = v] *)
Definition set_window_size (v : Z) (a : Args) : Args :=
  {| mode := mode a; data_dir := data_dir a; id_ := id_ a; labels := labels a;
     input_symbols := input_symbols a; annotations := annotations a;
     annotation_set := annotation_set a; tensor_map := tensor_map a;
     architectures := architectures a; score_keys := score_keys a;
     samples := samples a; batch_size := batch_size a; window_size := v;
     read_limit := read_limit a; iterations := iterations a; epochs := epochs a;
     channels_last := channels_last a; single_sample_vqsr := single_sample_vqsr a;
     emit_interesting_sites := emit_interesting_sites a;
     deep_variant_vcf := deep_variant_vcf a; negative_vcf := negative_vcf a;
     negative_vcf_2 := negative_vcf_2 a; negative_vcf_3 := negative_vcf_3 a;
     train_vcf := train_vcf a; bed_file := bed_file a; weights_hd5 := weights_hd5 a;
     output_vcf := output_vcf a |}.

(** [args.read_limit = v] *)
Definition set_read_limit (v : Z) (a : Args) : Args :=
  {| mode := mode a; data_dir := data_dir a; id_ := id_ a; labels := labels a;
     input_symbols := input_symbols a; annotations := annotations a;
     annotation_set := annotation_set a; tensor_map := tensor_map a;
     architectures := architectures a; score_keys := score_keys a;
     samples := samples a; batch_size := batch_size a; window_size := window_size a;
     read_limit := v; iterations := iterations a; epochs := epochs a;
     channels_last := channels_last a; single_sample_vqsr := single_sample_vqsr a;
     emit_interesting_sites := emit_interesting_sites a;
     deep_variant_vcf := deep_variant_vcf a; negative_vcf := negative_vcf a;
     negative_vcf_2 := negative_vcf_2 a; negative_vcf_3 := negative_vcf_3 a;
     train_vcf := train_vcf a; bed_file := bed_file a; weights_hd5 := weights_hd5 a;
     output_vcf := output_vcf a |}.

(** [args.data_dir = v] *)
Definition set_data_dir (v : string) (a : Args) : Args :=
  {| mode := mode a; data_dir := v; id_ := id_ a; labels := labels a;
     input_symbols := input_symbols a; annotations := annotations a;
     annotation_set := annotation_set a; tensor_map := tensor_map a;
     architectures := architectures a; score_keys := score_keys a;
     samples := samples a; batch_size := batch_size a; window_size := window_size a;
     read_limit := read_limit a; iterations := iterations a; epochs := epochs a;
     channels_last := channels_last a; single_sample_vqsr := single_sample_vqsr a;
     emit_interesting_sites := emit_interesting_sites a;
     deep_variant_vcf := deep_variant_vcf a; negative_vcf := negative_vcf a;
     negative_vcf_2 := negative_vcf_2 a; negative_vcf_3 := negative_vcf_3 a;
     train_vcf := train_vcf a; bed_file := bed_file a; weights_hd5 := weights_hd5 a;
     output_vcf := output_vcf a |}.

(** [args.weights_hd5 = v] *)
Definition set_weights_hd5 (v : option string) (a : Args) : Args :=
  {| mode := mode a; data_dir := data_dir a; id_ := id_ a; labels := labels a;
     input_symbols := input_symbols a; annotations := annotations a;
     annotation_set := annotation_set a; tensor_map := tensor_map a;
     architectures := architectures a; score_keys := score_keys a;
     samples := samples a; batch_size := batch_size a; window_size := window_size a;
     read_limit := read_limit a; iterations := iterations a; epochs := epochs a;
     channels_last := channels_last a; single_sample_vqsr := single_sample_vqsr a;
     emit_interesting_sites := emit_interesting_sites a;
     deep_variant_vcf := deep_variant_vcf a; negative_vcf := negative_vcf a;
     negative_vcf_2 := negative_vcf_2 a; negative_vcf_3 := negative_vcf_3 a;
     train_vcf := train_vcf a; bed_file := bed_file a; weights_hd5 := v;
     output_vcf := output_vcf a |}.

(** [args.score_keys = v] *)
Definition set_score_keys (v : pyobj) (a : Args) : Args :=
  {| mode := mode a; data_dir := data_dir a; id_ := id_ a; labels := labels a;
     input_symbols := input_symbols a; annotations := annotations a;
     annotation_set := annotation_set a; tensor_map := tensor_map a;
     architectures := architectures a; score_keys := v; samples := samples a;
     batch_size := batch_size a; window_size := window_size a;
     read_limit := read_limit a; iterations := iterations a; epochs := epochs a;
     channels_last := channels_last a; single_sample_vqsr := single_sample_vqsr a;
     emit_interesting_sites := emit_interesting_sites a;
     deep_variant_vcf := deep_variant_vcf a; negative_vcf := negative_vcf a;
     negative_vcf_2 := negative_vcf_2 a; negative_vcf_3 := negative_vcf_3 a;
     train_vcf := train_vcf a; bed_file := bed_file a; weights_hd5 := weights_hd5 a;
     output_vcf := output_vcf a |}.

(** An optional path as an object. *)
Definition path_object (path : option string) : pyobj :=
  match path with
  | Some p => OStr p
  | None => ONone
  end.

(** ** Calls, traces and exceptions *)

(** An actual argument of a call: the namespace object (recorded with the
    attribute values it has at the call) or another object. *)
Inductive arg :=
| AArgs (a : Args)
| AObj (o : pyobj).

Inductive event :=
| Call (callee : string) (positional : list arg) (keywords : list (string * arg))
| Enter (name : string) (line : N) (a : Args)   (* a function of recipes.py is called with [args] *)
| Print (items : list pyobj).

Inductive exn :=
| NameError (name : string)
| UnboundLocalError (name : string)
| TypeError (what : string)
| KeyError
| IndexError
| OtherError (what : string).

Inductive outcome (A : Type) :=
| Returned (a : A)
| Raised (e : exn).
Arguments Returned {A} a.
Arguments Raised {A} e.

(** ** The libraries *)

Class Library := {
  World : Type;
  (** [arguments.parse_args()] *)
  lib_parse_args : World -> Args * World;
  (** a call [callee(positional, keywords)] of a library function or method *)
  lib : string -> list arg -> list (string * arg) -> World -> pyobj * World;
  (** the same for a function whose result the caller unpacks into three
      names *)
  lib3 : string -> list arg -> list (string * arg) -> World ->
         (pyobj * pyobj * pyobj) * World;
  (** a module attribute that is not called, such as [defines.base_labels_binary] *)
  lib_attr : string -> World -> pyobj;
  (** [o[i]] on an object a library returned *)
  lib_getitem : pyobj -> Z -> pyobj;
  (** [os.listdir(path)] and [os.path.isdir(path)]: queries of the file system *)
  lib_listdir : string -> World -> list string;
  lib_isdir : string -> World -> bool;
  (** the recipes of recipes.py whose bodies are not modelled, by the line
      of their [def]: outcome, and the namespace and world they leave *)
  lib_body : N -> Args -> World -> outcome unit * Args * World
}.

(** ** State and the monad of recipes

    The state holds the namespace object bound to [args] (shared by [run] and
    the recipe it calls), the world of the libraries and the trace. *)

Section Monad.
Context `{Library}.

Record state := {
  st_args : Args;
  st_world : World;
  st_trace : list event
}.

Definition M (A : Type) : Type := state -> outcome A * state.

Definition ret {A} (a : A) : M A := fun st => (Returned a, st).

Definition bind {A B} (c : M A) (k : A -> M B) : M B :=
  fun st =>
    match c st with
    | (Returned a, st') => k a st'
    | (Raised e, st') => (Raised e, st')
    end.

Definition raise {A} (e : exn) : M A := fun st => (Raised e, st).

Definition emit (e : event) : M unit :=
  fun st =>
    (Returned tt,
     {| st_args := st_args st; st_world := st_world st;
        st_trace := st_trace st ++ [e] |}).

(** Read the namespace object. *)
Definition get_args : M Args := fun st => (Returned (st_args st), st).

(** Read a value off the world, leaving it as it is. *)
Definition query {A} (f : World -> A) : M A :=
  fun st => (Returned (f (st_world st)), st).

(** Assign an attribute of the namespace object. *)
Definition setattr (f : Args -> Args) : M unit :=
  fun st =>
    (Returned tt,
     {| st_args := f (st_args st); st_world := st_world st;
        st_trace := st_trace st |}).

End Monad.

Declare Scope recipe_scope.
Delimit Scope recipe_scope with recipe.
Notation "'let*' x ':=' c 'in' k" := (bind c (fun x => k))
  (at level 10, x binder, c at level 200, k at level 200) : recipe_scope.
Local Open Scope recipe_scope.

Section Loops.
Context `{Library}.

(** [for x in l: body] *)
Fixpoint for_ {A} (l : list A) (body : A -> M unit) : M unit :=
  match l with
  | [] => ret tt
  | x :: l' => let* _ := body x in for_ l' body
  end.

End Loops.

Module Recipes.

(** *** Names bound at module level

    The import statements and [def]s of recipes.py in source order, each with
    the object it binds; a [def] is identified by its line. *)
Definition module_statements : list (string * pyobj) := [
  ("division", OFeature "division");
  ("print_function", OFeature "print_function");
  ("absolute_import", OFeature "absolute_import");
  ("os", OModule "os");
  ("sys", OModule "sys");
  ("vcf", OModule "vcf");
  ("h5py", OModule "h5py");
  ("time", OModule "time");
  ("plots", OModule "plots");
  ("pysam", OModule "pysam");
  ("models", OModule "models");
  ("defines", OModule "defines");
  ("operator", OModule "operator");
  ("arguments", OModule "arguments");
  ("np", OModule "numpy");
  ("td", OModule "training_data");
  ("Counter", OClass "collections.Counter");
  ("run", OFunction "run" 36);
  ("inspect_architectures", OFunction "inspect_architectures" 183);
  ("train_calling_model", OFunction "train_calling_model" 291);
  ("train_calling_model_full", OFunction "train_calling_model_full" 333);
  ("train_calling_model_1d", OFunction "train_calling_model_1d" 374);
  ("train_pileup_filter", OFunction "train_pileup_filter" 426);
  ("test_caller_pileup", OFunction "test_caller_pileup" 461);
  ("test_caller_2d", OFunction "test_caller_2d" 512);
  ("bqsr_train_tensor", OFunction "bqsr_train_tensor" 562);
  ("bqsr_train_annotation_tensor", OFunction "bqsr_train_annotation_tensor" 590);
  ("bqsr_lstm_train_tensor", OFunction "bqsr_lstm_train_tensor" 619);
  ("train_ref_read_model", OFunction "train_ref_read_model" 646);
  ("train_ref_read_model_b", OFunction "train_ref_read_model_b" 679);
  ("train_ref_read_resnet_model", OFunction "train_ref_read_resnet_model" 724);
  ("train_ref_read_inception_model", OFunction "train_ref_read_inception_model" 756);
  ("train_ref_read_dilated_model", OFunction "train_ref_read_dilated_model" 788);
  ("train_ref_read_annotation_model", OFunction "train_ref_read_annotation_model" 820);
  ("train_ref_read_annotation_exome_model",
   OFunction "train_ref_read_annotation_exome_model" 847);
  ("test_tensor_and_annotations_vs_filters",
   OFunction "test_tensor_and_annotations_vs_filters" 880);
  ("test_tensor_vs_vcf", OFunction "test_tensor_vs_vcf" 935);
  ("test_tensor_vs_multiple_vcfs", OFunction "test_tensor_vs_multiple_vcfs" 983);
  ("test_tensor_vs_gnomad", OFunction "test_tensor_vs_gnomad" 1054);
  ("test_refconv_vs_gnomad", OFunction "test_refconv_vs_gnomad" 1187);
  ("plot_vcf_roc", OFunction "plot_vcf_roc" 1273);
  ("plot_vcf_roc_gnomad_scores", OFunction "plot_vcf_roc_gnomad_scores" 1286);
  ("plot_vcf_roc_gnomad_like_scores", OFunction "plot_vcf_roc_gnomad_like_scores" 1302);
  ("plot_multi_vcf_roc", OFunction "plot_multi_vcf_roc" 1320);
  ("test_tensor_and_annotations", OFunction "test_tensor_and_annotations" 1340);
  ("test_ref_read_annotation_exome_model",
   OFunction "test_ref_read_annotation_exome_model" 1360);
  ("roc_curve_through_learning", OFunction "roc_curve_through_learning" 1380);
  ("roc_curve_through_learning", OFunction "roc_curve_through_learning" 1413);
  ("roc_curve_through_learning_segmentation",
   OFunction "roc_curve_through_learning_segmentation" 1447);
  ("depristo_inception", OFunction "depristo_inception" 1483);
  ("make_annotation_multilayer_perceptron",
   OFunction "make_annotation_multilayer_perceptron" 1512);
  ("make_reference_net", OFunction "make_reference_net" 1545);
  ("make_reference_annotation_net", OFunction "make_reference_annotation_net" 1571);
  ("train_reference_plus_skip", OFunction "train_reference_plus_skip" 1596);
  ("make_reference_annotation_net_1layer",
   OFunction "make_reference_annotation_net_1layer" 1621);
  ("test_reference_annotation_net", OFunction "test_reference_annotation_net" 1646);
  ("test_reference_net", OFunction "test_reference_net" 1688);
  ("test_annotation_multilayer_perceptron",
   OFunction "test_annotation_multilayer_perceptron" 1730);
  ("inference_with_architectures", OFunction "inference_with_architectures" 1772);
  ("test_architectures", OFunction "test_architectures" 1788)
].

(** The names a module's dictionary holds before its body is executed. *)
Definition module_initial : gmap string pyobj :=
  list_to_map [("__name__", OStr "__main__"); ("__doc__", ONone);
               ("__package__", ONone); ("__file__", OStr "recipes.py");
               ("__builtins__", OModule "__builtin__")].

(** Executing the module body binds the names one after the other in the
    module's dictionary.  (The last statement of recipes.py, the call of
    [run] under the [__main__] guard, comes after all of them.) *)
Definition exec_module (stmts : list (string * pyobj)) : gmap string pyobj :=
  foldl (fun g nb => <[nb.1 := nb.2]> g) module_initial stmts.

Definition module_globals : gmap string pyobj := exec_module module_statements.

(** The names of the builtins module. *)
Definition builtins : list string := [
  "ArithmeticError"; "AssertionError"; "AttributeError"; "BaseException";
  "BufferError"; "BytesWarning"; "DeprecationWarning"; "EOFError";
  "Ellipsis"; "EnvironmentError"; "Exception"; "False"; "FloatingPointError";
  "FutureWarning"; "GeneratorExit"; "IOError"; "ImportError";
  "ImportWarning"; "IndentationError"; "IndexError"; "KeyError";
  "KeyboardInterrupt"; "LookupError"; "MemoryError"; "NameError"; "None";
  "NotImplemented"; "NotImplementedError"; "OSError"; "OverflowError";
  "PendingDeprecationWarning"; "ReferenceError"; "RuntimeError";
  "RuntimeWarning"; "StandardError"; "StopIteration"; "SyntaxError";
  "SyntaxWarning"; "SystemError"; "SystemExit"; "TabError"; "True";
  "TypeError"; "UnboundLocalError"; "UnicodeDecodeError";
  "UnicodeEncodeError"; "UnicodeError"; "UnicodeTranslateError";
  "UnicodeWarning"; "UserWarning"; "ValueError"; "Warning";
  "ZeroDivisionError"; "__debug__"; "__doc__"; "__import__"; "__name__";
  "__package__"; "abs"; "all"; "any"; "apply"; "ascii"; "basestring"; "bin";
  "bool"; "buffer"; "bytearray"; "bytes"; "callable"; "chr"; "classmethod";
  "cmp"; "coerce"; "compile"; "complex"; "copyright"; "credits"; "delattr";
  "dict"; "dir"; "divmod"; "enumerate"; "eval"; "exec"; "execfile"; "exit";
  "file"; "filter"; "float"; "format"; "frozenset"; "getattr"; "globals";
  "hasattr"; "hash"; "help"; "hex"; "id"; "input"; "int"; "intern";
  "isinstance"; "issubclass"; "iter"; "len"; "license"; "list"; "locals";
  "long"; "map"; "max"; "memoryview"; "min"; "next"; "object"; "oct";
  "open"; "ord"; "pow"; "print"; "property"; "quit"; "range"; "raw_input";
  "reduce"; "reload"; "repr"; "reversed"; "round"; "set"; "setattr";
  "slice"; "sorted"; "staticmethod"; "str"; "sum"; "super"; "tuple"; "type";
  "unichr"; "unicode"; "vars"; "xrange"; "zip"
].

Section Code.
Context `{Library}.

(** Reading a name that the function does not assign: the module's
    dictionary, then the builtins, else [NameError]. *)
Definition load_global (name : string) : M pyobj :=
  match module_globals !! name with
  | Some o => ret o
  | None =>
      if bool_decide (name ∈ builtins) then ret (OBuiltin name)
      else raise (NameError name)
  end.

(** [alias.attr] where [alias] names an imported module: the qualified name
    used for the callee in the trace. *)
Definition load_attr (alias attr : string) : M string :=
  let* m := load_global alias in
  match m with
  | OModule _ => ret (alias +:+ "." +:+ attr)
  | _ => raise (OtherError "AttributeError")
  end.

(** Calling a library function that was already looked up. *)
Definition invoke (callee : string) (pos : list arg) (kw : list (string * arg)) : M pyobj :=
  fun st =>
    let '(r, w) := lib callee pos kw (st_world st) in
    (Returned r,
     {| st_args := st_args st; st_world := w;
        st_trace := st_trace st ++ [Call callee pos kw] |}).

Definition invoke3 (callee : string) (pos : list arg) (kw : list (string * arg))
  : M (pyobj * pyobj * pyobj) :=
  fun st =>
    let '(r, w) := lib3 callee pos kw (st_world st) in
    (Returned r,
     {| st_args := st_args st; st_world := w;
        st_trace := st_trace st ++ [Call callee pos kw] |}).

(** [alias.func(pos, kw)] *)
Definition call (alias func : string) (pos : list arg) (kw : list (string * arg)) : M pyobj :=
  let* callee := load_attr alias func in invoke callee pos kw.

Definition call3 (alias func : string) (pos : list arg) (kw : list (string * arg))
  : M (pyobj * pyobj * pyobj) :=
  let* callee := load_attr alias func in invoke3 callee pos kw.

(** [obj.meth(pos, kw)] on an object of a library; the receiver is recorded
    as the first argument. *)
Definition call_method (obj : pyobj) (meth : string) (pos : list arg) (kw : list (string * arg)) : M pyobj :=
  invoke ("." +:+ meth) (AObj obj :: pos) kw.

(** [alias.attr] read as a value. *)
Definition getattr (alias attr : string) : M pyobj :=
  let* qualified := load_attr alias attr in
  query (lib_attr qualified).

(** [print(items)] under [print_function]. *)
Definition print (items : list pyobj) : M unit := emit (Print items).

(** *** [run]: the branch selected by [args.mode] *)

(** What a branch of the chain does. *)
Inductive action :=
| CallRecipe (name : string)
    (* [name(args)] *)
| CallLib (alias func : string) (kw : list (string * bool))
    (* [alias.func(args, kw)] *)
| WriteFilters (build write_ : string)
    (* [model = models.build(args)] then [models.write_(args, model)] *)
| UnknownMode.
    (* [print('\n\n ERROR! Unknown recipe mode:', args.mode, '\n\n\n')] *)

(** The if/elif chain of [run], lines 41-180. *)
Definition dispatch (args : Args) : action :=
  if String.eqb "train_reference" (mode args) then CallRecipe "make_reference_net"
  else if String.eqb "train_reference_annotation" (mode args)
  then CallRecipe "make_reference_annotation_net"
  else if String.eqb "train_reference_plus_skip" (mode args)
  then CallRecipe "train_reference_plus_skip"
  else if String.eqb "train_reference_1layer" (mode args)
  then CallRecipe "make_reference_annotation_net_1layer"
  else if String.eqb "train_annotation_mlp" (mode args)
  then CallRecipe "make_annotation_multilayer_perceptron"
  else if String.eqb "train_ref_read" (mode args) then CallRecipe "train_ref_read_model"
  else if String.eqb "train_ref_read_resnet" (mode args)
  then CallRecipe "train_ref_read_resnet_model"
  else if String.eqb "train_ref_read_dilated" (mode args)
  then CallRecipe "train_ref_read_dilated_model"
  else if String.eqb "train_train_ref_read_b" (mode args)
  then CallRecipe "train_ref_read_model_b"
  else if String.eqb "train_ref_read_bayes" (mode args)
  then CallRecipe "train_ref_read_inception_model"
  else if String.eqb "train_pileup_filter" (mode args)
  then CallRecipe "train_pileup_filter"
  else if String.eqb "train_calling_model" (mode args)
  then CallRecipe "train_calling_model"
  else if String.eqb "train_calling_full2d" (mode args)
  then CallRecipe "train_calling_model_full"
  else if String.eqb "train_calling_model_1d" (mode args)
  then CallRecipe "train_calling_model_1d"
  else if String.eqb "train_ref_read_anno" (mode args)
  then CallRecipe "train_ref_read_annotation_model"
  else if String.eqb "train_ref_read_anno_exome" (mode args)
  then CallRecipe "train_ref_read_annotation_exome_model"
  else if String.eqb "train_bqsr" (mode args) then CallRecipe "bqsr_train_tensor"
  else if String.eqb "train_bqsr_anno" (mode args)
  then CallRecipe "bqsr_train_annotation_tensor"
  else if String.eqb "train_bqsr_lstm" (mode args)
  then CallRecipe "bqsr_lstm_train_tensor"
  else if String.eqb "train_depristo_inception" (mode args)
  then CallRecipe "depristo_inception"
  else if String.eqb "test_tensor" (mode args)
  then CallRecipe "test_tensor_and_annotations"
  else if String.eqb "test_tensor_exome" (mode args)
  then CallRecipe "test_ref_read_annotation_exome_model"
  else if String.eqb "test_tensor_vcf" (mode args) then CallRecipe "test_tensor_vs_vcf"
  else if String.eqb "test_tensor_multi_vcf" (mode args)
  then CallRecipe "test_tensor_vs_multiple_vcfs"
  else if String.eqb "test_tensor_filters" (mode args)
  then CallRecipe "test_tensor_and_annotations_vs_filters"
  else if String.eqb "test_tensor_gnomad" (mode args)
  then CallRecipe "test_tensor_vs_gnomad"
  else if String.eqb "test_refconv_gnomad" (mode args)
  then CallRecipe "test_refconv_vs_gnomad"
  else if String.eqb "test_refconv" (mode args)
  then CallRecipe "test_reference_annotation_net"
  else if String.eqb "test_ref" (mode args) then CallRecipe "test_reference_net"
  else if String.eqb "test_anno_mlp" (mode args)
  then CallRecipe "test_annotation_multilayer_perceptron"
  else if String.eqb "test_caller" (mode args) then CallRecipe "test_caller_pileup"
  else if String.eqb "test_caller_2d" (mode args) then CallRecipe "test_caller_2d"
  else if String.eqb "test_architectures" (mode args)
  then CallRecipe "test_architectures"
  else if String.eqb "plot_vcf_roc" (mode args) then CallRecipe "plot_vcf_roc"
  else if String.eqb "plot_vcf_roc_gnomad" (mode args)
  then CallRecipe "plot_vcf_roc_gnomad_scores"
  else if String.eqb "plot_vcf_roc_gnomad_like" (mode args)
  then CallRecipe "plot_vcf_roc_gnomad_like_scores"
  else if String.eqb "plot_multi_vcf_roc" (mode args)
  then CallRecipe "plot_multi_vcf_roc"
  else if String.eqb "roc_animation" (mode args)
  then CallRecipe "roc_curve_through_learning"
  else if String.eqb "pr_segmentation_animation" (mode args)
  then CallRecipe "roc_curve_through_learning_segmentation"
  else if String.eqb "write_tensors" (mode args)
  then CallLib "td" "tensors_from_tensor_map" [("include_annotations", true)]
  else if String.eqb "write_paired_read_tensors" (mode args)
  then CallLib "td" "paired_read_tensors_from_map" [("include_annotations", true)]
  else if String.eqb "write_tensors_2bit" (mode args)
  then CallLib "td" "tensors_from_tensor_map_2channel" [("include_annotations", true)]
  else if String.eqb "write_tensors_no_annotations" (mode args)
  then CallLib "td" "tensors_from_tensor_map" [("include_annotations", false)]
  else if String.eqb "write_tensors_gnomad_annotations" (mode args)
  then CallLib "td" "tensors_from_tensor_map_gnomad_annos" []
  else if String.eqb "write_tensors_gnomad_annotations_per_allele_1d" (mode args)
  then CallLib "td" "tensors_from_tensor_map_gnomad_annos_per_allele" [("include_reads", false); ("include_reference", true)]
  else if String.eqb "write_tensors_gnomad_1d" (mode args)
  then CallLib "td" "tensors_from_tensor_map_gnomad_annos" [("include_reads", false); ("include_reference", true)]
  else if String.eqb "write_depristo" (mode args)
  then CallLib "td" "nist_samples_to_png" []
  else if String.eqb "write_calling_tensors" (mode args)
  then CallLib "td" "calling_tensors_from_tensor_map" []
  else if String.eqb "write_pileup_filter_tensors" (mode args)
  then CallLib "td" "tensors_from_tensor_map" [("pileup", true)]
  else if String.eqb "write_calling_tensors_1d" (mode args)
  then CallLib "td" "calling_tensors_from_tensor_map" [("pileup", true)]
  else if String.eqb "write_dna_tensors" (mode args)
  then CallLib "td" "write_dna_and_annotations" []
  else if String.eqb "write_bed_tensors" (mode args)
  then CallLib "td" "write_dna_multisource_annotations" []
  else if String.eqb "write_bed_tensors_dna" (mode args)
  then CallLib "td" "write_dna_multisource_annotations" [("include_annotations", false)]
  else if String.eqb "write_bed_tensors_annotations" (mode args)
  then CallLib "td" "write_dna_multisource_annotations" [("include_dna", false)]
  else if String.eqb "write_bqsr_tensors" (mode args)
  then CallLib "td" "bqsr_tensors_from_tensor_map" [("include_annotations", true)]
  else if String.eqb "write_filters_2d" (mode args)
  then WriteFilters "build_read_tensor_2d_and_annotations_model" "write_filters_2d"
  else if String.eqb "write_filters_1d" (mode args)
  then WriteFilters "build_reference_model" "write_filters_1d"
  else if String.eqb "write_tranches" (mode args) then CallLib "td" "write_tranches" []
  else if String.eqb "inspect_tensors" (mode args)
  then CallLib "td" "inspect_read_tensors" []
  else if String.eqb "inspect_dataset" (mode args)
  then CallLib "td" "inspect_dataset" []
  else if String.eqb "inspect_architectures" (mode args)
  then CallRecipe "inspect_architectures"
  else if String.eqb "inspect_gnomad" (mode args)
  then CallLib "td" "inspect_gnomad_low_ac" []
  else if String.eqb "combine_vcfs" (mode args) then CallLib "td" "combine_vcfs" []
  else UnknownMode.

(** The guards of the chain with what each guards, in source order. *)
Definition branches : list (string * action) := [
    ("train_reference", CallRecipe "make_reference_net");
    ("train_reference_annotation", CallRecipe "make_reference_annotation_net");
    ("train_reference_plus_skip", CallRecipe "train_reference_plus_skip");
    ("train_reference_1layer", CallRecipe "make_reference_annotation_net_1layer");
    ("train_annotation_mlp", CallRecipe "make_annotation_multilayer_perceptron");
    ("train_ref_read", CallRecipe "train_ref_read_model");
    ("train_ref_read_resnet", CallRecipe "train_ref_read_resnet_model");
    ("train_ref_read_dilated", CallRecipe "train_ref_read_dilated_model");
    ("train_train_ref_read_b", CallRecipe "train_ref_read_model_b");
    ("train_ref_read_bayes", CallRecipe "train_ref_read_inception_model");
    ("train_pileup_filter", CallRecipe "train_pileup_filter");
    ("train_calling_model", CallRecipe "train_calling_model");
    ("train_calling_full2d", CallRecipe "train_calling_model_full");
    ("train_calling_model_1d", CallRecipe "train_calling_model_1d");
    ("train_ref_read_anno", CallRecipe "train_ref_read_annotation_model");
    ("train_ref_read_anno_exome", CallRecipe "train_ref_read_annotation_exome_model");
    ("train_bqsr", CallRecipe "bqsr_train_tensor");
    ("train_bqsr_anno", CallRecipe "bqsr_train_annotation_tensor");
    ("train_bqsr_lstm", CallRecipe "bqsr_lstm_train_tensor");
    ("train_depristo_inception", CallRecipe "depristo_inception");
    ("test_tensor", CallRecipe "test_tensor_and_annotations");
    ("test_tensor_exome", CallRecipe "test_ref_read_annotation_exome_model");
    ("test_tensor_vcf", CallRecipe "test_tensor_vs_vcf");
    ("test_tensor_multi_vcf", CallRecipe "test_tensor_vs_multiple_vcfs");
    ("test_tensor_filters", CallRecipe "test_tensor_and_annotations_vs_filters");
    ("test_tensor_gnomad", CallRecipe "test_tensor_vs_gnomad");
    ("test_refconv_gnomad", CallRecipe "test_refconv_vs_gnomad");
    ("test_refconv", CallRecipe "test_reference_annotation_net");
    ("test_ref", CallRecipe "test_reference_net");
    ("test_anno_mlp", CallRecipe "test_annotation_multilayer_perceptron");
    ("test_caller", CallRecipe "test_caller_pileup");
    ("test_caller_2d", CallRecipe "test_caller_2d");
    ("test_architectures", CallRecipe "test_architectures");
    ("plot_vcf_roc", CallRecipe "plot_vcf_roc");
    ("plot_vcf_roc_gnomad", CallRecipe "plot_vcf_roc_gnomad_scores");
    ("plot_vcf_roc_gnomad_like", CallRecipe "plot_vcf_roc_gnomad_like_scores");
    ("plot_multi_vcf_roc", CallRecipe "plot_multi_vcf_roc");
    ("roc_animation", CallRecipe "roc_curve_through_learning");
    ("pr_segmentation_animation", CallRecipe "roc_curve_through_learning_segmentation");
    ("write_tensors",
     CallLib "td" "tensors_from_tensor_map" [("include_annotations", true)]);
    ("write_paired_read_tensors",
     CallLib "td" "paired_read_tensors_from_map" [("include_annotations", true)]);
    ("write_tensors_2bit",
     CallLib "td" "tensors_from_tensor_map_2channel" [("include_annotations", true)]);
    ("write_tensors_no_annotations",
     CallLib "td" "tensors_from_tensor_map" [("include_annotations", false)]);
    ("write_tensors_gnomad_annotations",
     CallLib "td" "tensors_from_tensor_map_gnomad_annos" []);
    ("write_tensors_gnomad_annotations_per_allele_1d",
     CallLib "td" "tensors_from_tensor_map_gnomad_annos_per_allele" [("include_reads", false); ("include_reference", true)]);
    ("write_tensors_gnomad_1d",
     CallLib "td" "tensors_from_tensor_map_gnomad_annos" [("include_reads", false); ("include_reference", true)]);
    ("write_depristo", CallLib "td" "nist_samples_to_png" []);
    ("write_calling_tensors", CallLib "td" "calling_tensors_from_tensor_map" []);
    ("write_pileup_filter_tensors",
     CallLib "td" "tensors_from_tensor_map" [("pileup", true)]);
    ("write_calling_tensors_1d",
     CallLib "td" "calling_tensors_from_tensor_map" [("pileup", true)]);
    ("write_dna_tensors", CallLib "td" "write_dna_and_annotations" []);
    ("write_bed_tensors", CallLib "td" "write_dna_multisource_annotations" []);
    ("write_bed_tensors_dna",
     CallLib "td" "write_dna_multisource_annotations" [("include_annotations", false)]);
    ("write_bed_tensors_annotations",
     CallLib "td" "write_dna_multisource_annotations" [("include_dna", false)]);
    ("write_bqsr_tensors",
     CallLib "td" "bqsr_tensors_from_tensor_map" [("include_annotations", true)]);
    ("write_filters_2d",
     WriteFilters "build_read_tensor_2d_and_annotations_model" "write_filters_2d");
    ("write_filters_1d", WriteFilters "build_reference_model" "write_filters_1d");
    ("write_tranches", CallLib "td" "write_tranches" []);
    ("inspect_tensors", CallLib "td" "inspect_read_tensors" []);
    ("inspect_dataset", CallLib "td" "inspect_dataset" []);
    ("inspect_architectures", CallRecipe "inspect_architectures");
    ("inspect_gnomad", CallLib "td" "inspect_gnomad_low_ac" []);
    ("combine_vcfs", CallLib "td" "combine_vcfs" [])
].

(** First-match semantics of an if/elif chain over a list of guarded
    branches. *)
Fixpoint chain (bs : list (string * action)) (m : string) : action :=
  match bs with
  | [] => UnknownMode
  | (k, act) :: bs' => if String.eqb k m then act else chain bs' m
  end.

(** The dispatch as the spec describes it: a lookup table keyed by command
    name, built as a dictionary literal (a later entry for the same key
    replaces an earlier one), with the error action as default. *)
Definition recipe_map (bs : list (string * action)) : gmap string action :=
  foldl (fun d kv => <[kv.1 := kv.2]> d) ∅ bs.

Definition dispatch_by_table (args : Args) : action :=
  default UnknownMode (recipe_map branches !! mode args).

(** *** Reading names inside a function *)

(** Reading [name] where no assignment to it has been executed: if the
    function assigns the name somewhere ([locals]) the read is of an unset
    local variable, otherwise of a global. *)
Definition load_name (locals : list string) (name : string) : M pyobj :=
  if bool_decide (name ∈ locals) then raise (UnboundLocalError name)
  else load_global name.

(** The names each recipe assigns (its parameter included). *)
Definition locals_bqsr_train_tensor : list string :=
  ["args"; "train_paths"; "valid_paths"; "test_paths"; "generate_train";
   "generate_valid"; "weight_path"; "model"; "test"].

Definition locals_bqsr_lstm_train_tensor : list string :=
  ["args"; "train_paths"; "valid_paths"; "test_paths"; "generate_train";
   "generate_valid"; "model"; "test"].

(** *** Recipes whose bodies are modelled *)

(** [bqsr_train_tensor], lines 562-587. *)
Definition bqsr_train_tensor : M unit :=
  let* base_labels_binary := getattr "defines" "base_labels_binary" in
  let* _ := setattr (set_labels base_labels_binary) in
  let* channel_map := call "defines" "bqsr_tensor_channel_map" [] [] in
  let* _ := setattr (set_input_symbols channel_map) in
  let* args := get_args in
  let* paths := call3 "td" "get_train_valid_test_paths" [AArgs args] [] in
  let '(train_paths, valid_paths, test_paths) := paths in
  let* generate_train := call "td" "bqsr_tensor_generator" [AArgs args; AObj train_paths] [] in
  let* generate_valid := call "td" "bqsr_tensor_generator" [AArgs args; AObj valid_paths] [] in
  let* weight_path := call "arguments" "weight_path_from_args" [AArgs args] [] in
  let* model := call "models" "build_bqsr_model" [AArgs args] [] in
  let* model := call "models" "train_model_from_generators"
             [AArgs args; AObj model; AObj generate_train; AObj generate_valid;
              AObj weight_path] [] in
  let* test := call "td" "load_bqsr_tensors_from_class_dirs"
            [AArgs args; AObj test_paths] [("per_class_max", AObj (OInt 1800))] in
  let* _ := call "plots" "plot_roc_per_class"
              [AObj model; AObj (lib_getitem test 0); AObj (lib_getitem test 1);
               AObj (labels args); AObj (OStr (id_ args))] [] in
  ret tt.

(** [bqsr_lstm_train_tensor], lines 619-643.  The callee
    [models.train_model_from_generators] and the arguments are evaluated
    from left to right before the call is made; the last argument is a read
    of [weight_path], a name the function does not assign. *)
Definition bqsr_lstm_train_tensor : M unit :=
  let* base_labels_binary := getattr "defines" "base_labels_binary" in
  let* _ := setattr (set_labels base_labels_binary) in
  let* channel_map := call "defines" "bqsr_tensor_channel_map" [] [] in
  let* _ := setattr (set_input_symbols channel_map) in
  let* args := get_args in
  let* paths := call3 "td" "get_train_valid_test_paths" [AArgs args] [] in
  let '(train_paths, valid_paths, test_paths) := paths in
  let* generate_train := call "td" "bqsr_tensor_generator" [AArgs args; AObj train_paths] [] in
  let* generate_valid := call "td" "bqsr_tensor_generator" [AArgs args; AObj valid_paths] [] in
  let* model := call "models" "build_bqsr_lstm_model" [AArgs args] [] in
  let* train_model_from_generators := load_attr "models" "train_model_from_generators" in
  let* weight_path := load_name locals_bqsr_lstm_train_tensor "weight_path" in
  let* model := invoke train_model_from_generators
             [AArgs args; AObj model; AObj generate_train; AObj generate_valid;
              AObj weight_path] [] in
  let* test := call "td" "load_bqsr_tensors_from_class_dirs"
            [AArgs args; AObj test_paths] [("per_class_max", AObj (OInt 1800))] in
  let* _ := call "plots" "plot_roc_per_class"
              [AObj model; AObj (lib_getitem test 0); AObj (lib_getitem test 1);
               AObj (labels args); AObj (OStr (id_ args))] [] in
  ret tt.

(** The statements the two definitions of [roc_curve_through_learning]
    share: everything before the loop (lines 1391-1405 and 1424-1438), and
    the loop body (lines 1407-1411 and 1440-1444). *)
Definition roc_setup : M (Args * pyobj * pyobj * pyobj * pyobj * pyobj) :=
  let* args := get_args in
  let* paths := call3 "td" "get_train_valid_test_paths" [AArgs args] [] in
  let '(train_paths, valid_paths, test_paths) := paths in
  let* in_channels := call "defines" "total_input_channels_from_args" [AArgs args] [] in
  let tensor_shape :=
    if channels_last args
    then OTuple [OInt (read_limit args); OInt (window_size args); in_channels]
    else OTuple [in_channels; OInt (read_limit args); OInt (window_size args)] in
  let* generate_train := call "td" "tensor_annotation_generator"
                      [AArgs args; AObj train_paths; AObj tensor_shape] [] in
  let* generate_valid := call "td" "tensor_annotation_generator"
                      [AArgs args; AObj valid_paths; AObj tensor_shape] [] in
  let* weight_path := call "arguments" "weight_path_from_args" [AArgs args] [] in
  let* model := call "models" "build_read_tensor_2d_and_annotations_model" [AArgs args] [] in
  let* test := call "td" "load_tensors_and_annotations_from_class_dirs"
            [AArgs args; AObj test_paths]
            [("per_class_max", AObj (OInt (samples args)))] in
  ret (args, generate_train, generate_valid, weight_path, model, test).

Definition roc_step (args : Args) (generate_train generate_valid weight_path model test : pyobj)
    (i : Z) : M unit :=
  let* callbacks := call "models" "get_callbacks" [AObj weight_path]
                 [("patience", AObj (OInt 4))] in
  let* _ := call_method model "fit_generator" [AObj generate_train]
              [("samples_per_epoch", AObj (OInt (batch_size args * 2)%Z));
               ("nb_epoch", AObj (OInt 1)); ("verbose", AObj (OInt 1));
               ("nb_val_samples", AObj (OInt (batch_size args)));
               ("validation_data", AObj generate_valid);
               ("callbacks", AObj callbacks)] in
  let* _ := call "plots" "plot_roc_per_class"
              [AObj model;
               AObj (OList [lib_getitem test 0; lib_getitem test 1; lib_getitem test 2]);
               AObj (lib_getitem test 3); AObj (labels args);
               AObj (OStr (id_ args +:+ str i))]
              [("prefix", AObj (OStr "./figures/animations/"))] in
  ret tt.

(** [roc_curve_through_learning] as defined at line 1380:
    [for i in range(args.epochs)]. *)
Definition roc_curve_through_learning_1380 : M unit :=
  let* s := roc_setup in
  let '(args, generate_train, generate_valid, weight_path, model, test) := s in
  for_ (range (epochs args))
       (roc_step args generate_train generate_valid weight_path model test).

(** [roc_curve_through_learning] as defined at line 1413:
    [for i in range(args.iterations)]. *)
Definition roc_curve_through_learning_1413 : M unit :=
  let* s := roc_setup in
  let '(args, generate_train, generate_valid, weight_path, model, test) := s in
  for_ (range (iterations args))
       (roc_step args generate_train generate_valid weight_path model test).

(** A recipe whose body is not modelled. *)
Definition unmodelled (line : N) : M unit :=
  fun st =>
    let '(o, a, w) := lib_body line (st_args st) (st_world st) in
    (o, {| st_args := a; st_world := w; st_trace := st_trace st |}).

(** The code of the [def] at a line. *)
Definition body_at (line : N) : M unit :=
  if N.eqb line 562 then bqsr_train_tensor
  else if N.eqb line 619 then bqsr_lstm_train_tensor
  else if N.eqb line 1380 then roc_curve_through_learning_1380
  else if N.eqb line 1413 then roc_curve_through_learning_1413
  else unmodelled line.

(** [name(args)] for a name bound at module level: the name is looked up
    when the call is made. *)
Definition call_global (name : string) : M unit :=
  let* f := load_global name in
  match f with
  | OFunction fname line =>
      let* args := get_args in
      let* _ := emit (Enter fname line args) in
      body_at line
  | _ => raise (TypeError "object is not callable")
  end.

Definition newline : string := String (ascii_of_nat 10) "".

Definition exec_action (act : action) : M unit :=
  match act with
  | CallRecipe name => call_global name
  | CallLib alias func kw =>
      let* args := get_args in
      let* _ := call alias func [AArgs args]
                  (map (fun kv => (kv.1, AObj (OBool kv.2))) kw) in
      ret tt
  | WriteFilters build write_ =>
      let* args := get_args in
      let* model := call "models" build [AArgs args] [] in
      let* _ := call "models" write_ [AArgs args; AObj model] [] in
      ret tt
  | UnknownMode =>
      let* args := get_args in
      print [OStr (newline +:+ newline +:+ " ERROR! Unknown recipe mode:");
             OStr (mode args);
             OStr (newline +:+ newline +:+ newline)]
  end.

(** [run], lines 36-180: parse the command line, then execute the branch
    the chain selects.  The state starts with the namespace object
    [parse_args] returned. *)
Definition run (w : World) : outcome unit * state :=
  let '(args, w') := lib_parse_args w in
  exec_action (dispatch args)
    {| st_args := args; st_world := w';
       st_trace := [Call "arguments.parse_args" [] []] |}.

(** *** The class directories of the test recipes *)

(** Order of [str] values: lexicographic by character code. *)
Definition str_le (s1 s2 : string) : Prop := String.leb s1 s2 = true.

#[export] Instance str_le_dec : RelDecision str_le :=
  fun s1 s2 => decide (String.leb s1 s2 = true).

(** [sorted(l)] for a list of strings. *)
Definition sorted (l : list string) : list string := merge_sort str_le l.

Definition os_listdir (path : string) : M (list string) :=
  let* callee := load_attr "os" "listdir" in
  let* _ := emit (Call callee [AObj (OStr path)] []) in
  query (lib_listdir path).

Definition os_path_isdir (path : string) : M bool :=
  let* callee := load_attr "os" "path.isdir" in
  let* _ := emit (Call callee [AObj (OStr path)] []) in
  query (lib_isdir path).

(** [[x for x in l if cond(x)]] *)
Fixpoint comprehension_if {A} (cond : A -> M bool) (l : list A) : M (list A) :=
  match l with
  | [] => ret []
  | x :: l' =>
      let* b := cond x in
      let* rest := comprehension_if cond l' in
      ret (if b : bool then x :: rest else rest)
  end.

(** [[test_dir + vp for vp in sorted(os.listdir(test_dir))
      if os.path.isdir(test_dir + vp)]], lines 1662, 1704 and 1746. *)
Definition test_paths_of (test_dir : string) : M (list string) :=
  let* listing := os_listdir test_dir in
  let* kept := comprehension_if (fun vp => os_path_isdir (test_dir +:+ vp)) (sorted listing) in
  ret (map (fun vp => test_dir +:+ vp) kept).

(** The three test recipes up to the loading of the test tensors; what
    follows in each scores and plots what was loaded.  The result is the
    object the loader returns. *)

(** [test_reference_annotation_net], lines 1658-1665. *)
Definition test_reference_annotation_net : M pyobj :=
  let* args := get_args in
  let* weight_path := call "arguments" "weight_path_from_args" [AArgs args] [] in
  let* model := call "models" "build_reference_plus_model" [AArgs args] [] in
  let test_dir := data_dir args +:+ "test/" in
  let* test_paths := test_paths_of test_dir in
  let* title := call "plots" "weight_path_to_title" [AObj weight_path] [] in
  call "td" "load_dna_annotations_positions_from_class_dirs"
    [AArgs args; AObj (OList (OStr <$> test_paths))]
    [("per_class_max", AObj (OInt (samples args)))].

(** [test_reference_net], lines 1700-1707. *)
Definition test_reference_net : M pyobj :=
  let* args := get_args in
  let* weight_path := call "arguments" "weight_path_from_args" [AArgs args] [] in
  let* model := call "models" "build_reference_model" [AArgs args] [] in
  let test_dir := data_dir args +:+ "test/" in
  let* test_paths := test_paths_of test_dir in
  let* title := call "plots" "weight_path_to_title" [AObj weight_path] [] in
  call "td" "load_tensors_from_class_dirs"
    [AArgs args; AObj (OList (OStr <$> test_paths))]
    [("per_class_max", AObj (OInt (samples args)));
     ("dataset_id", AObj (OStr "reference"))].

(** [test_annotation_multilayer_perceptron], lines 1742-1749. *)
Definition test_annotation_multilayer_perceptron : M pyobj :=
  let* args := get_args in
  let* weight_path := call "arguments" "weight_path_from_args" [AArgs args] [] in
  let* model := call "models" "build_annotation_multilayer_perceptron" [AArgs args] [] in
  let test_dir := data_dir args +:+ "test/" in
  let* test_paths := test_paths_of test_dir in
  let* title := call "plots" "weight_path_to_title" [AObj weight_path] [] in
  call "td" "load_tensors_from_class_dirs"
    [AArgs args; AObj (OList (OStr <$> test_paths))]
    [("per_class_max", AObj (OInt (samples args)));
     ("dataset_id", AObj (OStr "annotations"))].

End Code.

(** *** Score dictionaries

    The baselines give, for each position, a pair (score, truth); the
    network gives a score.  Positions are any countable type of keys and
    scores any type. *)

Section Scores.
Context `{Countable K} {V : Type}.

(** [d.keys()]; the order is that of the map, any order serving as well. *)
Definition keys {A} (d : gmap K A) : list K := (map_to_list d).*1.

(** [d[p]] *)
Definition getitem {A} (d : gmap K A) (p : K) : outcome A :=
  match d !! p with
  | Some v => Returned v
  | None => Raised KeyError
  end.

(** [[f(p) for p in l]] where [f] may raise. *)
Fixpoint comprehension {A B} (f : A -> outcome B) (l : list A) : outcome (list B) :=
  match l with
  | [] => Returned []
  | x :: l' =>
      match f x with
      | Raised e => Raised e
      | Returned y =>
          match comprehension f l' with
          | Raised e => Raised e
          | Returned ys => Returned (y :: ys)
          end
      end
  end.

(** [d[p][0]] and [d[p][1]] *)
Definition score_at (d : gmap K (V * V)) (p : K) : outcome V :=
  match getitem d p with Returned v => Returned v.1 | Raised e => Raised e end.

Definition truth_at (d : gmap K (V * V)) (p : K) : outcome V :=
  match getitem d p with Returned v => Returned v.2 | Raised e => Raised e end.

(** [[k for k in heng_li.keys() if k in gatk.keys() and k in gatk_scores.keys()]],
    lines 912-913. *)
Definition shared_filter_keys (heng_li gatk gatk_scores : gmap K (V * V)) : list K :=
  filter (fun k => k ∈ keys gatk ∧ k ∈ keys gatk_scores) (keys heng_li).

(** The truth list and the score dictionary of one variant class, lines
    915-920 (SNP) and 922-927 (INDEL). *)
Definition filter_scores (cnn : gmap K V) (gatk_scores gatk heng_li : gmap K (V * V))
    (shared_keys : list K) : outcome (list V * gmap string (list V)) :=
  let scores : gmap string (list V) := ∅ in
  match comprehension (truth_at heng_li) shared_keys with
  | Raised e => Raised e
  | Returned truth =>
  match comprehension (score_at gatk_scores) shared_keys with
  | Raised e => Raised e
  | Returned l =>
  let scores := <["GATK Signed Distance" := l]> scores in
  match comprehension (score_at gatk) shared_keys with
  | Raised e => Raised e
  | Returned l =>
  let scores := <["GATK Hard Filters" := l]> scores in
  match comprehension (score_at heng_li) shared_keys with
  | Raised e => Raised e
  | Returned l =>
  let scores := <["Heng Li Hard Filters" := l]> scores in
  match comprehension (getitem cnn) shared_keys with
  | Raised e => Raised e
  | Returned l =>
  let scores := <["Neural Net" := l]> scores in
  Returned (truth, scores)
  end end end end end.

(** [test_tensor_and_annotations_vs_filters], lines 912-927, from the
    dictionaries the calls of lines 907-910 returned.  The result is what
    is plotted: SNP truth and scores, INDEL truth and scores. *)
Definition test_tensor_and_annotations_vs_filters
    (cnn_snp_dict cnn_indel_dict : gmap K V)
    (snp_gatk_scores indel_gatk_scores snp_gatk indel_gatk snp_heng_li indel_heng_li
       : gmap K (V * V))
  : outcome ((list V * gmap string (list V)) * (list V * gmap string (list V))) :=
  let shared_snp_keys := shared_filter_keys snp_heng_li snp_gatk snp_gatk_scores in
  let shared_indel_keys := shared_filter_keys indel_heng_li indel_gatk indel_gatk_scores in
  match filter_scores cnn_snp_dict snp_gatk_scores snp_gatk snp_heng_li shared_snp_keys with
  | Raised e => Raised e
  | Returned snp =>
  match filter_scores cnn_indel_dict indel_gatk_scores indel_gatk indel_heng_li
          shared_indel_keys with
  | Raised e => Raised e
  | Returned indel => Returned (snp, indel)
  end end.

(** [set.intersection] applied to the sets of a list, unpacked as its
    arguments. *)
Definition set_intersection (sets : list (gset K)) : outcome (gset K) :=
  match sets with
  | [] => Raised (TypeError "descriptor 'intersection' of 'set' object needs an argument")
  | s :: rest => Returned (foldl (∩) s rest)
  end.

(** Truth value of an optional path given on the command line. *)
Definition given (path : option string) : bool :=
  match path with
  | Some p => truthy (OStr p)
  | None => truthy ONone
  end.

(** The key sets of one variant class in [test_tensor_vs_gnomad], lines
    1096-1107: the two gnomAD baselines, then the optional ones. *)
Definition gnomad_key_sets (args : Args)
    (vqsr rf single_sample deep_variant : gmap K (V * V)) : list (gset K) :=
  let key_sets := [dom vqsr; dom rf] in
  let key_sets :=
    if single_sample_vqsr args then key_sets ++ [dom single_sample] else key_sets in
  let key_sets :=
    if given (deep_variant_vcf args) then key_sets ++ [dom deep_variant] else key_sets in
  key_sets.

(** [test_tensor_vs_gnomad], lines 1096-1110: [shared_snp_keys] and
    [shared_indel_keys], from the dictionaries the calls of lines 1093-1105
    returned (those of a disabled baseline are not read). *)
Definition test_tensor_vs_gnomad (args : Args)
    (snp_vqsr indel_vqsr snp_rf indel_rf snp_single_sample indel_single_sample
       snp_deep_variant indel_deep_variant : gmap K (V * V))
  : outcome (gset K * gset K) :=
  match set_intersection
          (gnomad_key_sets args snp_vqsr snp_rf snp_single_sample snp_deep_variant) with
  | Raised e => Raised e
  | Returned shared_snp_keys =>
  match set_intersection
          (gnomad_key_sets args indel_vqsr indel_rf indel_single_sample
             indel_deep_variant) with
  | Raised e => Raised e
  | Returned shared_indel_keys => Returned (shared_snp_keys, shared_indel_keys)
  end end.

End Scores.

(** ** Score lists, arrays and loops of the recipes

    The parts of the recipes that compute on what the libraries returned:
    dictionaries of scores, arrays of tensors, lists of items.  What a
    library returned is an argument of the definition. *)

(** *** Sequencing of computations that may raise *)

#[export] Instance outcome_ret : MRet outcome := fun A a => Returned a.

#[export] Instance outcome_bind : MBind outcome := fun A B k o =>
  match o with
  | Returned a => k a
  | Raised e => Raised e
  end.

(** Reading a local variable of a function: unset until an assignment to
    it has been executed. *)
Definition load_fast {A} (name : string) (v : option A) : outcome A :=
  match v with
  | Some x => Returned x
  | None => Raised (UnboundLocalError name)
  end.

Section ScoreLists.
Context `{Countable K} {V : Type}.

(** The truth list and the score dictionary that [test_tensor_vs_vcf]
    builds for one variant class over the keys of the baseline, lines
    967-970 (SNP) and 972-975 (INDEL); [name] is the key of the baseline's
    scores. *)
Definition vcf_scores (name : string) (cnn : gmap K V) (vqsr : gmap K (V * V))
  : outcome (list V * gmap string (list V)) :=
  let scores : gmap string (list V) := ∅ in
  truth ← comprehension (truth_at vqsr) (keys vqsr);
  l ← comprehension (score_at vqsr) (keys vqsr);
  let scores := <[name := l]> scores in
  l ← comprehension (getitem cnn) (keys vqsr);
  let scores := <["Neural Net" := l]> scores in
  mret (truth, scores).

(** [test_tensor_vs_vcf], lines 967-975, from the dictionaries the calls of
    lines 964-965 returned. *)
Definition test_tensor_vs_vcf (cnn_snp_dict cnn_indel_dict : gmap K V)
    (snp_vqsr indel_vqsr : gmap K (V * V))
  : outcome ((list V * gmap string (list V)) * (list V * gmap string (list V))) :=
  snp ← vcf_scores "VQSR Single Sample" cnn_snp_dict snp_vqsr;
  indel ← vcf_scores "VQSR Single Sample" cnn_indel_dict indel_vqsr;
  mret (snp, indel).

(** What [test_reference_annotation_net], [test_reference_net] and
    [test_annotation_multilayer_perceptron] build after loading the test
    tensors, lines 1672-1680, 1714-1722 and 1756-1764. *)
Definition test_net_scores (cnn_snp_dict cnn_indel_dict : gmap K V)
    (snp_heng_li indel_heng_li : gmap K (V * V))
  : outcome ((list V * gmap string (list V)) * (list V * gmap string (list V))) :=
  snp ← vcf_scores "VQSR" cnn_snp_dict snp_heng_li;
  indel ← vcf_scores "VQSR" cnn_indel_dict indel_heng_li;
  mret (snp, indel).

(** [test_tensor_vs_multiple_vcfs], lines 1017-1046, from the dictionaries
    the calls of lines 1012-1023 returned (those of a VCF that is not given
    are not read).  [plain_name] is [td.plain_name]. *)
Definition test_tensor_vs_multiple_vcfs (args : Args) (plain_name : option string -> string)
    (cnn_snp_dict cnn_indel_dict : gmap K V)
    (snp_vqsr indel_vqsr snp_loaded_2 indel_loaded_2 snp_loaded_3 indel_loaded_3
       : gmap K (V * V))
  : outcome ((list V * gmap string (list V)) * (list V * gmap string (list V))) :=
  let '(snp_vqsr_2, indel_vqsr_2) := (snp_vqsr, indel_vqsr) in
  let '(snp_vqsr_3, indel_vqsr_3) := (snp_vqsr, indel_vqsr) in
  let '(snp_vqsr_2, indel_vqsr_2) :=
    if given (negative_vcf_2 args) then (snp_loaded_2, indel_loaded_2)
    else (snp_vqsr_2, indel_vqsr_2) in
  let '(snp_vqsr_3, indel_vqsr_3) :=
    if given (negative_vcf_3 args) then (snp_loaded_3, indel_loaded_3)
    else (snp_vqsr_3, indel_vqsr_3) in
  let shared_snp_vqsr_keys := shared_filter_keys snp_vqsr snp_vqsr_2 snp_vqsr_3 in
  let shared_indel_vqsr_keys := shared_filter_keys indel_vqsr indel_vqsr_2 indel_vqsr_3 in
  let snp_scores : gmap string (list V) := ∅ in
  snp_truth ← comprehension (truth_at snp_vqsr) shared_snp_vqsr_keys;
  l ← comprehension (score_at snp_vqsr) shared_snp_vqsr_keys;
  let snp_scores := <["VQSR " +:+ plain_name (negative_vcf args) := l]> snp_scores in
  l ← comprehension (getitem cnn_snp_dict) shared_snp_vqsr_keys;
  let snp_scores := <["Neural Net" := l]> snp_scores in
  let indel_scores : gmap string (list V) := ∅ in
  indel_truth ← comprehension (truth_at indel_vqsr) shared_indel_vqsr_keys;
  l ← comprehension (score_at indel_vqsr) shared_indel_vqsr_keys;
  let indel_scores := <["VQSR " +:+ plain_name (negative_vcf args) := l]> indel_scores in
  l ← comprehension (getitem cnn_indel_dict) shared_indel_vqsr_keys;
  let indel_scores := <["Neural Net" := l]> indel_scores in
  scores ←
    (if given (negative_vcf_2 args) then
       l ← comprehension (score_at snp_vqsr_2) shared_snp_vqsr_keys;
       let snp_scores := <["VQSR " +:+ plain_name (negative_vcf_2 args) := l]> snp_scores in
       l ← comprehension (score_at indel_vqsr_2) shared_indel_vqsr_keys;
       let indel_scores :=
         <["VQSR " +:+ plain_name (negative_vcf_2 args) := l]> indel_scores in
       mret (snp_scores, indel_scores)
     else mret (snp_scores, indel_scores));
  let '(snp_scores, indel_scores) := scores in
  scores ←
    (if given (negative_vcf_3 args) then
       l ← comprehension (score_at snp_vqsr_3) shared_snp_vqsr_keys;
       let snp_scores := <["VQSR " +:+ plain_name (negative_vcf_2 args) := l]> snp_scores in
       l ← comprehension (score_at indel_vqsr_3) shared_indel_vqsr_keys;
       let indel_scores :=
         <["VQSR " +:+ plain_name (negative_vcf_2 args) := l]> indel_scores in
       mret (snp_scores, indel_scores)
     else mret (snp_scores, indel_scores));
  let '(snp_scores, indel_scores) := scores in
  mret ((snp_truth, snp_scores), (indel_truth, indel_scores)).

(** One variant class of [test_tensor_vs_gnomad] once the shared keys are
    known: the truth list of line 1112 (1113), and the score dictionary of
    lines 1117-1124 (1153-1160), which is built when the class is among
    [args.labels]; [cnn] is the dictionary the call of line 1116 (1152)
    returned. *)
Definition gnomad_truth (vqsr : gmap K (V * V)) (shared_keys : gset K) : outcome (list V) :=
  comprehension (truth_at vqsr) (elements shared_keys).

Definition gnomad_scores (args : Args) (cnn : gmap K V)
    (vqsr rf single_sample deep_variant : gmap K (V * V)) (shared_keys : gset K)
  : outcome (gmap string (list V)) :=
  let scores : gmap string (list V) := ∅ in
  l ← comprehension (score_at vqsr) (elements shared_keys);
  let scores := <["VQSR gnomAD" := l]> scores in
  l ← comprehension (getitem cnn) (elements shared_keys);
  let scores := <["Neural Net" := l]> scores in
  l ← comprehension (score_at rf) (elements shared_keys);
  let scores := <["Random Forest" := l]> scores in
  scores ←
    (if single_sample_vqsr args then
       l ← comprehension (score_at single_sample) (elements shared_keys);
       mret (<["VQSR Single Sample" := l]> scores)
     else mret scores);
  scores ←
    (if given (deep_variant_vcf args) then
       l ← comprehension (score_at deep_variant) (elements shared_keys);
       mret (<["Deep Variant" := l]> scores)
     else mret scores);
  mret scores.

(** [test_architectures], lines 1809-1826 of one iteration, from the
    dictionaries the calls of lines 1806-1818 returned.  The key sets are
    built as in [test_tensor_vs_gnomad]; [snp_deep_variant] and
    [indel_deep_variant] are assigned under the guard of line 1817 only, and
    the truth lists of lines 1825-1826 read them (a comprehension of
    Python 2 reads the variables of its function).  The last two arguments
    are what the two names are bound to when the iteration starts. *)
Definition test_architectures_truth (args : Args)
    (snp_vqsr indel_vqsr snp_rf indel_rf snp_single_sample indel_single_sample
       snp_loaded indel_loaded : gmap K (V * V))
    (snp_deep_variant indel_deep_variant : option (gmap K (V * V)))
  : outcome ((gset K * list V) * (gset K * list V)) :=
  let snp_key_sets := gnomad_key_sets args snp_vqsr snp_rf snp_single_sample snp_loaded in
  let indel_key_sets :=
    gnomad_key_sets args indel_vqsr indel_rf indel_single_sample indel_loaded in
  let '(snp_deep_variant, indel_deep_variant) :=
    if given (deep_variant_vcf args) then (Some snp_loaded, Some indel_loaded)
    else (snp_deep_variant, indel_deep_variant) in
  shared_snp_keys ← set_intersection snp_key_sets;
  shared_indel_keys ← set_intersection indel_key_sets;
  snp_truth ←
    comprehension (fun p => d ← load_fast "snp_deep_variant" snp_deep_variant; truth_at d p)
                  (elements shared_snp_keys);
  indel_truth ←
    comprehension (fun p => d ← load_fast "indel_deep_variant" indel_deep_variant;
                            truth_at d p)
                  (elements shared_indel_keys);
  mret ((shared_snp_keys, snp_truth), (shared_indel_keys, indel_truth)).

End ScoreLists.

Section MultiVcf.
Context {X : Type}.


End MultiVcf.

(** *** Arrays and lists

    An array is modelled by the list of its rows along the first axis. *)

Section Arrays.
Context {R : Type}.

(** [np.zeros((n, ...))]: [n] rows of zeros; a negative dimension is
    refused. *)
Definition np_zeros (zero : R) (n : Z) : outcome (list R) :=
  if (n <? 0)%Z then Raised (OtherError "ValueError")
  else Returned (replicate (Z.to_nat n) zero).

(** A bound [k] of a slice of an axis of length [n]: a negative bound
    counts from the end, and the bound is clipped to the axis. *)
Definition slice_bound (n k : Z) : Z :=
  if (k <? 0)%Z then Z.max 0 (k + n) else Z.min k n.

(** [a[lo:hi] = value] along the first axis: the value has as many rows as
    the slice, or one row, which is repeated. *)
Definition setslice (a : list R) (lo hi : Z) (value : list R) : outcome (list R) :=
  let n := Z.of_nat (length a) in
  let start := Z.to_nat (slice_bound n lo) in
  let stop := Z.to_nat (slice_bound n hi) in
  let m := (stop - start)%nat in
  if decide (length value = m)
  then Returned (take start a ++ value ++ drop (start + m) a)
  else match value with
       | [row] => Returned (take start a ++ replicate m row ++ drop (start + m) a)
       | _ => Raised (OtherError "ValueError")
       end.

(** [a[i]] for an index that is not negative. *)
Definition array_getitem (a : list R) (i : nat) : outcome R :=
  match a !! i with
  | Some r => Returned r
  | None => Raised IndexError
  end.

(** [l[i]] on a list: a negative index counts from the end. *)
Definition list_getitem (l : list R) (i : Z) : outcome R :=
  let n := Z.of_nat (length l) in
  let j := if (i <? 0)%Z then (i + n)%Z else i in
  if (0 <=? j)%Z && (j <? n)%Z then array_getitem l (Z.to_nat j)
  else Raised IndexError.

End Arrays.

(** [range(start, stop, -1)] *)
Definition range_down (start stop : Z) : list Z :=
  (fun k => start - Z.of_nat k)%Z <$> seq 0 (Z.to_nat (start - stop)).

Section TestArrays.
Context {A B : Type}.

(** The loop that fills the test arrays, lines 317-320 (and 359-362,
    447-450, 482-485, 533-536, 1466-1469).  [generate_test] lists what the
    successive calls of [generate_test.next()] return: the tensors and the
    labels of a batch. *)
Fixpoint fill_test_arrays (batch_size : Z) (generate_test : list (list A * list B))
    (indices : list Z) (test_tensors : list A) (test_labels : list B) {struct indices}
  : outcome (list A * list B) :=
  match indices with
  | [] => Returned (test_tensors, test_labels)
  | i :: indices' =>
      match generate_test with
      | [] => Raised (OtherError "StopIteration")
      | next_batch :: generate_test' =>
          test_tensors ←
            setslice test_tensors (i * batch_size) ((i + 1) * batch_size) next_batch.1;
          test_labels ←
            setslice test_labels (i * batch_size) ((i + 1) * batch_size) next_batch.2;
          fill_test_arrays batch_size generate_test' indices' test_tensors test_labels
      end
  end.

(** Lines 314-320: the two arrays of zeros, then the loop. *)
Definition test_arrays (args : Args) (zero_tensor : A) (zero_label : B)
    (generate_test : list (list A * list B)) : outcome (list A * list B) :=
  test_tensors ← np_zeros zero_tensor (iterations args * batch_size args);
  test_labels ← np_zeros zero_label (iterations args * batch_size args);
  fill_test_arrays (batch_size args) generate_test (range (iterations args))
    test_tensors test_labels.

End TestArrays.

Section Subsets.
Context {V : Type}.
(** [x == 1] on an entry of the truth array, and [np.argmax] on a row. *)
Context (is_one : V -> bool) (np_argmax : list V -> outcome nat).

(** The loop of lines 411-417 (and 496-502, 547-553) over the indices:
    a row whose truth starts with 1 and whose prediction has its maximum
    at 0 is skipped, any other is appended to both subsets. *)
Fixpoint subset_loop (predictions test_truth : list (list V)) (indices : list nat)
    (pred_subset truth_subset : list (list V))
  : outcome (list (list V) * list (list V)) :=
  match indices with
  | [] => Returned (pred_subset, truth_subset)
  | i :: indices' =>
      row ← array_getitem test_truth i;
      t0 ← array_getitem row 0;
      skip ←
        (if is_one t0 then
           p ← array_getitem predictions i;
           k ← np_argmax p;
           mret (Nat.eqb k 0)
         else mret false);
      if skip : bool then
        subset_loop predictions test_truth indices' pred_subset truth_subset
      else
        p ← array_getitem predictions i;
        let pred_subset := pred_subset ++ [p] in
        t ← array_getitem test_truth i;
        let truth_subset := truth_subset ++ [t] in
        subset_loop predictions test_truth indices' pred_subset truth_subset
  end.

(** Lines 411-417: [for i in range(predictions.shape[0])], from empty
    lists. *)
Definition no_reference_subsets (predictions test_truth : list (list V))
  : outcome (list (list V) * list (list V)) :=
  subset_loop predictions test_truth (seq 0 (length predictions)) [] [].

End Subsets.

Section Extremes.
Context {K V : Type} (le : relation V) `{!RelDecision le}.

(** The order of [key=operator.itemgetter(1)]: items compare as their
    second components do. *)
Definition by_score : relation (K * V) := fun a b => le a.2 b.2.

#[export] Instance by_score_dec : RelDecision by_score :=
  fun a b => decide (le a.2 b.2).

(** [sorted(d.items(), key=operator.itemgetter(1))]: the items in
    ascending order of score (items of equal score in the order the merge
    leaves them). *)
Definition sorted_by_score (items : list (K * V)) : list (K * V) :=
  merge_sort by_score items.

(** [for i in indices: print(label, sorted_items[i])]; the lines printed
    are collected with their label. *)
Fixpoint print_scores (label : string) (sorted_items : list (K * V)) (indices : list Z)
    (printed : list (string * (K * V))) : outcome unit * list (string * (K * V)) :=
  match indices with
  | [] => (Returned tt, printed)
  | i :: indices' =>
      match list_getitem sorted_items i with
      | Returned item =>
          print_scores label sorted_items indices' (printed ++ [(label, item)])
      | Raised e => (Raised e, printed)
      end
  end.

(** Lines 1140-1144 (and 1175-1179, 1852-1856, 1886-1890), for the items
    of the network's score dictionary. *)
Definition print_extreme_scores (bad good : string) (items : list (K * V))
  : outcome unit * list (string * (K * V)) :=
  let sorted_items := sorted_by_score items in
  match print_scores bad sorted_items (range 5) [] with
  | (Returned _, printed) =>
      print_scores good sorted_items
        (range_down (Z.of_nat (length sorted_items) - 1)
                    (Z.of_nat (length sorted_items) - 5))
        printed
  | (Raised e, printed) => (Raised e, printed)
  end.

End Extremes.

(** *** Recipes that assign attributes and variables along the way *)

Section Inspection.
Context `{Library}.

(** A step that may raise, inside a recipe. *)
Definition of_outcome {A} (o : outcome A) : M A := fun st => (o, st).

(** [for x in l: body], where the body assigns variables of the function:
    [s] holds their bindings. *)
Fixpoint for_with {A S} (l : list A) (s : S) (body : A -> S -> M S) : M S :=
  match l with
  | [] => ret s
  | x :: l' => let* s' := body x s in for_with l' s' body
  end.

(** [l.append(x)]: a list grows in place, an object of a library is asked
    for its method, and the other objects have none. *)
Definition list_append (l x : pyobj) : M pyobj :=
  match l with
  | OList items => ret (OList (items ++ [x]))
  | OOpaque _ | OModule _ | OClass _ =>
      let* _ := call_method l "append" [AObj x] [] in ret l
  | _ => raise (OtherError "AttributeError")
  end.

(** The variables of [inspect_architectures] that only some branches of
    its loop assign, with what each is bound to ([None] before the first
    assignment). *)
Record inspect_locals := {
  loc_generate_train : option pyobj;
  loc_generate_valid : option pyobj;
  loc_test : option pyobj;
  loc_model : option pyobj
}.

Definition unassigned : inspect_locals :=
  {| loc_generate_train := None; loc_generate_valid := None;
     loc_test := None; loc_model := None |}.

Definition assigned (generate_train generate_valid test model : pyobj) : inspect_locals :=
  {| loc_generate_train := Some generate_train;
     loc_generate_valid := Some generate_valid;
     loc_test := Some test; loc_model := Some model |}.

(** The dictionary [defines.architectures]: the data directory of each
    architecture name. *)
Context (defines_architectures : gmap string string).

(** The if/elif chain of the loop body of [inspect_architectures], lines
    211-285. *)
Definition inspect_branch (a : string)
    (tensor_shape train_paths valid_paths test_paths : pyobj) (per_class_max : Z)
    (loc : inspect_locals) : M inspect_locals :=
  if String.eqb "1d_calling" a then
    let* calling_labels := getattr "defines" "calling_labels" in
    let* _ := setattr (set_labels calling_labels) in
    let* args := get_args in
    let* paths := call3 "td" "get_train_valid_test_paths_all" [AArgs args] [] in
    let '(train_paths, valid_paths, test_paths) := paths in
    let* generate_train := call "td" "calling_pileup_tensors_generator"
                        [AArgs args; AObj train_paths] [] in
    let* generate_valid := call "td" "calling_pileup_tensors_generator"
                        [AArgs args; AObj valid_paths] [] in
    let* generate_test := call "td" "calling_pileup_tensors_generator"
                       [AArgs args; AObj test_paths] [] in
    let* test := call_method generate_test "next" [] [] in
    let* model := call "models" "build_1d_cnn_calling_segmentation_1d" [AArgs args] [] in
    ret (assigned generate_train generate_valid test model)
  else if String.eqb "bqsr" a then
    let* _ := setattr (set_window_size 11) in
    let* base_labels_binary := getattr "defines" "base_labels_binary" in
    let* _ := setattr (set_labels base_labels_binary) in
    let* channel_map := call "defines" "bqsr_tensor_channel_map" [] [] in
    let* _ := setattr (set_input_symbols channel_map) in
    let* args := get_args in
    let* generate_train := call "td" "bqsr_tensor_generator"
                        [AArgs args; AObj train_paths] [] in
    let* generate_valid := call "td" "bqsr_tensor_generator"
                        [AArgs args; AObj valid_paths] [] in
    let* test := call "td" "load_bqsr_tensors_from_class_dirs"
              [AArgs args; AObj test_paths; AObj (OInt per_class_max)] [] in
    let* model := call "models" "build_bqsr_model" [AArgs args] [] in
    let* _ := call "plots" "print_auc_per_class"
                [AObj model; AObj (lib_getitem test 0); AObj (lib_getitem test 1);
                 AObj (labels args)] [] in
    ret (assigned generate_train generate_valid test model)
  else if String.eqb "2d_annotations" a then
    let* args := get_args in
    let* generate_train := call "td" "tensor_annotation_generator"
                        [AArgs args; AObj train_paths; AObj tensor_shape] [] in
    let* generate_valid := call "td" "tensor_annotation_generator"
                        [AArgs args; AObj valid_paths; AObj tensor_shape] [] in
    let* test := call "td" "load_tensors_and_annotations_from_class_dirs"
              [AArgs args; AObj test_paths; AObj (OInt per_class_max)] [] in
    let* model := call "models" "build_read_tensor_2d_and_annotations_model"
               [AArgs args] [] in
    let* _ := call "plots" "print_auc_per_class"
                [AObj model; AObj (OList [lib_getitem test 0; lib_getitem test 1]);
                 AObj (lib_getitem test 2); AObj (labels args)] [] in
    ret (assigned generate_train generate_valid test model)
  else if String.eqb "2d" a then
    let* args := get_args in
    let* generate_train := call "td" "tensor_generator"
                        [AArgs args; AObj train_paths; AObj tensor_shape] [] in
    let* generate_valid := call "td" "tensor_generator"
                        [AArgs args; AObj valid_paths; AObj tensor_shape] [] in
    let* test := call "td" "load_tensors_from_class_dirs"
              [AArgs args; AObj test_paths; AObj (OInt per_class_max)] [] in
    let* model := call "models" "build_read_tensor_2d_model" [AArgs args] [] in
    let* _ := call "plots" "print_auc_per_class"
                [AObj model; AObj (lib_getitem test 0); AObj (lib_getitem test 1);
                 AObj (labels args)] [] in
    ret (assigned generate_train generate_valid test model)
  else if String.eqb "1d_annotations" a then
    let* args := get_args in
    let* generate_train := call "td" "dna_annotation_generator"
                        [AArgs args; AObj train_paths] [] in
    let* generate_valid := call "td" "dna_annotation_generator"
                        [AArgs args; AObj valid_paths] [] in
    let* test := call "td" "load_dna_annotations_positions_from_class_dirs"
              [AArgs args; AObj test_paths; AObj (OInt per_class_max)] [] in
    let* model := call "models" "build_reference_plus_model" [AArgs args] [] in
    let* _ := call "plots" "print_auc_per_class"
                [AObj model; AObj (OList [lib_getitem test 0; lib_getitem test 1]);
                 AObj (lib_getitem test 2); AObj (labels args)] [] in
    ret (assigned generate_train generate_valid test model)
  else if String.eqb "1d" a then
    let* args := get_args in
    let* generate_train := call "td" "dna_annotation_generator"
                        [AArgs args; AObj train_paths] [] in
    let* generate_valid := call "td" "dna_annotation_generator"
                        [AArgs args; AObj valid_paths] [] in
    let* test := call "td" "load_tensors_from_class_dirs"
              [AArgs args; AObj test_paths; AObj (OInt per_class_max)]
              [("dataset_id", AObj (OStr "reference"))] in
    let* model := call "models" "build_reference_model" [AArgs args] [] in
    let* _ := call "plots" "print_auc_per_class"
                [AObj model; AObj (lib_getitem test 0); AObj (lib_getitem test 1);
                 AObj (labels args)] [] in
    ret (assigned generate_train generate_valid test model)
  else if String.eqb "mlp" a then
    let* _ := setattr (set_window_size 0) in
    let* args := get_args in
    let* generate_train := call "td" "dna_annotation_generator"
                        [AArgs args; AObj train_paths] [] in
    let* generate_valid := call "td" "dna_annotation_generator"
                        [AArgs args; AObj valid_paths] [] in
    let* test := call "td" "load_tensors_from_class_dirs"
              [AArgs args; AObj test_paths; AObj (OInt per_class_max)]
              [("dataset_id", AObj (OStr "annotations"))] in
    let* model := call "models" "build_annotation_multilayer_perceptron" [AArgs args] [] in
    let* _ := call "plots" "print_auc_per_class"
                [AObj model; AObj (lib_getitem test 0); AObj (lib_getitem test 1);
                 AObj (labels args)] [] in
    ret (assigned generate_train generate_valid test model)
  else if String.eqb "deep_variant" a then
    let* _ := setattr (set_read_limit 299) in
    let* _ := setattr (set_window_size 299) in
    let* args := get_args in
    let image_shape := OTuple [OInt (read_limit args); OInt (window_size args)] in
    let* generate_train := call "td" "image_generator"
                        [AArgs args; AObj train_paths] [("shape", AObj image_shape)] in
    let* generate_valid := call "td" "image_generator"
                        [AArgs args; AObj valid_paths] [("shape", AObj image_shape)] in
    let* test := call "td" "load_images_from_class_dirs"
              [AArgs args; AObj test_paths]
              [("shape", AObj image_shape);
               ("per_class_max", AObj (OInt (samples args)))] in
    let* model := call "models" "inception_v3_max" [AArgs args]
               [("architecture", AObj (path_object (weights_hd5 args)))] in
    let* _ := call "plots" "print_auc_per_class"
                [AObj model; AObj (lib_getitem test 0); AObj (lib_getitem test 1);
                 AObj (labels args)] [] in
    ret (assigned generate_train generate_valid test model)
  else if String.eqb "2d_2bit" a then
    let* _ := print [OStr "Error 2d_2bit not implemented yet."] in
    ret loc
  else
    let* _ := print [OStr "Error Unknown architecture:"; OStr a] in
    ret loc.

(** The body of the loop of [inspect_architectures], lines 195-288, for the
    architecture [a]. *)
Definition inspect_step (a : string) (loc : inspect_locals) : M inspect_locals :=
  let* _ := setattr (set_tensor_map a) in
  let* _ := setattr (set_window_size 128) in
  let* snp_indel_labels := getattr "defines" "snp_indel_labels" in
  let* _ := setattr (set_labels snp_indel_labels) in
  let* inputs_indel := getattr "defines" "inputs_indel" in
  let* _ := setattr (set_input_symbols inputs_indel) in
  let* args := get_args in
  let* in_channels := call "defines" "total_input_channels_from_args" [AArgs args] [] in
  let tensor_shape :=
    if channels_last args
    then OTuple [OInt (read_limit args); OInt (window_size args); in_channels]
    else OTuple [in_channels; OInt (read_limit args); OInt (window_size args)] in
  let per_class_max := 300%Z in
  let* _ := load_attr "defines" "architectures" in
  let* directory := of_outcome (getitem defines_architectures a) in
  let* _ := setattr (set_data_dir directory) in
  let* args := get_args in
  let* _ := setattr (set_weights_hd5 (Some (data_dir args +:+ a +:+ ".hd5"))) in
  let* args := get_args in
  let* paths := call3 "td" "get_train_valid_test_paths" [AArgs args] [] in
  let '(train_paths, valid_paths, test_paths) := paths in
  let* _ := print [OStr "Inspecting architecture:"; OStr a; OStr "tensor shape:";
                   tensor_shape] in
  let* loc := inspect_branch a tensor_shape train_paths valid_paths test_paths
                per_class_max loc in
  let* args := get_args in
  let* train_model_from_generators := load_attr "models" "train_model_from_generators" in
  let* model := of_outcome (load_fast "model" (loc_model loc)) in
  let* generate_train :=
    of_outcome (load_fast "generate_train" (loc_generate_train loc)) in
  let* generate_valid :=
    of_outcome (load_fast "generate_valid" (loc_generate_valid loc)) in
  let* _ := invoke train_model_from_generators
              [AArgs args; AObj model; AObj generate_train; AObj generate_valid;
               AObj (path_object (weights_hd5 args))] [] in
  let* _ := call "models" "inspect_model"
              [AArgs args; AObj model; AObj generate_train; AObj generate_valid] [] in
  ret loc.

(** [inspect_architectures], lines 183-288. *)
Definition inspect_architectures : M unit :=
  let* _ := setattr (set_samples 10) in
  let* _ := load_attr "defines" "architectures" in
  let* _ := for_with (keys defines_architectures) unassigned inspect_step in
  ret tt.

(** [plot_vcf_roc_gnomad_scores], lines 1288-1291: the statements up to the
    call that reads the scores (the plotting that follows reads [args.id]
    only).  The list that [args.score_keys] names is extended in place. *)
Definition plot_vcf_roc_gnomad_scores_read : M pyobj :=
  let* args := get_args in
  let* _ :=
    if single_sample_vqsr args then
      let* score_keys := list_append (score_keys args) (OStr "VQSR Single Sample") in
      setattr (set_score_keys score_keys)
    else ret tt in
  let* args := get_args in
  call "td" "scores_from_gnomad_vcf" [AArgs args; AObj (score_keys args)] [].

(** [plot_vcf_roc_gnomad_like_scores], lines 1304-1309: the statements up to
    the call that reads the scores.  The list is a local one. *)
Definition plot_vcf_roc_gnomad_like_scores_read : M pyobj :=
  let score_keys := OList [OStr "AS_RF"; OStr "VQSLOD"; OStr "CNN_SCORE"] in
  let* args := get_args in
  let* score_keys :=
    if single_sample_vqsr args
    then list_append score_keys (OStr "VQSR Single Sample")
    else ret score_keys in
  call "td" "scores_from_gnomad_like_vcf" [AArgs args; AObj score_keys] [].

End Inspection.

End Recipes.

(** ** api_tutorials/keras_example.py *)

Module KerasExample.

(** What the tutorial runs in, for input arrays of type [matrix] (targets
    are lists of integer labels): the path functions of [os.path] over the
    file system, the directory of the module, and the pickle. *)
Class Environment (matrix : Type) := {
  os_path_split : string -> string * string;
  os_path_join : list string -> string;
  os_path_isfile : string -> bool;
  (** [os.path.split(__file__)[0]] *)
  module_dir : string;
  (** the three objects [cPickle.load] yields for the gzip file at a path,
      once the download (if any) has happened *)
  unpickle : string -> (matrix * list Z) * (matrix * list Z) * (matrix * list Z)
}.

Section Tutorial.
Context {matrix : Type} `{Environment matrix}.

(** A data set as the pickle holds it: [(input, target)]. *)
Definition data_set : Type := matrix * list Z.

(** A row-major array of 0.0 and 1.0, written 0 and 1. *)
Definition one_hot : Type := list (list Z).

Inductive layer :=
| Dense (units : Z) (activation : string) (input_dim : option Z).

Inductive event :=
| Printed (items : list string)
| Urlretrieve (origin destination : string)
| Load (path : string)                                   (* gzip.open, cPickle.load, close *)
| Sequential
| Add (l : layer)
| Compile (loss optimizer : string) (metrics : list string)
| Fit (x : matrix) (y : one_hot) (validation_data : matrix * one_hot)
      (batch_size nb_epoch : Z)
| Evaluate (x : matrix) (y : one_hot).

Definition K (A : Type) : Type := list event -> outcome A * list event.

Definition kret {A} (a : A) : K A := fun tr => (Returned a, tr).

Definition kbind {A B} (c : K A) (k : A -> K B) : K B :=
  fun tr =>
    match c tr with
    | (Returned a, tr') => k a tr'
    | (Raised e, tr') => (Raised e, tr')
    end.

Definition log (e : event) : K unit := fun tr => (Returned tt, tr ++ [e]).

Definition lift {A} (o : outcome A) : K A := fun tr => (o, tr).

(** [row[k] = v] on a numpy row: a negative index counts from the end. *)
Definition setitem (row : list Z) (k v : Z) : outcome (list Z) :=
  let n := Z.of_nat (length row) in
  if (0 <=? k)%Z && (k <? n)%Z then Returned (<[Z.to_nat k := v]> row)
  else if (- n <=? k)%Z && (k <? 0)%Z then Returned (<[Z.to_nat (k + n) := v]> row)
  else Raised IndexError.

(** The loop of [make_one_hot]: [ohy[i][y[i]] = 1.0] for each [i]. *)
Fixpoint make_one_hot_loop (y : list Z) (indices : list nat) (ohy : one_hot)
  : outcome one_hot :=
  match indices with
  | [] => Returned ohy
  | i :: indices' =>
      match y !! i, ohy !! i with
      | Some yi, Some row =>
          match setitem row yi 1 with
          | Returned row' => make_one_hot_loop y indices' (<[i := row']> ohy)
          | Raised e => Raised e
          end
      | _, _ => Raised IndexError
      end
  end.

(** [make_one_hot], lines 69-73. *)
Definition make_one_hot (y : list Z) (num_labels : nat) : outcome one_hot :=
  let ohy := replicate (length y) (replicate num_labels 0%Z) in
  make_one_hot_loop y (seq 0 (length y)) ohy.

Definition origin : string :=
  "http://www.iro.umontreal.ca/~lisa/deep/data/mnist/mnist.pkl.gz".

(** Lines 87-96 of [load_data]: where the data set is looked for. *)
Definition resolve_dataset (dataset : string) : string :=
  let '(data_dir, data_file) := os_path_split dataset in
  if String.eqb data_dir "" && negb (os_path_isfile dataset) then
    let new_path := os_path_join [module_dir; "data"; dataset] in
    if os_path_isfile new_path || String.eqb data_file "mnist.pkl.gz"
    then new_path else dataset
  else dataset.

(** [load_data], lines 76-119. *)
Definition load_data (dataset : string) : K (data_set * data_set * data_set) :=
  let data_file := (os_path_split dataset).2 in
  let dataset := resolve_dataset dataset in
  kbind
    (if negb (os_path_isfile dataset) && String.eqb data_file "mnist.pkl.gz" then
       kbind (log (Printed ["Downloading data from " +:+ origin]))
             (fun _ => log (Urlretrieve origin dataset))
     else kret tt)
    (fun _ =>
  kbind (log (Printed ["loading data..."])) (fun _ =>
  kbind (log (Load dataset)) (fun _ =>
  let '(train_set, valid_set, test_set) := unpickle dataset in
  kret (train_set, valid_set, test_set)))).

(** [logistic_regression], lines 37-50. *)
Definition logistic_regression : K unit :=
  kbind (load_data "mnist.pkl.gz") (fun loaded =>
  let '(train, test, valid) := loaded in
  let num_labels := 10%nat in
  kbind (lift (make_one_hot train.2 num_labels)) (fun train_y =>
  kbind (lift (make_one_hot valid.2 num_labels)) (fun valid_y =>
  kbind (lift (make_one_hot test.2 num_labels)) (fun test_y =>
  kbind (log Sequential) (fun _ =>
  kbind (log (Add (Dense 10 "softmax" (Some 784%Z)))) (fun _ =>
  kbind (log (Compile "categorical_crossentropy" "sgd" ["accuracy"])) (fun _ =>
  kbind (log (Fit train.1 train_y (valid.1, valid_y) 32 10)) (fun _ =>
  kbind (log (Evaluate test.1 test_y)) (fun _ =>
  log (Printed ["Test set loss and accuracy:"])))))))))).

(** [multilayer_perceptron], lines 53-67. *)
Definition multilayer_perceptron : K unit :=
  kbind (load_data "mnist.pkl.gz") (fun loaded =>
  let '(train, test, valid) := loaded in
  let num_labels := 10%nat in
  kbind (lift (make_one_hot train.2 num_labels)) (fun train_y =>
  kbind (lift (make_one_hot valid.2 num_labels)) (fun valid_y =>
  kbind (lift (make_one_hot test.2 num_labels)) (fun test_y =>
  kbind (log Sequential) (fun _ =>
  kbind (log (Add (Dense 300 "relu" (Some 784%Z)))) (fun _ =>
  kbind (log (Add (Dense 10 "softmax" None))) (fun _ =>
  kbind (log (Compile "categorical_crossentropy" "sgd" ["accuracy"])) (fun _ =>
  kbind (log (Fit train.1 train_y (valid.1, valid_y) 32 10)) (fun _ =>
  kbind (log (Evaluate test.1 test_y)) (fun _ =>
  log (Printed ["Test set loss and accuracy:"]))))))))))).

End Tutorial.

Arguments data_set : clear implicits.
Arguments event : clear implicits.
Arguments K : clear implicits.
Arguments Printed {matrix} items.
Arguments Urlretrieve {matrix} origin destination.
Arguments Load {matrix} path.
Arguments Sequential {matrix}.
Arguments Add {matrix} l.
Arguments Compile {matrix} loss optimizer metrics.
Arguments Fit {matrix} x y validation_data batch_size nb_epoch.
Arguments Evaluate {matrix} x y.

End KerasExample.

(** * The vocabulary of the statements *)

Import Recipes.
Local Close Scope recipe_scope.

(** The modes the chain tests. *)
Definition recognized_modes : list string := branches.*1.

(** A namespace with a given mode and number of iterations. *)
Definition sample_args (m : string) (n : Z) : Args :=
  {| mode := m; data_dir := "/data/"; id_ := "net"; labels := ONone;
     input_symbols := ONone; annotations := OStr "_"; annotation_set := "_";
     tensor_map := "read_tensor"; architectures := OList [];
     score_keys := OList []; samples := 16; batch_size := 32;
     window_size := 128; read_limit := 128; iterations := n; epochs := 25;
     channels_last := true; single_sample_vqsr := false;
     emit_interesting_sites := false; deep_variant_vcf := None;
     negative_vcf := None; negative_vcf_2 := None; negative_vcf_3 := None;
     train_vcf := None; bed_file := None; weights_hd5 := None;
     output_vcf := None |}.

(** A second namespace with the mode of the first and other values in the
    remaining fields. *)
Definition other_args (m : string) : Args :=
  {| mode := m; data_dir := "/scratch/tensors/"; id_ := "second";
     labels := OList [OStr "SNP"; OStr "INDEL"]; input_symbols := OList [];
     annotations := OList [OStr "MQ"; OStr "DP"]; annotation_set := "best";
     tensor_map := "2d_mapping_quality"; architectures := OList [OStr "a.hd5"];
     score_keys := OList [OStr "VQSLOD"]; samples := 1200; batch_size := 8;
     window_size := 71; read_limit := 96; iterations := 0; epochs := 3;
     channels_last := false; single_sample_vqsr := true;
     emit_interesting_sites := true; deep_variant_vcf := Some "dv.vcf";
     negative_vcf := Some "neg.vcf"; negative_vcf_2 := Some "neg2.vcf";
     negative_vcf_3 := None; train_vcf := Some "train.vcf";
     bed_file := Some "conf.bed"; weights_hd5 := Some "w.hd5";
     output_vcf := Some "out.vcf" |}.

(** The line of the [def] a name is bound to once the module is loaded. *)
Definition recipe_line (name : string) : option N :=
  match module_globals !! name with
  | Some (OFunction fname line) => if String.eqb fname name then Some line else None
  | _ => None
  end.

(** Every name the chain calls is bound to a [def] of the module, and every
    module it calls into is imported. *)
Definition branch_resolves (b : string * action) : bool :=
  match b.2 with
  | CallRecipe name => bool_decide (is_Some (recipe_line name))
  | CallLib alias _ _ =>
      match module_globals !! alias with Some (OModule _) => true | _ => false end
  | _ => true
  end.

(** The functions of recipes.py that were called, in order. *)
Definition recipes_entered (tr : list event) : list (string * N) :=
  omap (fun e => match e with Enter name line _ => Some (name, line) | _ => None end) tr.

(** The arguments of the calls of one library function, in order. *)
Definition calls_of (callee : string) (tr : list event)
  : list (list arg * list (string * arg)) :=
  omap (fun e =>
          match e with
          | Call c pos kw => if String.eqb c callee then Some (pos, kw) else None
          | _ => None
          end) tr.

(** What was printed. *)
Definition printed (tr : list event) : list (list pyobj) :=
  omap (fun e => match e with Print items => Some items | _ => None end) tr.

(** The calls of the training function in a trace. *)
Definition train_calls (tr : list event) : list (list arg * list (string * arg)) :=
  calls_of "models.train_model_from_generators" tr.

(** The calls of [model.fit_generator] in a trace. *)
Definition fit_calls (tr : list event) : list (list arg * list (string * arg)) :=
  calls_of ".fit_generator" tr.

(** The titles of the plots made by [plots.plot_roc_per_class] (its fifth
    argument). *)
Definition plot_titles (tr : list event) : list string :=
  omap (fun c => match c.1 with
                 | [_; _; _; _; AObj (OStr title)] => Some title
                 | _ => None
                 end)
       (calls_of "plots.plot_roc_per_class" tr).

(** Whether an object is the function defined at a line. *)
Definition defined_at (line : N) (o : pyobj) : bool :=
  match o with
  | OFunction _ l => N.eqb l line
  | _ => false
  end.

Section Vocabulary.
Context `{Library}.

(** [wp c st Q]: running [c] from [st] ends in an outcome and a state that
    satisfy [Q]. *)
Definition wp {A} (c : M A) (st : state) (Q : outcome A → state → Prop) : Prop :=
  Q (c st).1 (c st).2.

(** The state after one more event. *)
Definition logged (st : state) (e : event) : state :=
  {| st_args := st_args st; st_world := st_world st;
     st_trace := st_trace st ++ [e] |}.

(** The state after a library call that left the world [w]. *)
Definition called (st : state) (w : World) (e : event) : state :=
  {| st_args := st_args st; st_world := w; st_trace := st_trace st ++ [e] |}.

(** The state in which [run] starts the selected branch. *)
Definition parsed (w : World) : state :=
  {| st_args := (lib_parse_args w).1; st_world := (lib_parse_args w).2;
     st_trace := [Call "arguments.parse_args" [] []] |}.

(** [st'] continues the trace of [st] without a call of a function of
    recipes.py. *)
Definition continues (st st' : state) : Prop :=
  ∃ rest, st_trace st' = st_trace st ++ rest ∧ recipes_entered rest = [].

(** A computation that calls no function of recipes.py. *)
Definition keeps_entered {A} (c : M A) : Prop :=
  ∀ st, wp c st (fun _ st' => continues st st').

(** The two definitions of [roc_curve_through_learning] differ in the bound
    of the loop only. *)
Definition roc_with_bound (bound : Args → Z) : M unit :=
  bind roc_setup (fun s =>
    let '(args, generate_train, generate_valid, weight_path, model, test) := s in
    for_ (range (bound args))
         (roc_step args generate_train generate_valid weight_path model test)).

(** The functions of recipes.py an action calls. *)
Definition recipes_of (act : action) : list (string * N) :=
  match act with
  | CallRecipe name =>
      match recipe_line name with Some line => [(name, line)] | None => [] end
  | _ => []
  end.

(** The events an action adds to the trace when the namespace is [args]: a
    recipe branch enters the function its name is bound to, which calls no
    other function of recipes.py; a library branch makes its one call; the
    filter-writing branches build a model and pass it on; the error branch
    prints. *)
Definition events_of_action (act : action) (args : Args) (tr : list event) : Prop :=
  match act with
  | CallRecipe name =>
      ∃ line rest,
        recipe_line name = Some line
        ∧ tr = Enter name line args :: rest ∧ recipes_entered rest = []
  | CallLib alias func kw =>
      tr = [Call (alias +:+ "." +:+ func) [AArgs args]
              (map (fun kv => (kv.1, AObj (OBool kv.2))) kw)]
  | WriteFilters build write_ =>
      ∃ model,
        tr = [Call ("models." +:+ build) [AArgs args] [];
              Call ("models." +:+ write_) [AArgs args; AObj model] []]
  | UnknownMode =>
      tr = [Print [OStr (newline +:+ newline +:+ " ERROR! Unknown recipe mode:");
                   OStr (mode args);
                   OStr (newline +:+ newline +:+ newline)]]
  end.

(** The entries of [test_dir] that are directories, in sorted order. *)
Definition class_dirs (w : World) (test_dir : string) : list string :=
  filter (fun vp => lib_isdir (test_dir +:+ vp) w = true)
         (sorted (lib_listdir test_dir w)).

(** [callee] is neither of the two file-system queries. *)
Definition no_call_of (callee : string) : Prop :=
  String.eqb "os.listdir" callee = false ∧ String.eqb "os.path.isdir" callee = false.

(** A recipe evaluates the class directories: it returns, and the one call
    of its loader it adds to the trace has for second argument the list of
    the paths [test_dir + vp], [vp] ranging over the class directories found
    in the world the model builder left. *)
Definition evaluates_class_dirs (recipe : M pyobj) (build loader : string)
    (keywords : Args → list (string * arg)) : Prop :=
  ∀ st,
    let args := st_args st in
    let test_dir := data_dir args +:+ "test/" in
    let w1 := (lib "arguments.weight_path_from_args" [AArgs args] [] (st_world st)).2 in
    let w := (lib build [AArgs args] [] w1).2 in
    ∃ test st',
      recipe st = (Returned test, st')
      ∧ calls_of loader (st_trace st')
        = calls_of loader (st_trace st)
          ++ [([AArgs args;
                AObj (OList (OStr <$> ((fun vp => test_dir +:+ vp)
                                        <$> class_dirs w test_dir)))],
               keywords args)].

End Vocabulary.

(** A library in which the world counts the objects handed out so far, the
    command line is [a], and the test directory holds three class
    directories and a file. *)
Definition counting_library (a : Args) : Library :=
  {| World := N;
     lib_parse_args := fun w => (a, w);
     lib := fun _ _ _ w => (OOpaque w, N.succ w);
     lib3 := fun _ _ _ w =>
       ((OOpaque w, OOpaque (w + 1), OOpaque (w + 2)), (w + 3)%N);
     lib_attr := fun _ _ => OOpaque 0;
     lib_getitem := fun o _ => o;
     lib_listdir := fun _ _ => ["SNP"; "readme.txt"; "INDEL"; "NOT_SNP"];
     lib_isdir := fun p _ => negb (String.eqb p "/data/test/readme.txt");
     lib_body := fun _ a w => (Returned tt, a, w) |}.

Section ScoreVocabulary.
Context `{Countable K} {V : Type}.
Implicit Types (gatk_scores gatk heng_li : gmap K (V * V)) (cnn : gmap K V).

(** [l] is built by indexing [f] over the keys [shared], in their order. *)
Definition indexed (f : K → option V) (shared : list K) (l : list V) : Prop :=
  Forall2 (fun p v => f p = Some v) shared l.

(** The score dictionary holds exactly the four named lists. *)
Definition four_scores (scores : gmap string (list V)) (signed hard heng net : list V)
  : Prop :=
  scores = <["Neural Net" := net]> (<["Heng Li Hard Filters" := heng]>
             (<["GATK Hard Filters" := hard]> (<["GATK Signed Distance" := signed]> ∅))).

(** What [filter_scores] builds over the shared keys. *)
Definition built_over (shared : list K) cnn (gatk_scores gatk heng_li : gmap K (V * V))
    (truth : list V) (scores : gmap string (list V)) : Prop :=
  indexed (fun p => snd <$> heng_li !! p) shared truth
  ∧ (∃ signed hard heng net,
       four_scores scores signed hard heng net
       ∧ indexed (fun p => fst <$> gatk_scores !! p) shared signed
       ∧ indexed (fun p => fst <$> gatk !! p) shared hard
       ∧ indexed (fun p => fst <$> heng_li !! p) shared heng
       ∧ indexed (fun p => cnn !! p) shared net)
  ∧ (∀ name l, scores !! name = Some l → length l = length truth).

End ScoreVocabulary.

(** Score dictionaries over positions numbered by [nat], with integer
    scores. *)
Definition sample_heng_li : gmap nat (Z * Z) :=
  list_to_map [(1%nat, (5, 1)%Z); (2%nat, (7, 0)%Z); (4%nat, (2, 1)%Z)].
Definition sample_gatk : gmap nat (Z * Z) :=
  list_to_map [(1%nat, (1, 1)%Z); (2%nat, (0, 0)%Z); (3%nat, (1, 1)%Z)].
Definition sample_gatk_scores : gmap nat (Z * Z) :=
  list_to_map [(1%nat, (-3, 1)%Z); (2%nat, (8, 0)%Z); (4%nat, (6, 1)%Z)].
Definition sample_cnn : gmap nat Z :=
  list_to_map [(1%nat, 90%Z); (2%nat, 15%Z); (3%nat, 60%Z)].

Section TutorialVocabulary.
Import KerasExample.
Context {matrix : Type} `{Environment matrix}.

(** The data a trace shows to have been fitted: input, targets and
    validation data. *)
Definition fits (tr : list (event matrix))
  : list (matrix * one_hot * (matrix * one_hot)) :=
  omap (fun e => match e with Fit x y v _ _ => Some (x, y, v) | _ => None end) tr.

(** The data a trace shows to have been evaluated: input and targets. *)
Definition evaluations (tr : list (event matrix)) : list (matrix * one_hot) :=
  omap (fun e => match e with Evaluate x y => Some (x, y) | _ => None end) tr.

(** Labels a one-hot row of [n] columns can encode. *)
Definition encodable (n : nat) (y : list Z) : Prop :=
  Forall (fun k => (- Z.of_nat n <= k < Z.of_nat n)%Z) y.

(** How a caller of [load_data] uses the three sets: it fits on the first
    with the third as validation data and evaluates on the second, the
    evaluation being what it prints as test loss and accuracy. *)
Definition runs_swapped (caller : K matrix ()) (tr : list (event matrix))
    (train_set valid_set test_set : data_set matrix) : Prop :=
  ∀ train_y second_y third_y,
    make_one_hot train_set.2 10 = Returned train_y →
    make_one_hot valid_set.2 10 = Returned second_y →
    make_one_hot test_set.2 10 = Returned third_y →
    ∃ tr',
      caller tr = (Returned tt, tr')
      ∧ fits tr' = fits tr ++ [(train_set.1, train_y, (test_set.1, third_y))]
      ∧ evaluations tr' = evaluations tr ++ [(valid_set.1, second_y)]
      ∧ last tr' = Some (Printed ["Test set loss and accuracy:"]).

(** The same for every trace and pickle, with the guarantee that the
    caller returns when the labels of the three sets can be encoded. *)
Definition swaps_valid_and_test (caller : K matrix ()) : Prop :=
  ∀ tr train_set valid_set test_set,
    unpickle (resolve_dataset "mnist.pkl.gz") = (train_set, valid_set, test_set) →
    runs_swapped caller tr train_set valid_set test_set
    ∧ (encodable 10 train_set.2 → encodable 10 valid_set.2 →
       encodable 10 test_set.2 → ∃ tr', caller tr = (Returned tt, tr')).

End TutorialVocabulary.

(** A pickle of three small data sets (arrays numbered by [nat]), on a
    file system without the file. *)
Definition sample_environment : KerasExample.Environment nat :=
  {| KerasExample.os_path_split := fun path => ("", path);
     KerasExample.os_path_join := fun parts => String.concat "/" parts;
     KerasExample.os_path_isfile := fun _ => false;
     KerasExample.module_dir := "api_tutorials";
     KerasExample.unpickle := fun _ =>
       ((1%nat, [3; 0; 9]%Z), (2%nat, [7]%Z), (3%nat, [1; -1]%Z)) |}.

(** ** Vocabulary for the score lists, the arrays and the loops *)

Section OneHotVocabulary.
Import KerasExample.
(** The column a label sets in a row of [n] columns. *)
Definition column (n : nat) (k : Z) : nat := Z.to_nat (k mod Z.of_nat n).

(** The row of [n] columns that encodes label [k]. *)
Definition one_hot_row (n : nat) (k : Z) : list Z :=
  <[column n k := 1%Z]> (replicate n 0%Z).
End OneHotVocabulary.

Section ScoreListVocabulary.
Context `{Countable K} {V : Type}.

(** What [vcf_scores] builds: truth and two score lists, each indexed over
    the keys of the baseline. *)
Definition built_over_baseline (name : string) (cnn : gmap K V) (vqsr : gmap K (V * V))
    (truth : list V) (scores : gmap string (list V)) : Prop :=
  indexed (fun p => snd <$> vqsr !! p) (keys vqsr) truth
  ∧ (∃ baseline net,
       scores = <["Neural Net" := net]> (<[name := baseline]> ∅)
       ∧ indexed (fun p => fst <$> vqsr !! p) (keys vqsr) baseline
       ∧ indexed (fun p => cnn !! p) (keys vqsr) net)
  ∧ length truth = size vqsr
  ∧ (∀ key l, scores !! key = Some l → length l = size vqsr).
End ScoreListVocabulary.

Section GnomadVocabulary.
Context `{Countable K} {V : Type}.

(** The list a score dictionary holds under [name] is [f] indexed over
    [shared], if [present]; otherwise the dictionary has no such key. *)
Definition score_list (scores : gmap string (list V)) (name : string) (present : bool)
    (f : K → option V) (shared : list K) : Prop :=
  if present then ∃ l, scores !! name = Some l ∧ indexed f shared l
  else scores !! name = None.
End GnomadVocabulary.

Section SubsetVocabulary.
Context {V : Type} (is_one : V → bool) (np_argmax : list V → outcome nat).

(** Row [i] is a reference site that the network calls reference: its
    truth starts with 1 and its prediction has the maximum at 0. *)
Definition reference_true_positive (predictions test_truth : list (list V)) (i : nat)
  : bool :=
  match test_truth !! i, predictions !! i with
  | Some t, Some p =>
      match t !! 0%nat with
      | Some t0 =>
          is_one t0 && match np_argmax p with Returned 0%nat => true | _ => false end
      | None => false
      end
  | _, _ => false
  end.

(** The rows [kept], in their order. *)
Definition rows_at (a : list (list V)) (kept : list nat) (subset : list (list V)) : Prop :=
  Forall2 (fun i row => a !! i = Some row) kept subset.
End SubsetVocabulary.

(** The architecture names for which the loop of [inspect_architectures]
    builds a model. *)
Definition inspected_architectures : list string :=
  ["1d_calling"; "bqsr"; "2d_annotations"; "2d"; "1d_annotations"; "1d"; "mlp";
   "deep_variant"].

(** What the loop prints for any other name. *)
Definition unknown_architecture_line (a : string) : list pyobj :=
  if String.eqb "2d_2bit" a then [OStr "Error 2d_2bit not implemented yet."]
  else [OStr "Error Unknown architecture:"; OStr a].

(** The library functions called, in order. *)
Definition callees (tr : list event) : list string :=
  omap (fun e => match e with Call callee _ _ => Some callee | _ => None end) tr.

Section InspectionVocabulary.
Context `{Library}.

(** The part of the loop body that every architecture goes through, lines
    195-209, followed by the branch of an unknown name. *)
Definition after_unknown (a directory : string) (st st' : state) (calls : list string)
  : Prop :=
  tensor_map (st_args st') = a
  ∧ data_dir (st_args st') = directory
  ∧ weights_hd5 (st_args st') = Some (directory +:+ a +:+ ".hd5")
  ∧ window_size (st_args st') = 128%Z
  ∧ samples (st_args st') = samples (st_args st)
  ∧ read_limit (st_args st') = read_limit (st_args st)
  ∧ (∃ tensor_shape,
       printed (st_trace st')
       = printed (st_trace st)
         ++ [[OStr "Inspecting architecture:"; OStr a; OStr "tensor shape:"; tensor_shape];
             unknown_architecture_line a])
  ∧ callees (st_trace st')
    = callees (st_trace st)
      ++ ["defines.total_input_channels_from_args"; "td.get_train_valid_test_paths"]
      ++ calls.

End InspectionVocabulary.



(** A stand-in for [td.plain_name]: the path itself. *)
Definition sample_plain_name (path : option string) : string := default "" path.

(** A namespace in which three VCFs of negative examples are given. *)
Definition three_vcf_args : Args :=
  {| mode := "test_tensor_multi_vcf"; data_dir := "/data/"; id_ := "net"; labels := ONone;
     input_symbols := ONone; annotations := OStr "_"; annotation_set := "_";
     tensor_map := "read_tensor"; architectures := OList [];
     score_keys := OList []; samples := 16; batch_size := 32;
     window_size := 128; read_limit := 128; iterations := 2; epochs := 25;
     channels_last := true; single_sample_vqsr := false;
     emit_interesting_sites := false; deep_variant_vcf := None;
     negative_vcf := Some "a.vcf"; negative_vcf_2 := Some "b.vcf";
     negative_vcf_3 := Some "c.vcf";
     train_vcf := None; bed_file := None; weights_hd5 := None;
     output_vcf := None |}.

(** Two batches of 32 tensors and labels (numbers stand for the tensors). *)
Definition sample_batches : list (list Z * list bool) :=
  [(replicate 32 1%Z, replicate 32 true); (replicate 32 2%Z, replicate 32 false)].

(** Scores of six sites. *)
Definition sample_items : list (string * Z) :=
  [("chr1:10", 40%Z); ("chr1:20", (-3)%Z); ("chr2:5", 17%Z); ("chr2:8", 99%Z);
   ("chr3:1", 0%Z); ("chr3:7", 64%Z)].

(** Two dictionaries of architectures: in the first the loop meets a name
    it does not know before one it knows, in the second after. *)
Definition unknown_then_known : gmap string string :=
  list_to_map [("2d", "/data/2d/"); ("unknown_net", "/data/unknown/")].


(** * Properties *)

(** ** The dispatch of [run] *)

Lemma dispatch_chain (args : Args) : dispatch args = chain branches (mode args).
Proof. reflexivity. Qed.

Lemma recognized_modes_NoDup : NoDup recognized_modes.
Proof. apply (bool_decide_unpack _). vm_compute. reflexivity. Qed.

Section Chains.
Implicit Types bs : list (string * action).

Lemma chain_not_tested bs m : m ∉ bs.*1 → chain bs m = UnknownMode.
Proof.
  induction bs as [|[k act] bs IH]; simpl; [done|].
  intros Hm. apply not_elem_of_cons in Hm as [Hne Hm].
  destruct (String.eqb_spec k m) as [->|_]; [done|]. by apply IH.
Qed.

Lemma chain_tested bs k act :
  NoDup bs.*1 → (k, act) ∈ bs → chain bs k = act.
Proof.
  induction bs as [|[k' act'] bs IH]; simpl; intros Hnd Hin.
  - by apply elem_of_nil in Hin.
  - apply NoDup_cons in Hnd as [Hk' Hnd].
    apply elem_of_cons in Hin as [Heq|Hin].
    + injection Heq as -> ->. by rewrite String.eqb_refl.
    + destruct (String.eqb_spec k' k) as [->|_]; [|by apply IH].
      exfalso. apply Hk'. apply list_elem_of_fmap. by exists (k, act).
Qed.

Lemma recipe_map_acc bs (d : gmap string action) m :
  NoDup bs.*1 →
  foldl (fun d kv => <[kv.1 := kv.2]> d) d bs !! m =
    if bool_decide (m ∈ bs.*1) then Some (chain bs m) else d !! m.
Proof.
  revert d. induction bs as [|[k act] bs IH]; simpl; intros d Hnd; [done|].
  apply NoDup_cons in Hnd as [Hk Hnd]. rewrite IH by done.
  destruct (String.eqb_spec k m) as [->|Hne].
  - rewrite bool_decide_eq_false_2 by done.
    rewrite bool_decide_eq_true_2 by apply list_elem_of_here.
    by rewrite lookup_insert_eq.
  - case_bool_decide as Hm.
    + rewrite bool_decide_eq_true_2; [done|]. by apply list_elem_of_further.
    + rewrite bool_decide_eq_false_2.
      * by rewrite lookup_insert_ne.
      * intros [?|?]%elem_of_cons; [congruence|done].
Qed.

Lemma recipe_map_chain bs m :
  NoDup bs.*1 → default UnknownMode (recipe_map bs !! m) = chain bs m.
Proof.
  intros Hnd. unfold recipe_map. rewrite recipe_map_acc by done.
  case_bool_decide as Hm; simpl; [done|].
  rewrite lookup_empty. simpl. symmetry. by apply chain_not_tested.
Qed.

End Chains.

#[local] Instance action_eq_dec : EqDecision action.
Proof. solve_decision. Defined.

Lemma actions_NoDup : NoDup branches.*2.
Proof. apply (bool_decide_unpack _). vm_compute. reflexivity. Qed.

Lemma unknown_mode_not_guarded : UnknownMode ∉ branches.*2.
Proof. apply (bool_decide_unpack _). vm_compute. reflexivity. Qed.

Lemma NoDup_snd_key {A B} (l : list (A * B)) k1 k2 v :
  NoDup l.*2 → (k1, v) ∈ l → (k2, v) ∈ l → k1 = k2.
Proof.
  induction l as [|[k' v'] l IH]; simpl; intros Hnd H1 H2.
  - by apply elem_of_nil in H1.
  - apply NoDup_cons in Hnd as [Hv Hnd].
    apply elem_of_cons in H1 as [E1|H1]; apply elem_of_cons in H2 as [E2|H2].
    + congruence.
    + injection E1 as -> ->. exfalso. apply Hv.
      apply list_elem_of_fmap. by exists (k2, v').
    + injection E2 as -> ->. exfalso. apply Hv.
      apply list_elem_of_fmap. by exists (k1, v').
    + by apply IH.
Qed.

Lemma branches_resolve : forallb branch_resolves branches = true.
Proof. vm_compute. reflexivity. Qed.

Lemma models_imported : module_globals !! "models" = Some (OModule "models").
Proof. vm_compute. reflexivity. Qed.
Lemma td_imported : module_globals !! "td" = Some (OModule "training_data").
Proof. vm_compute. reflexivity. Qed.
Lemma defines_imported : module_globals !! "defines" = Some (OModule "defines").
Proof. vm_compute. reflexivity. Qed.
Lemma plots_imported : module_globals !! "plots" = Some (OModule "plots").
Proof. vm_compute. reflexivity. Qed.
Lemma arguments_imported : module_globals !! "arguments" = Some (OModule "arguments").
Proof. vm_compute. reflexivity. Qed.
Lemma os_imported : module_globals !! "os" = Some (OModule "os").
Proof. vm_compute. reflexivity. Qed.

(** ** Reasoning about recipes: weakest preconditions *)

Section Wp.
Context `{Library}.

Lemma wp_ret {A} (a : A) st Q : Q (Returned a) st → wp (ret a) st Q.
Proof. done. Qed.

Lemma wp_raise {A} e st (Q : outcome A → state → Prop) :
  Q (Raised e) st → wp (raise e) st Q.
Proof. done. Qed.

Lemma wp_bind {A B} (c : M A) (k : A → M B) st Q :
  wp c st (fun o st' =>
             match o with
             | Returned a => wp (k a) st' Q
             | Raised e => Q (Raised e) st'
             end) →
  wp (bind c k) st Q.
Proof. unfold wp, bind. by destruct (c st) as [[a|e] st']. Qed.

Lemma wp_emit e st Q : Q (Returned tt) (logged st e) → wp (emit e) st Q.
Proof. done. Qed.

Lemma wp_get_args st Q : Q (Returned (st_args st)) st → wp get_args st Q.
Proof. done. Qed.

Lemma wp_query {A} (f : World → A) st Q :
  Q (Returned (f (st_world st))) st → wp (query f) st Q.
Proof. done. Qed.

Lemma wp_setattr f st Q :
  Q (Returned tt)
    {| st_args := f (st_args st); st_world := st_world st;
       st_trace := st_trace st |} →
  wp (setattr f) st Q.
Proof. done. Qed.

Lemma wp_invoke callee pos kw st Q :
  (∀ r w, lib callee pos kw (st_world st) = (r, w) →
          Q (Returned r) (called st w (Call callee pos kw))) →
  wp (invoke callee pos kw) st Q.
Proof.
  intros HQ. unfold wp, invoke.
  destruct (lib callee pos kw (st_world st)) as [r w]. by apply HQ.
Qed.

Lemma wp_invoke3 callee pos kw st Q :
  (∀ r w, lib3 callee pos kw (st_world st) = (r, w) →
          Q (Returned r) (called st w (Call callee pos kw))) →
  wp (invoke3 callee pos kw) st Q.
Proof.
  intros HQ. unfold wp, invoke3.
  destruct (lib3 callee pos kw (st_world st)) as [r w]. by apply HQ.
Qed.

Lemma wp_load_global name o st Q :
  module_globals !! name = Some o → Q (Returned o) st → wp (load_global name) st Q.
Proof. intros Hg HQ. unfold wp, load_global. by rewrite Hg. Qed.

Lemma wp_load_attr alias attr q callee st Q :
  module_globals !! alias = Some (OModule q) →
  alias +:+ "." +:+ attr = callee →
  Q (Returned callee) st →
  wp (load_attr alias attr) st Q.
Proof.
  intros Hg <- HQ. unfold load_attr. apply wp_bind.
  by apply (wp_load_global _ _ _ _ Hg).
Qed.

Lemma wp_call alias func q callee pos kw st Q :
  module_globals !! alias = Some (OModule q) →
  alias +:+ "." +:+ func = callee →
  (∀ r w, lib callee pos kw (st_world st) = (r, w) →
          Q (Returned r) (called st w (Call callee pos kw))) →
  wp (call alias func pos kw) st Q.
Proof.
  intros Hg Hcallee HQ. unfold call. apply wp_bind.
  apply (wp_load_attr _ _ _ _ _ _ Hg Hcallee). by apply wp_invoke.
Qed.

Lemma wp_call3 alias func q callee pos kw st Q :
  module_globals !! alias = Some (OModule q) →
  alias +:+ "." +:+ func = callee →
  (∀ r w, lib3 callee pos kw (st_world st) = (r, w) →
          Q (Returned r) (called st w (Call callee pos kw))) →
  wp (call3 alias func pos kw) st Q.
Proof.
  intros Hg Hcallee HQ. unfold call3. apply wp_bind.
  apply (wp_load_attr _ _ _ _ _ _ Hg Hcallee). by apply wp_invoke3.
Qed.

Lemma wp_call_method obj meth callee pos kw st Q :
  "." +:+ meth = callee →
  (∀ r w, lib callee (AObj obj :: pos) kw (st_world st) = (r, w) →
          Q (Returned r) (called st w (Call callee (AObj obj :: pos) kw))) →
  wp (call_method obj meth pos kw) st Q.
Proof. intros <-. apply wp_invoke. Qed.

Lemma wp_getattr alias attr q st Q :
  module_globals !! alias = Some (OModule q) →
  (∀ v, Q (Returned v) st) →
  wp (getattr alias attr) st Q.
Proof.
  intros Hg HQ. unfold getattr. apply wp_bind.
  apply (wp_load_attr _ _ _ _ _ _ Hg eq_refl). apply HQ.
Qed.

Lemma wp_and {A} (c : M A) st (Q1 Q2 : outcome A → state → Prop) :
  wp c st Q1 → wp c st Q2 → wp c st (fun o st' => Q1 o st' ∧ Q2 o st').
Proof. unfold wp. auto. Qed.

Lemma wp_mono {A} (c : M A) st (Q Q' : outcome A → state → Prop) :
  (∀ o st', Q o st' → Q' o st') → wp c st Q → wp c st Q'.
Proof. unfold wp. auto. Qed.

(** A loop whose body always returns and maintains [I] returns and
    maintains [I]. *)
Lemma wp_for {A} (I : state → list A → Prop) (l : list A) (body : A → M unit) st done_ :
  (∀ st x seen, I st seen →
     wp (body x) st (fun o st' => o = Returned tt ∧ I st' (seen ++ [x]))) →
  I st done_ →
  wp (for_ l body) st (fun o st' => o = Returned tt ∧ I st' (done_ ++ l)).
Proof.
  intros Hbody. revert st done_.
  induction l as [|x l IH]; intros st done_ HI; simpl.
  - apply wp_ret. by rewrite app_nil_r.
  - apply wp_bind. eapply wp_mono; [|by apply Hbody].
    intros o st' [-> HI']. specialize (IH st' (done_ ++ [x]) HI').
    by rewrite <- app_assoc in IH.
Qed.

End Wp.

Ltac wp_imported :=
  first [ exact models_imported | exact td_imported | exact defines_imported
        | exact plots_imported | exact arguments_imported | exact os_imported ].

(** One statement of a recipe. *)
Ltac wp_step :=
  lazymatch goal with
  | |- wp (bind _ _) _ _ => apply wp_bind
  | |- wp (ret _) _ _ => apply wp_ret
  | |- wp (raise _) _ _ => apply wp_raise
  | |- wp get_args _ _ => apply wp_get_args
  | |- wp (setattr _) _ _ => apply wp_setattr
  | |- wp (query _) _ _ => apply wp_query
  | |- wp (emit _) _ _ => apply wp_emit
  | |- wp (print _) _ _ => apply wp_emit
  | |- wp (getattr _ _) _ _ => eapply wp_getattr; [wp_imported|intros ?]
  | |- wp (call _ _ _ _) _ _ =>
      eapply wp_call; [wp_imported|vm_compute; reflexivity|intros ? ? ?]
  | |- wp (call3 _ _ _ _) _ _ =>
      eapply wp_call3; [wp_imported|vm_compute; reflexivity|intros [[? ?] ?] ? ?]
  | |- wp (call_method _ _ _ _) _ _ =>
      eapply wp_call_method; [vm_compute; reflexivity|intros ? ? ?]
  | |- wp (invoke _ _ _) _ _ => apply wp_invoke; intros ? ? ?
  | |- wp (load_attr _ _) _ _ =>
      eapply wp_load_attr; [wp_imported|vm_compute; reflexivity|]
  end; cbv beta iota; cbn [st_args st_world st_trace called logged] in *.

(** ** What a trace shows *)

Lemma recipes_entered_app tr1 tr2 :
  recipes_entered (tr1 ++ tr2) = recipes_entered tr1 ++ recipes_entered tr2.
Proof. apply omap_app. Qed.

Lemma calls_of_app callee tr1 tr2 :
  calls_of callee (tr1 ++ tr2) = calls_of callee tr1 ++ calls_of callee tr2.
Proof. apply omap_app. Qed.

Lemma recipes_entered_call tr callee pos kw :
  recipes_entered (tr ++ [Call callee pos kw]) = recipes_entered tr.
Proof. rewrite recipes_entered_app. simpl. apply app_nil_r. Qed.

Section Dispatch.
Context `{Library}.

Lemma run_unfold w : run w = exec_action (dispatch (st_args (parsed w))) (parsed w).
Proof. unfold run, parsed. by destruct (lib_parse_args w). Qed.

Lemma dispatch_cases (args : Args) :
  ((mode args ∉ recognized_modes) ∧ dispatch args = UnknownMode) ∨
  (∃ act, dispatch args = act ∧ (mode args, act) ∈ branches).
Proof.
  rewrite dispatch_chain.
  destruct (decide (mode args ∈ recognized_modes)) as [Hin|Hnin].
  - right. apply list_elem_of_fmap in Hin as [[k act] [Hk Hin]]. simpl in Hk.
    subst k. exists act. split; [|done].
    by apply chain_tested; [apply recognized_modes_NoDup|].
  - left. split; [done|]. by apply chain_not_tested.
Qed.

Lemma branch_of_branches_resolves k act :
  (k, act) ∈ branches → branch_resolves (k, act) = true.
Proof.
  intros Hin. pose proof branches_resolve as Hall.
  rewrite forallb_forall in Hall. apply Hall. by apply list_elem_of_In.
Qed.

Lemma recipe_line_Some name line :
  recipe_line name = Some line → module_globals !! name = Some (OFunction name line).
Proof.
  unfold recipe_line. destruct (module_globals !! name) as [[]|]; try done.
  destruct (String.eqb_spec name0 name) as [->|]; [|done]. intros [= ->]. reflexivity.
Qed.

Lemma continues_refl st : continues st st.
Proof. exists []. by rewrite app_nil_r. Qed.

Lemma continues_trans st1 st2 st3 :
  continues st1 st2 → continues st2 st3 → continues st1 st3.
Proof.
  intros (r1 & H1 & E1) (r2 & H2 & E2). exists (r1 ++ r2). split.
  - by rewrite H2, H1, app_assoc.
  - by rewrite recipes_entered_app, E1, E2.
Qed.

Lemma continues_entered st st' :
  continues st st' → recipes_entered (st_trace st') = recipes_entered (st_trace st).
Proof.
  intros (rest & -> & Hrest). rewrite recipes_entered_app, Hrest. apply app_nil_r.
Qed.

(** The trace reached by library calls alone continues the one it started
    from. *)
Ltac trace_calls :=
  unfold continues; cbn [st_trace called logged]; rewrite <- ?app_assoc;
  eexists; split; reflexivity.

Lemma keeps_entered_for {A} (l : list A) (body : A → M unit) :
  (∀ x st, wp (body x) st (fun o st' => o = Returned tt ∧ continues st st')) →
  keeps_entered (for_ l body).
Proof.
  intros Hbody st.
  eapply wp_mono;
    [|apply (wp_for (fun st' _ => continues st st') l body st [])].
  - by intros o st' [_ ?].
  - intros st' x seen HI. eapply wp_mono; [|apply Hbody].
    intros o st'' [-> Hst'']. split; [done|]. by eapply continues_trans.
  - apply continues_refl.
Qed.

Lemma weight_path_unbound st :
  load_name locals_bqsr_lstm_train_tensor "weight_path" st
  = (Raised (NameError "weight_path"), st).
Proof. vm_compute. reflexivity. Qed.

Lemma wp_weight_path_unbound st (Q : outcome pyobj → state → Prop) :
  Q (Raised (NameError "weight_path")) st →
  wp (load_name locals_bqsr_lstm_train_tensor "weight_path") st Q.
Proof. intros HQ. unfold wp. by rewrite weight_path_unbound. Qed.

Lemma keeps_entered_bqsr_train_tensor : keeps_entered bqsr_train_tensor.
Proof. intros st. unfold bqsr_train_tensor. repeat wp_step. trace_calls. Qed.

Lemma keeps_entered_bqsr_lstm_train_tensor : keeps_entered bqsr_lstm_train_tensor.
Proof.
  intros st. unfold bqsr_lstm_train_tensor. repeat wp_step.
  apply wp_weight_path_unbound. trace_calls.
Qed.

Lemma keeps_entered_roc_step args generate_train generate_valid weight_path model test i st :
  wp (roc_step args generate_train generate_valid weight_path model test i) st
     (fun o st' => o = Returned tt ∧ continues st st').
Proof. unfold roc_step. repeat wp_step. split; [done|]. trace_calls. Qed.

Lemma keeps_entered_roc bound : keeps_entered (roc_with_bound bound).
Proof.
  intros st. unfold roc_with_bound, roc_setup. repeat wp_step.
  eapply wp_mono; [|apply keeps_entered_for].
  - cbv beta. intros _ st' Hloop. eapply continues_trans; [|exact Hloop].
    trace_calls.
  - intros x st'. apply keeps_entered_roc_step.
Qed.

Lemma keeps_entered_body_at line : keeps_entered (body_at line).
Proof.
  unfold body_at.
  destruct (N.eqb line 562); [apply keeps_entered_bqsr_train_tensor|].
  destruct (N.eqb line 619); [apply keeps_entered_bqsr_lstm_train_tensor|].
  destruct (N.eqb line 1380); [apply (keeps_entered_roc epochs)|].
  destruct (N.eqb line 1413); [apply (keeps_entered_roc iterations)|].
  intros st. unfold wp, unmodelled.
  destruct (lib_body line (st_args st) (st_world st)) as [[o a] w].
  exists []. split; [|done]. cbn [snd st_trace]. by rewrite app_nil_r.
Qed.

Lemma exec_action_events k act st :
  branch_resolves (k, act) = true →
  wp (exec_action act) st (fun _ st' =>
    ∃ tr, st_trace st' = st_trace st ++ tr
          ∧ events_of_action act (st_args st) tr).
Proof.
  unfold branch_resolves.
  destruct act as [name|alias func kw|build write_|];
    cbn [snd exec_action events_of_action].
  - intros [line Hline]%bool_decide_eq_true.
    unfold call_global. wp_step.
    eapply wp_load_global; [by apply recipe_line_Some|]. cbv beta iota.
    repeat wp_step.
    eapply wp_mono; [|apply keeps_entered_body_at].
    cbv beta. intros _ st' (rest & -> & Hrest). cbn [st_trace logged].
    exists (Enter name line (st_args st) :: rest). split.
    + by rewrite <- app_assoc.
    + by exists line, rest.
  - destruct (module_globals !! alias) as [o|] eqn:Halias;
      [|intros Hres; discriminate Hres].
    intros Hres. destruct o; try discriminate Hres. clear Hres.
    wp_step. wp_step. wp_step. eapply wp_call; [exact Halias|reflexivity|].
    intros r w _.
    cbv beta iota. wp_step. cbn [st_trace called]. by eexists.
  - intros _. repeat wp_step. rewrite <- app_assoc. eexists. split; [reflexivity|].
    by eexists.
  - intros _. repeat wp_step. by eexists.
Qed.

Lemma events_entered act args tr :
  events_of_action act args tr → recipes_entered tr = recipes_of act.
Proof.
  destruct act as [name|alias func kw|build write_|]; cbn [events_of_action recipes_of].
  - intros (line & rest & -> & -> & Hrest). simpl. by rewrite Hrest.
  - by intros ->.
  - by intros [model ->].
  - by intros ->.
Qed.

End Dispatch.

Section DispatchTheorems.
Context `{Library}.

Lemma run_events (w : World) :
  ∃ tr, st_trace (run w).2 = Call "arguments.parse_args" [] [] :: tr
        ∧ events_of_action (dispatch (st_args (parsed w))) (st_args (parsed w)) tr.
Proof.
  rewrite run_unfold.
  destruct (dispatch_cases (st_args (parsed w))) as [[_ Hun]|[act [Hact Hin]]].
  - rewrite Hun. by apply (exec_action_events "" UnknownMode (parsed w)).
  - rewrite Hact.
    apply (exec_action_events (mode (st_args (parsed w))) act (parsed w)).
    by apply branch_of_branches_resolves.
Qed.

Lemma run_entered (w : World) :
  recipes_entered (st_trace (run w).2) = recipes_of (dispatch (st_args (parsed w))).
Proof.
  destruct (run_events w) as (tr & -> & Hevents).
  by apply events_entered in Hevents.
Qed.

(** C1.  For every parsed argument record, [run] executes exactly one branch
    of its chain: the branch is the first whose literal equals [args.mode]
    under string equality; a recognized mode selects the action its literal
    guards and the action of no other guard; an unrecognized mode selects
    the error action; and after the parse the events of the run are those
    of the selected action and of nothing else, so that the functions of
    recipes.py called are exactly those of the selected action (one for a
    recipe branch, none otherwise). *)
Theorem run_executes_exactly_one_branch (w : World) :
  let args := st_args (parsed w) in
  run w = exec_action (dispatch args) (parsed w)
  ∧ dispatch args = chain branches (mode args)
  ∧ (∀ k act, (k, act) ∈ branches →
       (mode args = k → dispatch args = act) ∧
       (mode args ≠ k → dispatch args ≠ act))
  ∧ (mode args ∉ recognized_modes → dispatch args = UnknownMode)
  ∧ (∃ tr, st_trace (run w).2 = Call "arguments.parse_args" [] [] :: tr
           ∧ events_of_action (dispatch args) args tr)
  ∧ recipes_entered (st_trace (run w).2) = recipes_of (dispatch args)
  ∧ (∀ name, dispatch args = CallRecipe name →
       length (recipes_of (dispatch args)) = 1%nat).
Proof.
  intros args. split; [apply run_unfold|]. split; [apply dispatch_chain|].
  split; [|split; [|split; [|split]]].
  - intros k act Hin. split.
    + intros <-. rewrite dispatch_chain.
      by apply chain_tested; [apply recognized_modes_NoDup|].
    + intros Hne Heq. destruct (dispatch_cases args) as [[_ Hun]|[act' [Hact' Hin']]].
      * apply unknown_mode_not_guarded. rewrite <- Hun, Heq.
        apply list_elem_of_fmap. by exists (k, act).
      * apply Hne. rewrite Hact' in Heq. subst act'.
        by apply (NoDup_snd_key branches _ _ act actions_NoDup).
  - intros Hnot. rewrite dispatch_chain. by apply chain_not_tested.
  - apply run_events.
  - apply run_entered.
  - intros name Hname.
    destruct (dispatch_cases args) as [[_ Hun]|[act [Hact Hin]]]; [congruence|].
    rewrite Hname in Hact. subst act.
    pose proof (branch_of_branches_resolves _ _ Hin) as Hres.
    unfold branch_resolves in Hres. cbn [snd] in Hres.
    apply bool_decide_eq_true in Hres as [line Hline].
    rewrite Hname. cbn [recipes_of]. by rewrite Hline.
Qed.

(** C2.  For every mode that equals none of the recognized mode strings,
    [run] returns without raising; after the parse of the command line the
    only event is the print of the error message, whose second item is the
    unknown mode; no recipe or library function is called, and the namespace
    and the world are as [parse_args] left them. *)
Theorem run_unknown_mode_only_prints (w : World) :
  mode (st_args (parsed w)) ∉ recognized_modes →
  run w =
    (Returned tt,
     {| st_args := st_args (parsed w);
        st_world := st_world (parsed w);
        st_trace :=
          [Call "arguments.parse_args" [] [];
           Print [OStr (newline +:+ newline +:+ " ERROR! Unknown recipe mode:");
                  OStr (mode (st_args (parsed w)));
                  OStr (newline +:+ newline +:+ newline)]] |}).
Proof.
  intros Hnot. rewrite run_unfold, dispatch_chain.
  rewrite chain_not_tested by done. reflexivity.
Qed.

(** C7.  The branch [run] selects depends on the mode only: two parsed
    argument records that agree on [mode] select the same action, whatever
    their other fields; and two runs whose command lines agree on the mode
    call the same functions of recipes.py. *)
Theorem dispatch_depends_only_on_mode (a1 a2 : Args) (w1 w2 : World) :
  mode a1 = mode a2 →
  dispatch a1 = dispatch a2
  ∧ (st_args (parsed w1) = a1 → st_args (parsed w2) = a2 →
     recipes_entered (st_trace (run w1).2) = recipes_entered (st_trace (run w2).2)).
Proof.
  intros Hmode.
  assert (dispatch a1 = dispatch a2) as Heq
    by (rewrite !dispatch_chain; by rewrite Hmode).
  split; [done|]. intros <- <-.
  by rewrite !run_entered, Heq.
Qed.

End DispatchTheorems.

(** C3.  The if/elif chain of [run] selects, for every mode, the action a
    lookup in the table keyed by mode string selects (with the error action
    as default).  The recognized mode strings are pairwise distinct, which
    is what the equivalence rests on: chain and table agree for every list
    of guarded branches with pairwise distinct guards, and differ on a list
    that repeats a guard. *)
Theorem chain_refines_lookup_table :
  NoDup recognized_modes
  ∧ (∀ args, dispatch args = dispatch_by_table args)
  ∧ (∀ bs, NoDup bs.*1 →
       ∀ m, chain bs m = default UnknownMode (recipe_map bs !! m))
  ∧ (∃ bs m, ¬ NoDup bs.*1 ∧
       chain bs m ≠ default UnknownMode (recipe_map bs !! m)).
Proof.
  split; [apply recognized_modes_NoDup|]. split; [|split].
  - intros args. unfold dispatch_by_table.
    rewrite recipe_map_chain by apply recognized_modes_NoDup.
    apply dispatch_chain.
  - intros bs Hnd m. symmetry. by apply recipe_map_chain.
  - exists [("m", CallRecipe "first"); ("m", CallRecipe "second")], "m".
    split.
    + intros Hnd. apply NoDup_cons in Hnd as [Hnotin _].
      apply Hnotin. apply list_elem_of_here.
    + vm_compute. discriminate.
Qed.

Lemma run_executes_exactly_one_branch_witness :
  dispatch (sample_args "test_ref" 3) = CallRecipe "test_reference_net".
Proof.
  pose proof (@run_executes_exactly_one_branch
                (counting_library (sample_args "test_ref" 3)) 0%N)
    as (_ & _ & Hbranch & _).
  apply (Hbranch "test_ref" (CallRecipe "test_reference_net")).
  - apply (bool_decide_unpack _). vm_compute. reflexivity.
  - reflexivity.
Defined.

Lemma run_unknown_mode_only_prints_witness :
  (@run (counting_library (sample_args "no_such_recipe" 3)) 0%N).1 = Returned tt.
Proof.
  refine (f_equal fst
            (@run_unknown_mode_only_prints
               (counting_library (sample_args "no_such_recipe" 3)) 0%N _)).
  apply (bool_decide_unpack _). vm_compute. reflexivity.
Defined.

Lemma dispatch_depends_only_on_mode_witness :
  dispatch (sample_args "roc_animation" 3) = dispatch (other_args "roc_animation").
Proof.
  refine (proj1 (@dispatch_depends_only_on_mode
                   (counting_library (sample_args "roc_animation" 3))
                   (sample_args "roc_animation" 3) (other_args "roc_animation")
                   0%N 0%N _)).
  reflexivity.
Defined.

(** ** The recipe of mode [train_bqsr_lstm] *)

Lemma calls_of_call callee tr c pos kw :
  calls_of callee (tr ++ [Call c pos kw])
  = calls_of callee tr ++ (if String.eqb c callee then [(pos, kw)] else []).
Proof. rewrite calls_of_app. simpl. by destruct (String.eqb c callee). Qed.

Lemma calls_of_enter callee tr name line a :
  calls_of callee (tr ++ [Enter name line a]) = calls_of callee tr.
Proof. rewrite calls_of_app. simpl. apply app_nil_r. Qed.

Lemma bqsr_lstm_train_tensor_bound :
  module_globals !! "bqsr_lstm_train_tensor"
  = Some (OFunction "bqsr_lstm_train_tensor" 619).
Proof. vm_compute. reflexivity. Qed.

Lemma train_bqsr_lstm_branch :
  chain branches "train_bqsr_lstm" = CallRecipe "bqsr_lstm_train_tensor".
Proof. vm_compute. reflexivity. Qed.

Section Execution.
Context `{Library}.

Lemma wp_returns {A} (c : M A) st o (P : state → Prop) :
  wp c st (fun o' st' => o' = o ∧ P st') → ∃ st', c st = (o, st') ∧ P st'.
Proof.
  unfold wp. intros [Ho HP]. exists (c st).2. split; [|done].
  rewrite <- Ho. by destruct (c st).
Qed.

Lemma wp_call_global name line st Q :
  module_globals !! name = Some (OFunction name line) →
  wp (body_at line) (logged st (Enter name line (st_args st))) Q →
  wp (call_global name) st Q.
Proof.
  intros Hname Hbody. unfold call_global. wp_step.
  eapply wp_load_global; [exact Hname|]. cbv beta iota.
  by repeat wp_step.
Qed.

Lemma bqsr_lstm_train_tensor_wp st :
  wp bqsr_lstm_train_tensor st (fun o st' =>
    o = Raised (NameError "weight_path") ∧
    train_calls (st_trace st') = train_calls (st_trace st) ∧
    length (calls_of "models.build_bqsr_lstm_model" (st_trace st'))
    = S (length (calls_of "models.build_bqsr_lstm_model" (st_trace st))) ∧
    recipes_entered (st_trace st') = recipes_entered (st_trace st)).
Proof.
  unfold bqsr_lstm_train_tensor, train_calls. repeat wp_step.
  apply wp_weight_path_unbound. split; [done|].
  cbn [st_trace called logged].
  rewrite !calls_of_call, !recipes_entered_call. simpl.
  rewrite !app_nil_r, length_app. simpl. split; [done|]. split; [lia|done].
Qed.

(** C4.  Every invocation of [bqsr_lstm_train_tensor] fails with
    [NameError] for [weight_path] before the training function is called:
    the function does not assign [weight_path] (its sibling
    [bqsr_train_tensor] does, and calls the training function), the module
    binds no such name and it is no builtin.  Hence a run with mode
    [train_bqsr_lstm] calls the recipe and ends in that [NameError]
    without training. *)
Theorem bqsr_lstm_train_tensor_raises_name_error (st : state) (w : World) :
  ("weight_path" ∉ locals_bqsr_lstm_train_tensor)
  ∧ module_globals !! "weight_path" = None
  ∧ ("weight_path" ∉ builtins)
  ∧ "weight_path" ∈ locals_bqsr_train_tensor
  ∧ (∃ st', bqsr_lstm_train_tensor st = (Raised (NameError "weight_path"), st')
       ∧ train_calls (st_trace st') = train_calls (st_trace st)
       ∧ length (calls_of "models.build_bqsr_lstm_model" (st_trace st'))
         = S (length (calls_of "models.build_bqsr_lstm_model" (st_trace st))))
  ∧ (∃ st', bqsr_train_tensor st = (Returned tt, st')
       ∧ length (train_calls (st_trace st')) = S (length (train_calls (st_trace st))))
  ∧ (mode (st_args (parsed w)) = "train_bqsr_lstm" →
     ∃ st', run w = (Raised (NameError "weight_path"), st')
       ∧ recipes_entered (st_trace st') = [("bqsr_lstm_train_tensor", 619%N)]
       ∧ train_calls (st_trace st') = []).
Proof.
  split; [apply (bool_decide_unpack _); vm_compute; reflexivity|].
  split; [vm_compute; reflexivity|].
  split; [apply (bool_decide_unpack _); vm_compute; reflexivity|].
  split; [apply (bool_decide_unpack _); vm_compute; reflexivity|].
  split; [|split].
  - apply wp_returns. eapply wp_mono; [|apply bqsr_lstm_train_tensor_wp].
    cbv beta. by intros o st' (-> & ? & ? & _).
  - apply wp_returns. unfold bqsr_train_tensor, train_calls. repeat wp_step.
    split; [done|]. cbn [st_trace called logged]. rewrite !calls_of_call. simpl.
    rewrite !app_nil_r, length_app. simpl. lia.
  - intros Hmode.
    rewrite run_unfold, dispatch_chain, Hmode, train_bqsr_lstm_branch.
    apply wp_returns. cbn [exec_action].
    eapply wp_call_global; [exact bqsr_lstm_train_tensor_bound|].
    eapply wp_mono; [|apply bqsr_lstm_train_tensor_wp].
    cbv beta. intros o st' (-> & Htrain & _ & Hentered). split; [done|].
    by rewrite Htrain, Hentered.
Qed.

(** ** The recipe of mode [roc_animation] *)

Lemma roc_step_wp args generate_train generate_valid weight_path model test i st :
  wp (roc_step args generate_train generate_valid weight_path model test i) st
     (fun o st' =>
        o = Returned tt ∧
        length (fit_calls (st_trace st')) = S (length (fit_calls (st_trace st))) ∧
        plot_titles (st_trace st') = plot_titles (st_trace st) ++ [id_ args +:+ str i]).
Proof.
  unfold roc_step, fit_calls, plot_titles. repeat wp_step. split; [done|].
  rewrite !calls_of_call. simpl. rewrite !app_nil_r, length_app, omap_app.
  simpl. split; [lia|done].
Qed.

Lemma length_range n : length (range n) = Z.to_nat n.
Proof. unfold range. by rewrite length_fmap, length_seq. Qed.

Lemma roc_with_bound_counts bound st :
  wp (roc_with_bound bound) st (fun o st' =>
    o = Returned tt ∧
    length (fit_calls (st_trace st'))
    = (length (fit_calls (st_trace st)) + Z.to_nat (bound (st_args st)))%nat ∧
    plot_titles (st_trace st')
    = plot_titles (st_trace st)
      ++ ((fun i => id_ (st_args st) +:+ str i) <$> range (bound (st_args st)))).
Proof.
  unfold roc_with_bound, roc_setup. repeat wp_step.
  match goal with |- wp (for_ ?l ?body) ?s _ =>
    eapply wp_mono;
      [|apply (wp_for (fun st' seen =>
           length (fit_calls (st_trace st'))
           = (length (fit_calls (st_trace st)) + length seen)%nat ∧
           plot_titles (st_trace st')
           = plot_titles (st_trace st)
             ++ ((fun i => id_ (st_args st) +:+ str i) <$> seen))
          l body s [])]
  end.
  - cbv beta. intros o st' (-> & Hfit & Htitles). rewrite app_nil_l in *.
    rewrite Hfit, Htitles, length_range. split; [|split]; reflexivity.
  - intros st' x seen [Hfit Htitles].
    eapply wp_mono; [|apply roc_step_wp].
    cbv beta. intros o st'' (-> & Hfit' & Htitles'). split; [done|].
    rewrite Hfit', Htitles', Hfit, Htitles, length_app, fmap_app, app_assoc.
    simpl. split; [lia|done].
  - cbv beta. cbn [st_trace called logged]. unfold fit_calls, plot_titles.
    rewrite !calls_of_call. simpl. rewrite !app_nil_r. simpl.
    rewrite ?app_nil_r. split; [lia|done].
Qed.

Lemma roc_with_bound_wp bound st :
  wp (roc_with_bound bound) st (fun o st' =>
    o = Returned tt ∧
    length (fit_calls (st_trace st'))
    = (length (fit_calls (st_trace st)) + Z.to_nat (bound (st_args st)))%nat ∧
    plot_titles (st_trace st')
    = plot_titles (st_trace st)
      ++ ((fun i => id_ (st_args st) +:+ str i) <$> range (bound (st_args st))) ∧
    recipes_entered (st_trace st') = recipes_entered (st_trace st)).
Proof.
  eapply wp_mono;
    [|exact (wp_and _ _ _ _ (roc_with_bound_counts bound st) (keeps_entered_roc bound st))].
  cbv beta. intros o st' [(Ho & Hfit & Htitles) Hcont].
  by apply continues_entered in Hcont.
Qed.

Lemma roc_curve_through_learning_bound :
  module_globals !! "roc_curve_through_learning"
  = Some (OFunction "roc_curve_through_learning" 1413).
Proof. vm_compute. reflexivity. Qed.

Lemma roc_animation_branch :
  chain branches "roc_animation" = CallRecipe "roc_curve_through_learning".
Proof. vm_compute. reflexivity. Qed.

Lemma no_binding_to_line_1380 name o :
  module_globals !! name = Some o → defined_at 1380 o = false.
Proof.
  revert name o. change (map_Forall (fun _ o => defined_at 1380 o = false) module_globals).
  apply (bool_decide_unpack _). vm_compute. reflexivity.
Qed.

(** C9.  [roc_curve_through_learning] is defined twice (lines 1380 and
    1413); once the module is loaded the name is bound to the second
    definition and no name is bound to the first, so no run ever calls the
    first (whose loop would run [args.epochs] times).  A run with mode
    [roc_animation] calls the second definition and returns; its loop calls
    [fit_generator] once for each [i] in [range(args.iterations)], plotting
    under the titles [args.id + str(i)]. *)
Theorem roc_animation_runs_second_definition (w : World) (st : state) :
  (filter (fun nb => nb.1 = "roc_curve_through_learning") module_statements).*2
    = [OFunction "roc_curve_through_learning" 1380;
       OFunction "roc_curve_through_learning" 1413]
  ∧ module_globals !! "roc_curve_through_learning"
    = Some (OFunction "roc_curve_through_learning" 1413)
  ∧ (∀ name o, module_globals !! name = Some o → defined_at 1380 o = false)
  ∧ (∀ name line,
       (name, line) ∈ recipes_entered (st_trace (run w).2) → line ≠ 1380%N)
  ∧ (∃ st', roc_curve_through_learning_1380 st = (Returned tt, st')
       ∧ length (fit_calls (st_trace st'))
         = (length (fit_calls (st_trace st)) + Z.to_nat (epochs (st_args st)))%nat)
  ∧ (mode (st_args (parsed w)) = "roc_animation" →
     ∃ st', run w = (Returned tt, st')
       ∧ recipes_entered (st_trace st') = [("roc_curve_through_learning", 1413%N)]
       ∧ length (fit_calls (st_trace st'))
         = Z.to_nat (iterations (st_args (parsed w)))
       ∧ ((0 ≤ iterations (st_args (parsed w)))%Z →
          Z.of_nat (length (fit_calls (st_trace st')))
          = iterations (st_args (parsed w)))
       ∧ plot_titles (st_trace st')
         = (fun i => id_ (st_args (parsed w)) +:+ str i)
             <$> range (iterations (st_args (parsed w)))).
Proof.
  split; [vm_compute; reflexivity|].
  split; [apply roc_curve_through_learning_bound|].
  split; [apply no_binding_to_line_1380|].
  split; [|split].
  - intros name line. rewrite run_entered.
    destruct (dispatch (st_args (parsed w))) as [name'| | |];
      cbn [recipes_of]; try by intros ?%elem_of_nil.
    destruct (recipe_line name') as [line'|] eqn:Hline;
      [|intros Hin; exfalso; revert Hin; apply not_elem_of_nil].
    intros Hin. apply list_elem_of_singleton in Hin. injection Hin as -> ->.
    apply recipe_line_Some, no_binding_to_line_1380 in Hline.
    cbn [defined_at] in Hline. by apply N.eqb_neq.
  - apply wp_returns.
    eapply wp_mono; [|apply (roc_with_bound_wp epochs st)].
    cbv beta. by intros o st' (-> & ? & _).
  - intros Hmode.
    rewrite run_unfold, dispatch_chain, Hmode, roc_animation_branch.
    apply wp_returns. cbn [exec_action].
    eapply wp_call_global; [exact roc_curve_through_learning_bound|].
    eapply wp_mono; [|apply (roc_with_bound_wp iterations)].
    cbv beta. intros o st' (-> & Hfit & Htitles & Hentered). split; [done|].
    rewrite Hfit, Htitles, Hentered. cbn [length Nat.add].
    repeat split; try done. intros Hnonneg. by apply Z2Nat.id.
Qed.

End Execution.

Lemma bqsr_lstm_train_tensor_raises_name_error_witness :
  ∃ st', @run (counting_library (sample_args "train_bqsr_lstm" 3)) 0%N
         = (Raised (NameError "weight_path"), st')
    ∧ recipes_entered (st_trace st') = [("bqsr_lstm_train_tensor", 619%N)]
    ∧ train_calls (st_trace st') = [].
Proof.
  pose proof (@bqsr_lstm_train_tensor_raises_name_error
                (counting_library (sample_args "train_bqsr_lstm" 3))
                (@parsed (counting_library (sample_args "train_bqsr_lstm" 3)) 0%N)
                0%N)
    as (_ & _ & _ & _ & _ & _ & Hrun).
  apply Hrun. reflexivity.
Defined.

Lemma roc_animation_runs_second_definition_witness :
  ∃ st', @run (counting_library (sample_args "roc_animation" 3)) 0%N
         = (Returned tt, st')
    ∧ recipes_entered (st_trace st') = [("roc_curve_through_learning", 1413%N)]
    ∧ length (fit_calls (st_trace st')) = 3%nat
    ∧ plot_titles (st_trace st') = ["net0"; "net1"; "net2"].
Proof.
  pose proof (@roc_animation_runs_second_definition
                (counting_library (sample_args "roc_animation" 3)) 0%N
                (@parsed (counting_library (sample_args "roc_animation" 3)) 0%N))
    as (_ & _ & _ & _ & _ & Hrun).
  destruct (Hrun eq_refl) as (st' & Hrun' & Hentered & Hfit & _ & Htitles).
  vm_compute in Hfit, Htitles. exists st'. repeat split; assumption.
Defined.

(** ** The class directories of the test recipes *)

Lemma ascii_compare_lt_trans (a b c : ascii) :
  Ascii.compare a b = Lt → Ascii.compare b c = Lt → Ascii.compare a c = Lt.
Proof. unfold Ascii.compare. rewrite !N.compare_lt_iff. lia. Qed.

#[local] Instance str_le_trans : Transitive str_le.
Proof.
  unfold str_le, String.leb. intros s1.
  induction s1 as [|c1 s1 IH]; intros [|c2 s2] [|c3 s3]; simpl; try done.
  destruct (Ascii.compare c1 c2) eqn:E12; [| |done].
  - apply Ascii.compare_eq_iff in E12 as ->.
    destruct (Ascii.compare c2 c3); [apply IH|done|done].
  - destruct (Ascii.compare c2 c3) eqn:E23; [| |done].
    + apply Ascii.compare_eq_iff in E23 as ->. by rewrite E12.
    + by rewrite (ascii_compare_lt_trans _ _ _ E12 E23).
Qed.

#[local] Instance str_le_total : Total str_le.
Proof. intros s1 s2. apply String.leb_total. Qed.

Lemma StronglySorted_filter {A} (R : relation A) (P : A → Prop)
    `{∀ x, Decision (P x)} (l : list A) :
  StronglySorted R l → StronglySorted R (filter P l).
Proof.
  induction 1 as [|x l Hsorted IH Hall]; [constructor|].
  rewrite filter_cons. destruct (decide (P x)); [|done].
  constructor; [done|].
  apply Forall_forall. intros y [_ Hy]%list_elem_of_filter.
  rewrite Forall_forall in Hall. by apply Hall.
Qed.

Section ClassDirectories.
Context `{Library}.

Lemma class_dirs_spec w test_dir :
  StronglySorted str_le (class_dirs w test_dir)
  ∧ ∀ vp, vp ∈ class_dirs w test_dir ↔
          vp ∈ lib_listdir test_dir w ∧ lib_isdir (test_dir +:+ vp) w = true.
Proof.
  unfold class_dirs, sorted. split.
  - apply StronglySorted_filter, StronglySorted_merge_sort; apply _.
  - intros vp. rewrite list_elem_of_filter, merge_sort_Permutation. tauto.
Qed.

Lemma comprehension_if_isdir_wp test_dir (l : list string) st :
  wp (comprehension_if (fun vp => os_path_isdir (test_dir +:+ vp)) l) st
     (fun o st' =>
        o = Returned (filter (fun vp => lib_isdir (test_dir +:+ vp) (st_world st) = true) l)
        ∧ st_args st' = st_args st ∧ st_world st' = st_world st
        ∧ ∀ callee, no_call_of callee →
            calls_of callee (st_trace st') = calls_of callee (st_trace st)).
Proof.
  revert st. induction l as [|vp l IH]; intros st; simpl.
  - by apply wp_ret.
  - unfold os_path_isdir at 1. repeat wp_step.
    eapply wp_mono; [|apply IH]. cbv beta. cbn [st_args st_world st_trace].
    intros o st' (-> & Hargs & Hworld & Hcalls). repeat wp_step.
    rewrite filter_cons.
    split; [|split; [done|split; [done|]]].
    + destruct (lib_isdir (test_dir +:+ vp) (st_world st)); by case_decide.
    + intros callee Hno. rewrite Hcalls by done. rewrite calls_of_call.
      destruct Hno as [_ Hno]. rewrite Hno. apply app_nil_r.
Qed.

Lemma test_paths_of_wp test_dir st :
  wp (test_paths_of test_dir) st
     (fun o st' =>
        o = Returned ((fun vp => test_dir +:+ vp) <$> class_dirs (st_world st) test_dir)
        ∧ st_args st' = st_args st ∧ st_world st' = st_world st
        ∧ ∀ callee, no_call_of callee →
            calls_of callee (st_trace st') = calls_of callee (st_trace st)).
Proof.
  unfold test_paths_of, os_listdir. repeat wp_step.
  eapply wp_mono; [|apply comprehension_if_isdir_wp]. cbv beta.
  cbn [st_args st_world st_trace].
  intros o st' (-> & Hargs & Hworld & Hcalls). repeat wp_step.
  split; [done|]. split; [done|]. split; [done|].
  intros callee Hno. rewrite Hcalls by done. rewrite calls_of_call.
  destruct Hno as [Hno _]. rewrite Hno. apply app_nil_r.
Qed.

Lemma wp_returns_some {A} (c : M A) st (P : A → state → Prop) :
  wp c st (fun o st' => ∃ a, o = Returned a ∧ P a st') →
  ∃ a st', c st = (Returned a, st') ∧ P a st'.
Proof.
  unfold wp. intros (a & Ho & HP). exists a, (c st).2. split; [|done].
  rewrite <- Ho. by destruct (c st).
Qed.

Ltac class_dirs_recipe :=
  intros st; cbv zeta; apply wp_returns_some;
  repeat wp_step;
  repeat match goal with
         | Hlib : lib _ _ _ _ = _ |- _ => rewrite Hlib; cbn [snd]; clear Hlib
         end;
  eapply wp_mono; [|apply test_paths_of_wp]; cbv beta;
  cbn [st_args st_world st_trace];
  intros o st' (-> & Hargs & Hworld & Hcalls);
  repeat wp_step; eexists; split; [reflexivity|];
  rewrite !calls_of_call, Hcalls by done; rewrite !calls_of_call;
  simpl; rewrite !app_nil_r; reflexivity.

(** C8.  In [test_reference_net], [test_reference_annotation_net] and
    [test_annotation_multilayer_perceptron] the class paths passed to the
    loader of the test tensors are the paths [test_dir + vp] for
    [test_dir = args.data_dir + 'test/'], where [vp] ranges over exactly the
    entries of the listing of [test_dir] for which [test_dir + vp] is a
    directory, in sorted order. *)
Theorem test_recipes_evaluate_class_directories :
  evaluates_class_dirs test_reference_net
    "models.build_reference_model" "td.load_tensors_from_class_dirs"
    (fun args => [("per_class_max", AObj (OInt (samples args)));
                  ("dataset_id", AObj (OStr "reference"))])
  ∧ evaluates_class_dirs test_reference_annotation_net
      "models.build_reference_plus_model"
      "td.load_dna_annotations_positions_from_class_dirs"
      (fun args => [("per_class_max", AObj (OInt (samples args)))])
  ∧ evaluates_class_dirs test_annotation_multilayer_perceptron
      "models.build_annotation_multilayer_perceptron"
      "td.load_tensors_from_class_dirs"
      (fun args => [("per_class_max", AObj (OInt (samples args)));
                    ("dataset_id", AObj (OStr "annotations"))])
  ∧ ∀ w test_dir,
      StronglySorted str_le (class_dirs w test_dir)
      ∧ ∀ vp, vp ∈ class_dirs w test_dir ↔
              vp ∈ lib_listdir test_dir w ∧ lib_isdir (test_dir +:+ vp) w = true.
Proof.
  split; [|split; [|split]].
  - unfold test_reference_net. class_dirs_recipe.
  - unfold test_reference_annotation_net. class_dirs_recipe.
  - unfold test_annotation_multilayer_perceptron. class_dirs_recipe.
  - apply class_dirs_spec.
Qed.

End ClassDirectories.

(** ** Score lists and shared keys *)

Section ScoreTheorems.
Context `{Countable K} {V : Type}.
Implicit Types (d heng_li gatk gatk_scores : gmap K (V * V)) (cnn : gmap K V).
Implicit Types (shared : list K) (k p : K).

Lemma elem_of_keys {A} (m : gmap K A) k : k ∈ keys m ↔ is_Some (m !! k).
Proof.
  unfold keys. rewrite list_elem_of_fmap. split.
  - intros [[k' v] [-> Hin]]. apply elem_of_map_to_list in Hin. by exists v.
  - intros [v Hv]. exists (k, v). split; [done|]. by apply elem_of_map_to_list.
Qed.

Lemma shared_filter_keys_spec heng_li gatk gatk_scores k :
  k ∈ shared_filter_keys heng_li gatk gatk_scores ↔
  k ∈ dom heng_li ∧ k ∈ dom gatk ∧ k ∈ dom gatk_scores.
Proof.
  unfold shared_filter_keys.
  rewrite list_elem_of_filter, !elem_of_keys, !elem_of_dom. tauto.
Qed.

Lemma comprehension_Returned {A B} (f : A → outcome B) (l : list A) ys :
  comprehension f l = Returned ys → Forall2 (fun x y => f x = Returned y) l ys.
Proof.
  revert ys. induction l as [|x l IH]; simpl; intros ys.
  - intros [= <-]. constructor.
  - destruct (f x) as [y|e] eqn:Hx; [|done].
    destruct (comprehension f l) as [ys'|e]; [|done].
    intros [= <-]. constructor; [done|]. by apply IH.
Qed.

Lemma comprehension_Raised {A B} (f : A → outcome B) (l : list A) e :
  comprehension f l = Raised e → ∃ x, x ∈ l ∧ f x = Raised e.
Proof.
  induction l as [|x l IH]; simpl; [done|].
  destruct (f x) as [y|e'] eqn:Hx.
  - destruct (comprehension f l) as [ys'|e']; [done|].
    intros [= ->]. destruct IH as (x' & Hin & Hx'); [done|].
    exists x'. split; [by apply list_elem_of_further|done].
  - intros [= ->]. exists x. split; [apply list_elem_of_here|done].
Qed.

Lemma comprehension_total {A B} (f : A → outcome B) (l : list A) :
  (∀ x, x ∈ l → ∃ y, f x = Returned y) → ∃ ys, comprehension f l = Returned ys.
Proof.
  intros Hall. destruct (comprehension f l) as [ys|e] eqn:Hc; [by exists ys|].
  apply comprehension_Raised in Hc as (x & Hin & Hx).
  destruct (Hall x Hin) as [y Hy]. congruence.
Qed.

Lemma indexed_length (f : K → option V) shared (l : list V) :
  indexed f shared l → length l = length shared.
Proof. intros Hl. symmetry. by eapply Forall2_length. Qed.

Lemma score_at_Returned d p v : score_at d p = Returned v → fst <$> d !! p = Some v.
Proof. unfold score_at, getitem. destruct (d !! p); simpl; congruence. Qed.

Lemma truth_at_Returned d p v : truth_at d p = Returned v → snd <$> d !! p = Some v.
Proof. unfold truth_at, getitem. destruct (d !! p); simpl; congruence. Qed.

Lemma getitem_Returned cnn p v : getitem cnn p = Returned v → cnn !! p = Some v.
Proof. unfold getitem. destruct (cnn !! p); congruence. Qed.

Lemma score_at_Raised d p e : score_at d p = Raised e → d !! p = None.
Proof. unfold score_at, getitem. by destruct (d !! p). Qed.

Lemma truth_at_Raised d p e : truth_at d p = Raised e → d !! p = None.
Proof. unfold truth_at, getitem. by destruct (d !! p). Qed.

Lemma getitem_Raised cnn p e : getitem cnn p = Raised e → e = KeyError ∧ cnn !! p = None.
Proof. unfold getitem. destruct (cnn !! p); [done|]. by intros [= <-]. Qed.

Lemma indexed_of_comprehension (g : K → outcome V) (f : K → option V) shared l :
  (∀ p v, g p = Returned v → f p = Some v) →
  comprehension g shared = Returned l → indexed f shared l.
Proof.
  intros Hgf Hc. apply comprehension_Returned in Hc.
  eapply Forall2_impl; [exact Hc|]. apply Hgf.
Qed.

Lemma filter_scores_spec cnn gatk_scores gatk heng_li :
  let shared := shared_filter_keys heng_li gatk gatk_scores in
  match filter_scores cnn gatk_scores gatk heng_li shared with
  | Returned (truth, scores) => built_over shared cnn gatk_scores gatk heng_li truth scores
  | Raised e => e = KeyError ∧ ∃ k, k ∈ shared ∧ cnn !! k = None
  end.
Proof.
  intros shared.
  assert (∀ k, k ∈ shared →
            is_Some (heng_li !! k) ∧ is_Some (gatk !! k) ∧ is_Some (gatk_scores !! k))
    as Hshared.
  { intros k Hk. apply shared_filter_keys_spec in Hk.
    by rewrite !elem_of_dom in Hk. }
  unfold filter_scores.
  destruct (comprehension (truth_at heng_li) shared) as [truth|e] eqn:Htruth; last first.
  { apply comprehension_Raised in Htruth as (k & Hk & He).
    apply truth_at_Raised in He. destruct (Hshared k Hk) as ([? ?] & _). congruence. }
  destruct (comprehension (score_at gatk_scores) shared) as [signed|e] eqn:Hsigned; last first.
  { apply comprehension_Raised in Hsigned as (k & Hk & He).
    apply score_at_Raised in He. destruct (Hshared k Hk) as (_ & _ & [? ?]). congruence. }
  destruct (comprehension (score_at gatk) shared) as [hard|e] eqn:Hhard; last first.
  { apply comprehension_Raised in Hhard as (k & Hk & He).
    apply score_at_Raised in He. destruct (Hshared k Hk) as (_ & [? ?] & _). congruence. }
  destruct (comprehension (score_at heng_li) shared) as [heng|e] eqn:Hheng; last first.
  { apply comprehension_Raised in Hheng as (k & Hk & He).
    apply score_at_Raised in He. destruct (Hshared k Hk) as ([? ?] & _). congruence. }
  destruct (comprehension (getitem cnn) shared) as [net|e] eqn:Hnet; last first.
  { apply comprehension_Raised in Hnet as (k & Hk & He).
    apply getitem_Raised in He as [-> He]. split; [done|]. by exists k. }
  apply (indexed_of_comprehension _ _ _ _ (truth_at_Returned heng_li)) in Htruth.
  apply (indexed_of_comprehension _ _ _ _ (score_at_Returned gatk_scores)) in Hsigned.
  apply (indexed_of_comprehension _ _ _ _ (score_at_Returned gatk)) in Hhard.
  apply (indexed_of_comprehension _ _ _ _ (score_at_Returned heng_li)) in Hheng.
  apply (indexed_of_comprehension _ _ _ _ (getitem_Returned cnn)) in Hnet.
  split; [done|]. split.
  - by exists signed, hard, heng, net.
  - intros name l. rewrite (indexed_length _ _ _ Htruth).
    rewrite !lookup_insert, lookup_empty.
    repeat case_decide; intros [= <-]; by eapply indexed_length.
Qed.

(** C5.  In [test_tensor_and_annotations_vs_filters] the shared SNP keys are
    exactly the positions present in the three baseline dictionaries (Heng
    Li, GATK hard filters, GATK signed distance).  Whenever the lists are
    built, the SNP truth list and the four SNP score lists are each indexed
    over these keys, in one order, so the five lists have equal length; the
    same holds for INDELs.  The lists are built unless the network's
    dictionary lacks a shared key (then the lookup raises [KeyError]). *)
Theorem filter_score_lists_are_aligned
    (cnn_snp_dict cnn_indel_dict : gmap K V)
    (snp_gatk_scores indel_gatk_scores snp_gatk indel_gatk snp_heng_li indel_heng_li
       : gmap K (V * V)) :
  let shared_snp_keys := shared_filter_keys snp_heng_li snp_gatk snp_gatk_scores in
  let shared_indel_keys := shared_filter_keys indel_heng_li indel_gatk indel_gatk_scores in
  let result :=
    test_tensor_and_annotations_vs_filters cnn_snp_dict cnn_indel_dict
      snp_gatk_scores indel_gatk_scores snp_gatk indel_gatk snp_heng_li indel_heng_li in
  (∀ k, k ∈ shared_snp_keys ↔
        k ∈ dom snp_heng_li ∧ k ∈ dom snp_gatk ∧ k ∈ dom snp_gatk_scores)
  ∧ (∀ k, k ∈ shared_indel_keys ↔
          k ∈ dom indel_heng_li ∧ k ∈ dom indel_gatk ∧ k ∈ dom indel_gatk_scores)
  ∧ match result with
    | Returned ((snp_truth, snp_scores), (indel_truth, indel_scores)) =>
        built_over shared_snp_keys cnn_snp_dict snp_gatk_scores snp_gatk snp_heng_li
          snp_truth snp_scores
        ∧ built_over shared_indel_keys cnn_indel_dict indel_gatk_scores indel_gatk
            indel_heng_li indel_truth indel_scores
    | Raised e =>
        e = KeyError
        ∧ ((∃ k, k ∈ shared_snp_keys ∧ cnn_snp_dict !! k = None)
           ∨ (∃ k, k ∈ shared_indel_keys ∧ cnn_indel_dict !! k = None))
    end
  ∧ ((∀ k, k ∈ shared_snp_keys → is_Some (cnn_snp_dict !! k)) →
     (∀ k, k ∈ shared_indel_keys → is_Some (cnn_indel_dict !! k)) →
     ∃ r, result = Returned r).
Proof.
  intros shared_snp_keys shared_indel_keys result.
  split; [apply shared_filter_keys_spec|]. split; [apply shared_filter_keys_spec|].
  pose proof (filter_scores_spec cnn_snp_dict snp_gatk_scores snp_gatk snp_heng_li)
    as Hsnp.
  pose proof (filter_scores_spec cnn_indel_dict indel_gatk_scores indel_gatk indel_heng_li)
    as Hindel.
  cbv zeta in Hsnp, Hindel. fold shared_snp_keys in Hsnp. fold shared_indel_keys in Hindel.
  subst result. unfold test_tensor_and_annotations_vs_filters.
  fold shared_snp_keys shared_indel_keys.
  destruct (filter_scores cnn_snp_dict _ _ _ shared_snp_keys) as [[snp_truth snp_scores]|e].
  - destruct (filter_scores cnn_indel_dict _ _ _ shared_indel_keys)
      as [[indel_truth indel_scores]|e].
    + split; [done|]. intros _ _. by eexists.
    + destruct Hindel as [-> (k & Hk & Hnone)]. split; [split; [done|right; by exists k]|].
      intros _ Hall. destruct (Hall k Hk) as [? ?]. congruence.
  - destruct Hsnp as [-> (k & Hk & Hnone)]. split; [split; [done|left; by exists k]|].
    intros Hall _. destruct (Hall k Hk) as [? ?]. congruence.
Qed.

End ScoreTheorems.

Section SharedKeys.
Context `{Countable K} {V : Type}.
Implicit Types (vqsr rf single_sample deep_variant : gmap K (V * V)).

Lemma gnomad_key_sets_intersection (args : Args) vqsr rf single_sample deep_variant :
  ∃ shared,
    set_intersection (gnomad_key_sets args vqsr rf single_sample deep_variant)
    = Returned shared
    ∧ ∀ k, k ∈ shared ↔
        k ∈ dom vqsr ∧ k ∈ dom rf
        ∧ (single_sample_vqsr args = true → k ∈ dom single_sample)
        ∧ (given (deep_variant_vcf args) = true → k ∈ dom deep_variant).
Proof.
  unfold gnomad_key_sets.
  destruct (single_sample_vqsr args), (given (deep_variant_vcf args));
    simpl; eexists; (split; [reflexivity|]); intros k;
    rewrite ?elem_of_intersection; intuition congruence.
Qed.

(** C6.  In [test_tensor_vs_gnomad] the positions evaluated, for SNPs and
    for INDELs, are the intersection of the key sets of the baseline
    dictionaries in use: the two gnomAD baselines, the single-sample VQSR
    one when [args.single_sample_vqsr] is set and the Deep Variant one when
    [args.deep_variant_vcf] is given.  On the same dictionaries, a run with
    these options evaluates a subset of the positions a run without them
    evaluates. *)
Theorem gnomad_shared_keys_shrink (args args' : Args)
    (snp_vqsr indel_vqsr snp_rf indel_rf snp_single_sample indel_single_sample
       snp_deep_variant indel_deep_variant : gmap K (V * V)) :
  single_sample_vqsr args' = false →
  given (deep_variant_vcf args') = false →
  ∃ snp indel snp' indel',
    test_tensor_vs_gnomad args snp_vqsr indel_vqsr snp_rf indel_rf
      snp_single_sample indel_single_sample snp_deep_variant indel_deep_variant
    = Returned (snp, indel)
    ∧ test_tensor_vs_gnomad args' snp_vqsr indel_vqsr snp_rf indel_rf
        snp_single_sample indel_single_sample snp_deep_variant indel_deep_variant
      = Returned (snp', indel')
    ∧ snp ⊆ snp' ∧ indel ⊆ indel'
    ∧ snp' = dom snp_vqsr ∩ dom snp_rf
    ∧ indel' = dom indel_vqsr ∩ dom indel_rf
    ∧ (∀ k, k ∈ snp ↔
         k ∈ dom snp_vqsr ∧ k ∈ dom snp_rf
         ∧ (single_sample_vqsr args = true → k ∈ dom snp_single_sample)
         ∧ (given (deep_variant_vcf args) = true → k ∈ dom snp_deep_variant))
    ∧ (∀ k, k ∈ indel ↔
         k ∈ dom indel_vqsr ∧ k ∈ dom indel_rf
         ∧ (single_sample_vqsr args = true → k ∈ dom indel_single_sample)
         ∧ (given (deep_variant_vcf args) = true → k ∈ dom indel_deep_variant)).
Proof.
  intros Hsingle Hdeep. unfold test_tensor_vs_gnomad.
  destruct (gnomad_key_sets_intersection args snp_vqsr snp_rf snp_single_sample
              snp_deep_variant) as (snp & -> & Hsnp).
  destruct (gnomad_key_sets_intersection args indel_vqsr indel_rf indel_single_sample
              indel_deep_variant) as (indel & -> & Hindel).
  exists snp, indel, (dom snp_vqsr ∩ dom snp_rf), (dom indel_vqsr ∩ dom indel_rf).
  split; [done|]. split.
  - unfold gnomad_key_sets. by rewrite Hsingle, Hdeep.
  - split; [|split; [|done]].
    + intros k Hk. apply Hsnp in Hk. apply elem_of_intersection. tauto.
    + intros k Hk. apply Hindel in Hk. apply elem_of_intersection. tauto.
Qed.

End SharedKeys.

(** ** The MNIST tutorial *)

Section TutorialTheorems.
Import KerasExample.
Context {matrix : Type} `{Environment matrix}.

Lemma setitem_encodable row k v :
  (- Z.of_nat (length row) <= k < Z.of_nat (length row))%Z →
  ∃ row', setitem row k v = Returned row' ∧ length row' = length row.
Proof.
  intros Hk. unfold setitem.
  destruct (0 <=? k)%Z eqn:H0; simpl.
  - destruct (k <? Z.of_nat (length row))%Z eqn:H1; [|lia].
    eexists. split; [done|]. apply length_insert.
  - destruct (- Z.of_nat (length row) <=? k)%Z eqn:H2; [|lia].
    destruct (k <? 0)%Z eqn:H3; [|lia]. simpl.
    eexists. split; [done|]. apply length_insert.
Qed.

Lemma make_one_hot_loop_encodable n y indices (ohy : one_hot) :
  encodable n y →
  Forall (fun i => (i < length y)%nat) indices →
  length ohy = length y →
  Forall (fun row => length row = n) ohy →
  ∃ r, make_one_hot_loop y indices ohy = Returned r.
Proof.
  intros Hy. revert ohy.
  induction indices as [|i indices IH]; intros ohy Hin Hlen Hrows; simpl;
    unfold one_hot in *.
  - by eexists.
  - apply Forall_cons in Hin as [Hi Hin].
    destruct (lookup_lt_is_Some_2 y i Hi) as [yi Hyi].
    destruct (lookup_lt_is_Some_2 ohy i) as [row Hrow]; [lia|].
    rewrite Hyi, Hrow.
    assert (length row = n) as Hn
      by exact (proj1 (Forall_lookup _ _) Hrows i row Hrow).
    destruct (setitem_encodable row yi 1) as (row' & -> & Hlen').
    { rewrite Hn. exact (proj1 (Forall_lookup _ _) Hy i yi Hyi). }
    apply IH; [done|by rewrite length_insert|].
    apply Forall_insert; [done|congruence].
Qed.

Lemma make_one_hot_encodable n y :
  encodable n y → ∃ ohy, make_one_hot y n = Returned ohy.
Proof.
  intros Hy. unfold make_one_hot.
  apply (make_one_hot_loop_encodable n); [done| |by rewrite length_replicate|].
  - apply Forall_forall. intros i Hi%elem_of_seq. lia.
  - apply Forall_replicate. apply length_replicate.
Qed.

Lemma load_data_returns dataset tr :
  ∃ evs, load_data dataset tr
         = (Returned (unpickle (resolve_dataset dataset)), tr ++ evs)
         ∧ fits evs = [] ∧ evaluations evs = [].
Proof.
  unfold load_data.
  destruct (unpickle (resolve_dataset dataset)) as [[train_set valid_set] test_set].
  destruct (negb (os_path_isfile (resolve_dataset dataset))
            && String.eqb (os_path_split dataset).2 "mnist.pkl.gz");
    unfold kbind, log, kret; simpl; rewrite <- ?app_assoc; simpl;
    eexists; split; reflexivity || split; reflexivity.
Qed.

Lemma swaps_of_runs caller :
  (∀ tr train_set valid_set test_set,
     unpickle (resolve_dataset "mnist.pkl.gz") = (train_set, valid_set, test_set) →
     runs_swapped caller tr train_set valid_set test_set) →
  swaps_valid_and_test caller.
Proof.
  intros Hruns tr train_set valid_set test_set Hpickle.
  specialize (Hruns tr train_set valid_set test_set Hpickle). split; [done|].
  intros [train_y Htrain]%make_one_hot_encodable
         [second_y Hsecond]%make_one_hot_encodable
         [third_y Hthird]%make_one_hot_encodable.
  destruct (Hruns _ _ _ Htrain Hsecond Hthird) as (tr' & Hrun & _).
  by exists tr'.
Qed.

Ltac caller_runs :=
  intros tr train_set valid_set test_set Hpickle
         train_y second_y third_y Htrain Hsecond Hthird;
  unfold kbind at 1;
  destruct (load_data_returns "mnist.pkl.gz" tr) as (evs & -> & Hfits & Hevals);
  rewrite Hpickle; cbv beta iota;
  unfold kbind, lift, log; cbn [fst snd];
  rewrite Hthird, Hsecond, Htrain; cbv beta iota;
  eexists; split; [reflexivity|];
  unfold fits, evaluations in *;
  rewrite !omap_app, Hfits, Hevals, last_snoc; simpl;
  rewrite ?app_nil_r; done.

(** C10.  [load_data] returns the three sets of the pickle in the order
    (train, valid, test).  [logistic_regression] and [multilayer_perceptron]
    unpack the result as [train, test, valid]: what each evaluates and
    prints as test loss and accuracy is the second component (the
    validation set), and what each passes as validation data is the third
    (the test set). *)
Theorem callers_swap_valid_and_test :
  (∀ dataset (tr : list (event matrix)) train_set valid_set test_set,
     unpickle (resolve_dataset dataset) = (train_set, valid_set, test_set) →
     (load_data dataset tr).1 = Returned (train_set, valid_set, test_set))
  ∧ swaps_valid_and_test logistic_regression
  ∧ swaps_valid_and_test multilayer_perceptron.
Proof.
  split; [|split].
  - intros dataset tr train_set valid_set test_set Hpickle.
    destruct (load_data_returns dataset tr) as (evs & -> & _). by rewrite Hpickle.
  - apply swaps_of_runs. unfold logistic_regression. caller_runs.
  - apply swaps_of_runs. unfold multilayer_perceptron. caller_runs.
Qed.

End TutorialTheorems.

(** ** The statements on sample inputs *)

Example range_sample : range 3 = [0; 1; 2]%Z ∧ range (-2) = [].
Proof. split; reflexivity. Qed.

Example str_sample : str 12 = "12" ∧ str 0 = "0".
Proof. split; reflexivity. Qed.

Example dispatch_prefix_literal :
  dispatch (sample_args "train_reference_annotation" 3)
  = CallRecipe "make_reference_annotation_net".
Proof. reflexivity. Qed.

Example dispatch_case_sensitive :
  dispatch (sample_args "Train_reference" 3) = UnknownMode.
Proof. reflexivity. Qed.

Example dispatch_keyword_arguments :
  dispatch (sample_args "write_tensors_gnomad_1d" 3)
  = CallLib "td" "tensors_from_tensor_map_gnomad_annos"
      [("include_reads", false); ("include_reference", true)].
Proof. reflexivity. Qed.

Example sorted_sample :
  sorted ["b"; "a"; "B"; "ab"; ""] = [""; "B"; "a"; "ab"; "b"].
Proof. vm_compute. reflexivity. Qed.

Example shared_filter_keys_sample :
  shared_filter_keys sample_heng_li sample_gatk sample_gatk_scores = [2; 1]%nat.
Proof. vm_compute. reflexivity. Qed.

Example make_one_hot_sample :
  KerasExample.make_one_hot [2; 0; -1]%Z 3
  = Returned [[0; 0; 1]; [1; 0; 0]; [0; 0; 1]]%Z
  ∧ KerasExample.make_one_hot [3]%Z 3 = Raised IndexError.
Proof. split; reflexivity. Qed.

Example class_dirs_sample :
  @class_dirs (counting_library (sample_args "test_ref" 3)) 0%N "/data/test/"
  = ["INDEL"; "NOT_SNP"; "SNP"].
Proof. vm_compute. reflexivity. Qed.

Lemma filter_score_lists_are_aligned_witness :
  ∃ r, test_tensor_and_annotations_vs_filters sample_cnn sample_cnn
         sample_gatk_scores sample_gatk_scores sample_gatk sample_gatk
         sample_heng_li sample_heng_li = Returned r.
Proof.
  apply (proj2 (proj2 (proj2
           (filter_score_lists_are_aligned sample_cnn sample_cnn
              sample_gatk_scores sample_gatk_scores sample_gatk sample_gatk
              sample_heng_li sample_heng_li)))).
  - apply Forall_forall. apply (bool_decide_unpack _). vm_compute. reflexivity.
  - apply Forall_forall. apply (bool_decide_unpack _). vm_compute. reflexivity.
Defined.

Lemma gnomad_shared_keys_shrink_witness :
  ∃ snp indel snp' indel',
    test_tensor_vs_gnomad (other_args "test_tensor_gnomad")
      sample_heng_li sample_gatk sample_gatk sample_heng_li
      sample_gatk_scores sample_gatk_scores sample_gatk sample_gatk
    = Returned (snp, indel)
    ∧ test_tensor_vs_gnomad (sample_args "test_tensor_gnomad" 3)
        sample_heng_li sample_gatk sample_gatk sample_heng_li
        sample_gatk_scores sample_gatk_scores sample_gatk sample_gatk
      = Returned (snp', indel')
    ∧ snp ⊆ snp' ∧ indel ⊆ indel'.
Proof.
  destruct (gnomad_shared_keys_shrink
              (other_args "test_tensor_gnomad") (sample_args "test_tensor_gnomad" 3)
              sample_heng_li sample_gatk sample_gatk sample_heng_li
              sample_gatk_scores sample_gatk_scores sample_gatk sample_gatk)
    as (snp & indel & snp' & indel' & Hrun & Hrun' & Hsnp & Hindel & _).
  - reflexivity.
  - reflexivity.
  - exists snp, indel, snp', indel'. repeat split; assumption.
Defined.

Lemma callers_swap_valid_and_test_witness :
  ∃ tr', @KerasExample.logistic_regression nat sample_environment []
         = (Returned tt, tr').
Proof.
  pose proof (@callers_swap_valid_and_test nat sample_environment)
    as (_ & Hlogistic & _).
  destruct (Hlogistic [] (1%nat, [3; 0; 9]%Z) (2%nat, [7]%Z) (3%nat, [1; -1]%Z) eq_refl)
    as [_ Hreturns].
  apply Hreturns; repeat constructor; simpl; lia.
Defined.

(** * Further properties of the two files *)

(** ** The one-hot encoding and the download of the tutorial *)

Section OneHotTheorems.
Import KerasExample.
Context {matrix : Type} `{Environment matrix}.

Lemma setitem_Returned row k v row' :
  setitem row k v = Returned row' →
  (- Z.of_nat (length row) <= k < Z.of_nat (length row))%Z
  ∧ row' = <[column (length row) k := v]> row.
Proof.
  unfold setitem, column. intros Hset.
  destruct (0 <=? k)%Z eqn:H0; simpl in Hset.
  - destruct (k <? Z.of_nat (length row))%Z eqn:H1; simpl in Hset.
    + injection Hset as <-. split; [lia|]. by rewrite Z.mod_small by lia.
    + destruct (- Z.of_nat (length row) <=? k)%Z; simpl in Hset; [|done].
      destruct (k <? 0)%Z eqn:H3; [lia|done].
  - destruct (- Z.of_nat (length row) <=? k)%Z eqn:H2; simpl in Hset; [|done].
    destruct (k <? 0)%Z eqn:H3; simpl in Hset; [|done].
    injection Hset as <-. split; [lia|].
    f_equal. f_equal.
    rewrite <- (Z.mod_add k 1) by lia. rewrite Z.mul_1_l. by rewrite Z.mod_small by lia.
Qed.

Lemma setitem_Raised row k v e :
  setitem row k v = Raised e →
  e = IndexError ∧ ¬ (- Z.of_nat (length row) <= k < Z.of_nat (length row))%Z.
Proof.
  intros Hset. destruct (decide (- Z.of_nat (length row) <= k < Z.of_nat (length row))%Z) as [Hk|Hk].
  - destruct (setitem_encodable row k v Hk) as (row' & Hrow' & _). congruence.
  - split; [|done]. unfold setitem in Hset.
    destruct ((0 <=? k)%Z && (k <? Z.of_nat (length row))%Z); [done|].
    destruct ((- Z.of_nat (length row) <=? k)%Z && (k <? 0)%Z); [done|]. congruence.
Qed.

(** The loop from index [i] on: the rows before [i] are encoded, the others
    are still zero. *)
Lemma make_one_hot_loop_rows n y (ohy : one_hot) i m r :
  length ohy = length y →
  (i + m = length y)%nat →
  (∀ j row, ohy !! j = Some row → length row = n) →
  make_one_hot_loop y (seq i m) ohy = Returned r →
  length r = length y
  ∧ (∀ j k, (i ≤ j)%nat → y !! j = Some k →
       (- Z.of_nat n <= k < Z.of_nat n)%Z
       ∧ ∃ row, ohy !! j = Some row ∧ r !! j = Some (<[column n k := 1%Z]> row))
  ∧ (∀ j, (j < i)%nat → r !! j = ohy !! j).
Proof.
  revert i ohy. induction m as [|m IH]; intros i ohy Hlen Him Hrows; simpl.
  - intros [= <-]. split; [done|]. split; [|done].
    intros j k Hj Hk. apply lookup_lt_Some in Hk. lia.
  - destruct (y !! i) as [yi|] eqn:Hyi; [|done].
    unfold one_hot in *.
    destruct (ohy !! i) as [row|] eqn:Hrow; [|done].
    destruct (setitem row yi 1) as [row'|e] eqn:Hset; [|done].
    apply setitem_Returned in Hset as [Hk ->].
    pose proof (Hrows i row Hrow) as Hn. rewrite Hn in *.
    intros Hloop. apply IH in Hloop as (Hlenr & Hdone & Hkeep).
    + split; [done|]. split.
      * intros j k Hj Hjk. destruct (decide (j = i)) as [->|Hne].
        -- assert (k = yi) as -> by congruence. split; [done|].
           exists row. split; [done|]. rewrite Hkeep by lia.
           apply list_lookup_insert_eq. by apply lookup_lt_Some in Hrow.
        -- destruct (Hdone j k) as (Hk' & row' & Hrow' & Hr); [lia|done|].
           split; [done|]. exists row'. split; [|done].
           by rewrite list_lookup_insert_ne in Hrow' by done.
      * intros j Hj. rewrite Hkeep by lia.
        apply list_lookup_insert_ne. lia.
    + by rewrite length_insert.
    + lia.
    + intros j row' Hj. destruct (decide (j = i)) as [->|Hne].
      * rewrite list_lookup_insert_eq in Hj by (by apply lookup_lt_Some in Hrow).
        injection Hj as <-. by rewrite length_insert.
      * rewrite list_lookup_insert_ne in Hj by done. by apply (Hrows j).
Qed.

(** X1.  When [make_one_hot] returns, the array has one row for each label,
    and row [i] is the one-hot row of [y[i]]: all zeros but a single 1, in
    column [y[i]] for a label that is not negative and in column
    [y[i] + num_labels] for a negative one (numpy counts it from the end,
    so that label -1 sets the last column). *)
Theorem make_one_hot_rows (y : list Z) (n : nat) (ohy : one_hot) :
  make_one_hot y n = Returned ohy →
  length ohy = length y
  ∧ ∀ i k, y !! i = Some k →
      ohy !! i = Some (one_hot_row n k)
      ∧ (0 <= k → column n k = Z.to_nat k)%Z
      ∧ (k < 0 → column n k = Z.to_nat (k + Z.of_nat n))%Z
      ∧ ∀ j, (j < n)%nat →
          one_hot_row n k !! j = Some (if decide (j = column n k) then 1 else 0)%Z.
Proof.
  unfold make_one_hot. intros Hloop.
  apply (make_one_hot_loop_rows n) in Hloop as (Hlen & Hrows & _).
  - split; [done|]. intros i k Hik.
    destruct (Hrows i k) as (Hk & row & Hrow & Hr); [lia|done|].
    apply lookup_replicate in Hrow as [-> _].
    split; [done|].
    split; [intros ?; unfold column; by rewrite Z.mod_small by lia|].
    split.
    { intros ?. unfold column. f_equal. rewrite <- (Z.mod_add k 1) by lia.
      rewrite Z.mul_1_l. by rewrite Z.mod_small by lia. }
    intros j Hj. unfold one_hot_row. destruct (decide (j = column n k)) as [->|Hne].
    + apply list_lookup_insert_eq. by rewrite length_replicate.
    + rewrite list_lookup_insert_ne by done. by apply lookup_replicate.
  - by rewrite length_replicate.
  - lia.
  - intros j row [-> _]%lookup_replicate. apply length_replicate.
Qed.

Lemma make_one_hot_loop_Raised (y : list Z) indices (ohy : one_hot) e :
  make_one_hot_loop y indices ohy = Raised e → e = IndexError.
Proof.
  revert ohy. induction indices as [|i indices IH]; intros ohy; simpl; [done|].
  destruct (y !! i) as [yi|]; [|congruence].
  unfold one_hot in *.
  destruct (ohy !! i) as [row|]; [|congruence].
  destruct (setitem row yi 1) as [row'|e'] eqn:Hset; [apply IH|].
  apply setitem_Raised in Hset as [-> _]. congruence.
Qed.

Lemma make_one_hot_Returned_encodable (y : list Z) n (ohy : one_hot) :
  make_one_hot y n = Returned ohy → encodable n y.
Proof.
  unfold make_one_hot. intros Hloop.
  apply (make_one_hot_loop_rows n) in Hloop as (_ & Hrows & _).
  - apply Forall_lookup. intros i k Hik. by destruct (Hrows i k) as [Hk _]; [lia|done|].
  - by rewrite length_replicate.
  - lia.
  - intros j row [-> _]%lookup_replicate. apply length_replicate.
Qed.

(** X2.  [make_one_hot] returns exactly when every label lies in
    [-num_labels, num_labels); otherwise it raises, the exception is
    IndexError and some label is out of that range.  With no column at all
    it raises for every list of labels that is not empty. *)
Theorem make_one_hot_raises_out_of_range (y : list Z) (n : nat) :
  (encodable n y ↔ ∃ ohy, make_one_hot y n = Returned ohy)
  ∧ (∀ e, make_one_hot y n = Raised e →
       e = IndexError
       ∧ ∃ i k, y !! i = Some k ∧ (k < - Z.of_nat n ∨ Z.of_nat n <= k)%Z)
  ∧ (n = 0%nat → y ≠ [] → make_one_hot y n = Raised IndexError).
Proof.
  assert (∀ e, make_one_hot y n = Raised e →
            e = IndexError
            ∧ ∃ i k, y !! i = Some k ∧ (k < - Z.of_nat n ∨ Z.of_nat n <= k)%Z)
    as Hraised.
  { intros e He. split; [by apply make_one_hot_loop_Raised in He|].
    destruct (decide (encodable n y)) as [Hy|Hy].
    - apply make_one_hot_encodable in Hy as [ohy Hohy]. congruence.
    - apply not_Forall_Exists in Hy; [|intros k; apply _].
      apply Exists_exists in Hy as (k & Hin & Hk).
      apply list_elem_of_lookup in Hin as [i Hi]. exists i, k. split; [done|]. unfold compose in Hk. lia. }
  split; [|split; [done|]].
  - split; [apply make_one_hot_encodable|].
    intros [ohy Hohy]. by apply make_one_hot_Returned_encodable in Hohy.
  - intros -> Hy. destruct (make_one_hot y 0) as [ohy|e] eqn:Hresult.
    + apply make_one_hot_Returned_encodable in Hresult.
      destruct y as [|k y]; [done|]. apply Forall_cons in Hresult as [Hk _]. simpl in Hk. lia.
    + by destruct (Hraised e) as [-> _].
Qed.

End OneHotTheorems.

(** ** Score lists over the keys of a baseline *)

Lemma outcome_bind_Returned {A B} (o : outcome A) (k : A → outcome B) r :
  o ≫= k = Returned r → ∃ a, o = Returned a ∧ k a = Returned r.
Proof.
  unfold mbind, outcome_bind. destruct o as [a|e]; [|discriminate].
  intros Hk. by exists a.
Qed.

Lemma outcome_bind_Raised {A B} (o : outcome A) (k : A → outcome B) e :
  o ≫= k = Raised e → o = Raised e ∨ ∃ a, o = Returned a ∧ k a = Raised e.
Proof.
  unfold mbind, outcome_bind. destruct o as [a|e']; simpl; [|intros [= ->]; by left].
  intros Hk. right. by exists a.
Qed.

(** Take apart a sequence of steps that returned. *)
Ltac invert_binds H :=
  lazymatch type of H with
  | _ ≫= _ = Returned _ =>
      let a := fresh "r" in
      let Ha := fresh "Hr" in
      apply outcome_bind_Returned in H as (a & Ha & H);
      invert_binds Ha; cbv beta iota zeta in H; invert_binds H
  | (let '(_, _) := ?p in _) = Returned _ =>
      destruct p; cbv beta iota zeta in H; invert_binds H
  | (if _ then _ else _) = Returned _ => idtac
  | Returned _ = Returned _ => injection H as H; subst
  | _ => idtac
  end.

Section ScoreListTheorems.
Context `{Countable K} {V : Type}.
Implicit Types (d vqsr rf : gmap K (V * V)) (cnn : gmap K V).

Lemma length_keys {A} (m : gmap K A) : length (keys m) = size m.
Proof. unfold keys. by rewrite length_fmap, length_map_to_list. Qed.

(** A comprehension that reads a baseline at its own keys cannot miss. *)
Lemma comprehension_present {B} (g : K → outcome B) (l : list K) d :
  (∀ p e, g p = Raised e → d !! p = None) →
  (∀ p, p ∈ l → is_Some (d !! p)) →
  ∃ ys, comprehension g l = Returned ys.
Proof.
  intros Hg Hl. apply comprehension_total. intros p Hp.
  destruct (g p) as [y|e] eqn:Hy; [by exists y|].
  apply Hg in Hy. destruct (Hl p Hp) as [? ?]. congruence.
Qed.

Lemma vcf_scores_spec name cnn vqsr :
  match vcf_scores name cnn vqsr with
  | Returned (truth, scores) => built_over_baseline name cnn vqsr truth scores
  | Raised e => e = KeyError ∧ ∃ p, p ∈ dom vqsr ∧ cnn !! p = None
  end.
Proof.
  assert (∀ p, p ∈ keys vqsr → is_Some (vqsr !! p)) as Hkeys
    by (intros p; by rewrite elem_of_keys).
  unfold vcf_scores.
  destruct (comprehension_present (truth_at vqsr) (keys vqsr) vqsr
              (truth_at_Raised vqsr) Hkeys) as [truth Htruth].
  destruct (comprehension_present (score_at vqsr) (keys vqsr) vqsr
              (score_at_Raised vqsr) Hkeys) as [baseline Hbaseline].
  rewrite Htruth, Hbaseline. simpl.
  destruct (comprehension (getitem cnn) (keys vqsr)) as [net|e] eqn:Hnet; simpl.
  - apply (indexed_of_comprehension _ _ _ _ (truth_at_Returned vqsr)) in Htruth.
    apply (indexed_of_comprehension _ _ _ _ (score_at_Returned vqsr)) in Hbaseline.
    apply (indexed_of_comprehension _ _ _ _ (getitem_Returned cnn)) in Hnet.
    split; [done|]. split; [by exists baseline, net|].
    rewrite <- length_keys. split; [by eapply indexed_length|].
    intros key l. rewrite !lookup_insert, lookup_empty.
    repeat case_decide; intros [= <-]; by eapply indexed_length.
  - apply comprehension_Raised in Hnet as (p & Hp & He).
    apply getitem_Raised in He as [-> He]. split; [done|].
    exists p. split; [|done]. apply elem_of_dom. by apply Hkeys.
Qed.

Lemma vcf_scores_total name cnn vqsr :
  dom vqsr ⊆ dom cnn → ∃ r, vcf_scores name cnn vqsr = Returned r.
Proof.
  intros Hsub. pose proof (vcf_scores_spec name cnn vqsr) as Hspec.
  destruct (vcf_scores name cnn vqsr) as [r|e]; [by exists r|].
  destruct Hspec as (_ & p & Hp & Hnone). apply Hsub in Hp.
  apply elem_of_dom in Hp as [? ?]. congruence.
Qed.

Lemma two_classes_spec name (cnn_snp_dict cnn_indel_dict : gmap K V)
    (snp_vqsr indel_vqsr : gmap K (V * V)) :
  let result :=
    snp ← vcf_scores name cnn_snp_dict snp_vqsr;
    indel ← vcf_scores name cnn_indel_dict indel_vqsr;
    mret (snp, indel) in
  match result with
  | Returned ((snp_truth, snp_scores), (indel_truth, indel_scores)) =>
      built_over_baseline name cnn_snp_dict snp_vqsr snp_truth snp_scores
      ∧ built_over_baseline name cnn_indel_dict indel_vqsr indel_truth indel_scores
  | Raised e =>
      e = KeyError
      ∧ ((∃ p, p ∈ dom snp_vqsr ∧ cnn_snp_dict !! p = None)
         ∨ (∃ p, p ∈ dom indel_vqsr ∧ cnn_indel_dict !! p = None))
  end
  ∧ (dom snp_vqsr ⊆ dom cnn_snp_dict → dom indel_vqsr ⊆ dom cnn_indel_dict →
     ∃ r, result = Returned r).
Proof.
  intros result. subst result.
  pose proof (vcf_scores_spec name cnn_snp_dict snp_vqsr) as Hsnp.
  pose proof (vcf_scores_spec name cnn_indel_dict indel_vqsr) as Hindel.
  pose proof (vcf_scores_total name cnn_snp_dict snp_vqsr) as Tsnp.
  pose proof (vcf_scores_total name cnn_indel_dict indel_vqsr) as Tindel.
  destruct (vcf_scores name cnn_snp_dict snp_vqsr) as [[snp_truth snp_scores]|e]; simpl.
  - destruct (vcf_scores name cnn_indel_dict indel_vqsr)
      as [[indel_truth indel_scores]|e]; simpl.
    + split; [done|]. intros _ _. by eexists.
    + destruct Hindel as [-> Hp]. split; [by split; [|right]|].
      intros _ Hsub. by destruct (Tindel Hsub).
  - destruct Hsnp as [-> Hp]. split; [by split; [|left]|].
    intros Hsub _. by destruct (Tsnp Hsub).
Qed.

(** X4.  [test_tensor_vs_vcf] and the three test recipes for the reference
    networks build, for each variant class, a truth list and two score
    lists that follow the keys of the baseline dictionary in one order, so
    that entry [i] of each list belongs to the same position and all have
    the length of the baseline.  The code raises KeyError exactly because a
    position of the baseline is missing from the network's dictionary; when
    the network scored every position of both baselines it returns. *)
Theorem vcf_score_lists_cover_the_baseline
    (cnn_snp_dict cnn_indel_dict : gmap K V) (snp_vqsr indel_vqsr : gmap K (V * V)) :
  (match test_tensor_vs_vcf cnn_snp_dict cnn_indel_dict snp_vqsr indel_vqsr with
   | Returned ((snp_truth, snp_scores), (indel_truth, indel_scores)) =>
       built_over_baseline "VQSR Single Sample" cnn_snp_dict snp_vqsr snp_truth snp_scores
       ∧ built_over_baseline "VQSR Single Sample" cnn_indel_dict indel_vqsr
           indel_truth indel_scores
   | Raised e =>
       e = KeyError
       ∧ ((∃ p, p ∈ dom snp_vqsr ∧ cnn_snp_dict !! p = None)
          ∨ (∃ p, p ∈ dom indel_vqsr ∧ cnn_indel_dict !! p = None))
   end)
  ∧ (dom snp_vqsr ⊆ dom cnn_snp_dict → dom indel_vqsr ⊆ dom cnn_indel_dict →
     ∃ r, test_tensor_vs_vcf cnn_snp_dict cnn_indel_dict snp_vqsr indel_vqsr = Returned r)
  ∧ (match test_net_scores cnn_snp_dict cnn_indel_dict snp_vqsr indel_vqsr with
     | Returned ((snp_truth, snp_scores), (indel_truth, indel_scores)) =>
         built_over_baseline "VQSR" cnn_snp_dict snp_vqsr snp_truth snp_scores
         ∧ built_over_baseline "VQSR" cnn_indel_dict indel_vqsr indel_truth indel_scores
     | Raised e =>
         e = KeyError
         ∧ ((∃ p, p ∈ dom snp_vqsr ∧ cnn_snp_dict !! p = None)
            ∨ (∃ p, p ∈ dom indel_vqsr ∧ cnn_indel_dict !! p = None))
     end)
  ∧ (dom snp_vqsr ⊆ dom cnn_snp_dict → dom indel_vqsr ⊆ dom cnn_indel_dict →
     ∃ r, test_net_scores cnn_snp_dict cnn_indel_dict snp_vqsr indel_vqsr = Returned r).
Proof.
  destruct (two_classes_spec "VQSR Single Sample" cnn_snp_dict cnn_indel_dict
              snp_vqsr indel_vqsr) as [H1 H2].
  destruct (two_classes_spec "VQSR" cnn_snp_dict cnn_indel_dict
              snp_vqsr indel_vqsr) as [H3 H4].
  done.
Qed.

Lemma filter_Forall_id {A} (P : A → Prop) `{∀ x, Decision (P x)} (l : list A) :
  Forall P l → filter P l = l.
Proof.
  induction 1 as [|x l Hx Hl IH]; [done|].
  rewrite filter_cons, decide_True by done. by rewrite IH.
Qed.

Lemma shared_filter_keys_same (d : gmap K (V * V)) : shared_filter_keys d d d = keys d.
Proof. unfold shared_filter_keys. apply filter_Forall_id. by apply Forall_forall. Qed.

(** X5.  When neither a second nor a third negative VCF is given,
    [test_tensor_vs_multiple_vcfs] computes what the single-VCF comparison
    computes: the shared keys are all keys of the first baseline, and the
    result is that of [vcf_scores] under the name of the first VCF. *)
Theorem multiple_vcfs_without_extra_vcfs (args : Args) (plain_name : option string → string)
    (cnn_snp_dict cnn_indel_dict : gmap K V)
    (snp_vqsr indel_vqsr snp_loaded_2 indel_loaded_2 snp_loaded_3 indel_loaded_3
       : gmap K (V * V)) :
  given (negative_vcf_2 args) = false →
  given (negative_vcf_3 args) = false →
  test_tensor_vs_multiple_vcfs args plain_name cnn_snp_dict cnn_indel_dict
    snp_vqsr indel_vqsr snp_loaded_2 indel_loaded_2 snp_loaded_3 indel_loaded_3
  = (snp ← vcf_scores ("VQSR " +:+ plain_name (negative_vcf args)) cnn_snp_dict snp_vqsr;
     indel ← vcf_scores ("VQSR " +:+ plain_name (negative_vcf args))
               cnn_indel_dict indel_vqsr;
     mret (snp, indel)).
Proof.
  intros H2 H3. unfold test_tensor_vs_multiple_vcfs, vcf_scores.
  rewrite H2, H3. cbv beta iota zeta. rewrite !shared_filter_keys_same.
  destruct (comprehension (truth_at snp_vqsr) (keys snp_vqsr)); [|done].
  destruct (comprehension (score_at snp_vqsr) (keys snp_vqsr)); [|done].
  destruct (comprehension (getitem cnn_snp_dict) (keys snp_vqsr)); [|done].
  destruct (comprehension (truth_at indel_vqsr) (keys indel_vqsr)); [|done].
  destruct (comprehension (score_at indel_vqsr) (keys indel_vqsr)); [|done].
  by destruct (comprehension (getitem cnn_indel_dict) (keys indel_vqsr)).
Qed.

Lemma score_at_indexed d (l : list K) ys :
  comprehension (score_at d) l = Returned ys → indexed (fun p => fst <$> d !! p) l ys.
Proof. apply indexed_of_comprehension, score_at_Returned. Qed.

(** X6.  When a third negative VCF is given, [test_tensor_vs_multiple_vcfs]
    stores its scores under the name of the second VCF (line 1045 builds
    the key from [args.negative_vcf_2]): the list under that key is the
    third VCF's, the keys of each score dictionary are those of the first
    VCF, of the network and of the second VCF and no other, and the scores
    of a second VCF that was given are overwritten. *)
Theorem third_vcf_replaces_second (args : Args) (plain_name : option string → string)
    (cnn_snp_dict cnn_indel_dict : gmap K V)
    (snp_vqsr indel_vqsr snp_loaded_2 indel_loaded_2 snp_loaded_3 indel_loaded_3
       : gmap K (V * V))
    (snp_truth indel_truth : list V) (snp_scores indel_scores : gmap string (list V)) :
  given (negative_vcf_3 args) = true →
  test_tensor_vs_multiple_vcfs args plain_name cnn_snp_dict cnn_indel_dict
    snp_vqsr indel_vqsr snp_loaded_2 indel_loaded_2 snp_loaded_3 indel_loaded_3
  = Returned ((snp_truth, snp_scores), (indel_truth, indel_scores)) →
  let first := "VQSR " +:+ plain_name (negative_vcf args) in
  let second := "VQSR " +:+ plain_name (negative_vcf_2 args) in
  let snp_vqsr_2 := if given (negative_vcf_2 args) then snp_loaded_2 else snp_vqsr in
  let indel_vqsr_2 := if given (negative_vcf_2 args) then indel_loaded_2 else indel_vqsr in
  (∃ l, snp_scores !! second = Some l
        ∧ indexed (fun p => fst <$> snp_loaded_3 !! p)
            (shared_filter_keys snp_vqsr snp_vqsr_2 snp_loaded_3) l)
  ∧ (∃ l, indel_scores !! second = Some l
          ∧ indexed (fun p => fst <$> indel_loaded_3 !! p)
              (shared_filter_keys indel_vqsr indel_vqsr_2 indel_loaded_3) l)
  ∧ dom snp_scores = {[first; "Neural Net"; second]}
  ∧ dom indel_scores = {[first; "Neural Net"; second]}.
Proof.
  intros H3 Hrun first second snp_vqsr_2 indel_vqsr_2.
  unfold test_tensor_vs_multiple_vcfs in Hrun. rewrite H3 in Hrun.
  fold first second in Hrun. unfold mret, outcome_ret in Hrun.
  subst snp_vqsr_2 indel_vqsr_2.
  destruct (given (negative_vcf_2 args)); cbv beta iota zeta in Hrun;
    invert_binds Hrun;
    (split; [eexists; split; [apply lookup_insert_eq|by apply score_at_indexed]|]);
    (split; [eexists; split; [apply lookup_insert_eq|by apply score_at_indexed]|]);
    rewrite !dom_insert_L, !dom_empty_L;
    split; apply set_eq; intros key;
    rewrite !elem_of_union, !elem_of_singleton, elem_of_empty; tauto.
Qed.

End ScoreListTheorems.

Section MultiVcfTheorems.
Context {X : Type}.


End MultiVcfTheorems.

(** ** Score lists over shared keys *)

Section GnomadTheorems.
Context `{Countable K} {V : Type}.
Implicit Types (d vqsr rf single_sample deep_variant : gmap K (V * V)) (cnn : gmap K V).

Lemma baseline_list d (shared : gset K) :
  shared ⊆ dom d →
  ∃ l, comprehension (score_at d) (elements shared) = Returned l
       ∧ indexed (fun p => fst <$> d !! p) (elements shared) l.
Proof.
  intros Hsub.
  destruct (comprehension_present (score_at d) (elements shared) d (score_at_Raised d))
    as [l Hl].
  { intros p Hp%elem_of_elements. by apply elem_of_dom, Hsub. }
  exists l. split; [done|]. by apply score_at_indexed.
Qed.

Lemma truth_list d (shared : gset K) :
  shared ⊆ dom d →
  ∃ l, comprehension (truth_at d) (elements shared) = Returned l
       ∧ indexed (fun p => snd <$> d !! p) (elements shared) l.
Proof.
  intros Hsub.
  destruct (comprehension_present (truth_at d) (elements shared) d (truth_at_Raised d))
    as [l Hl].
  { intros p Hp%elem_of_elements. by apply elem_of_dom, Hsub. }
  exists l. split; [done|].
  by apply (indexed_of_comprehension _ _ _ _ (truth_at_Returned d)).
Qed.

(** X8.  In [test_tensor_vs_gnomad] the shared keys exist, the truth list
    always builds, and it is indexed over them.  The score dictionary of a
    class holds the lists of the gnomAD VQSR, the network and the random
    forest, and those of the single-sample VQSR and of Deep Variant exactly
    when the flags ask for them, all indexed over the shared keys in one
    order and of their number.  Building it raises only KeyError, only
    because a shared position is missing from the network's dictionary
    (the baselines cannot miss one), and it returns when the network covers
    the shared keys. *)
Theorem gnomad_baselines_cover_the_shared_keys (args : Args) cnn
    vqsr rf single_sample deep_variant :
  ∃ shared,
    set_intersection (gnomad_key_sets args vqsr rf single_sample deep_variant)
    = Returned shared
    ∧ (∃ truth,
         gnomad_truth vqsr shared = Returned truth
         ∧ indexed (fun p => snd <$> vqsr !! p) (elements shared) truth
         ∧ length truth = size shared)
    ∧ match gnomad_scores args cnn vqsr rf single_sample deep_variant shared with
      | Returned scores =>
          score_list scores "VQSR gnomAD" true (fun p => fst <$> vqsr !! p)
            (elements shared)
          ∧ score_list scores "Neural Net" true (fun p => cnn !! p) (elements shared)
          ∧ score_list scores "Random Forest" true (fun p => fst <$> rf !! p)
              (elements shared)
          ∧ score_list scores "VQSR Single Sample" (single_sample_vqsr args)
              (fun p => fst <$> single_sample !! p) (elements shared)
          ∧ score_list scores "Deep Variant" (given (deep_variant_vcf args))
              (fun p => fst <$> deep_variant !! p) (elements shared)
          ∧ (∀ name l, scores !! name = Some l → length l = size shared)
      | Raised e => e = KeyError ∧ ∃ p, p ∈ shared ∧ cnn !! p = None
      end
    ∧ (shared ⊆ dom cnn →
       ∃ scores,
         gnomad_scores args cnn vqsr rf single_sample deep_variant shared
         = Returned scores).
Proof.
  destruct (gnomad_key_sets_intersection args vqsr rf single_sample deep_variant)
    as (shared & Hshared & Hin).
  exists shared. split; [done|].
  assert (shared ⊆ dom vqsr) as Hvqsr by (intros p Hp%Hin; tauto).
  assert (shared ⊆ dom rf) as Hrf by (intros p Hp%Hin; tauto).
  assert (single_sample_vqsr args = true → shared ⊆ dom single_sample) as Hsingle
    by (intros Hflag p Hp%Hin; tauto).
  assert (given (deep_variant_vcf args) = true → shared ⊆ dom deep_variant) as Hdeep
    by (intros Hflag p Hp%Hin; tauto).
  split.
  { destruct (truth_list vqsr shared Hvqsr) as (truth & Htruth & Hindexed).
    exists truth. split; [done|]. split; [done|].
    by rewrite (indexed_length _ _ _ Hindexed). }
  unfold gnomad_scores.
  destruct (baseline_list vqsr shared Hvqsr) as (l1 & -> & Hl1).
  destruct (baseline_list rf shared Hrf) as (l3 & Hc3 & Hl3).
  cbn [mbind outcome_bind].
  destruct (comprehension (getitem cnn) (elements shared)) as [l2|e] eqn:Hc2;
    cbn [mbind outcome_bind]; last first.
  { apply comprehension_Raised in Hc2 as (p & Hp%elem_of_elements & He).
    apply getitem_Raised in He as [-> He]. split; [by split; [|exists p]|].
    intros Hsub. apply Hsub, elem_of_dom in Hp as [? ?]. congruence. }
  apply (indexed_of_comprehension _ _ _ _ (getitem_Returned cnn)) in Hc2.
  rewrite Hc3. cbn [mbind outcome_bind].
  pose proof (indexed_length _ _ _ Hl1) as L1.
  pose proof (indexed_length _ _ _ Hc2) as L2.
  pose proof (indexed_length _ _ _ Hl3) as L3.
  change (length (elements shared)) with (size shared) in *.
  destruct (single_sample_vqsr args) eqn:Fsingle;
    [destruct (baseline_list single_sample shared (Hsingle eq_refl)) as (l4 & -> & Hl4);
     pose proof (indexed_length _ _ _ Hl4) as L4;
     change (length (elements shared)) with (size shared) in L4|];
    (destruct (given (deep_variant_vcf args)) eqn:Fdeep;
     [destruct (baseline_list deep_variant shared (Hdeep eq_refl)) as (l5 & -> & Hl5);
      pose proof (indexed_length _ _ _ Hl5) as L5;
      change (length (elements shared)) with (size shared) in L5|]);
    cbn [mbind outcome_bind mret outcome_ret score_list];
    (split; [|intros _; by eexists]);
    repeat (split;
            [first [ done
                   | eexists; split;
                     [rewrite ?lookup_insert_ne by done; apply lookup_insert_eq|done]
                   | by rewrite ?lookup_insert_ne by done ]|]);
    intros name l; rewrite !lookup_insert, lookup_empty;
    repeat case_decide; intros [= <-]; done.
Qed.

End GnomadTheorems.

Section ArchitectureTheorems.
Context `{Countable K} {V : Type}.

Lemma comprehension_all_raise {A B} (f : A → outcome B) (l : list A) e :
  l ≠ [] → (∀ x, f x = Raised e) → comprehension f l = Raised e.
Proof. destruct l as [|x l]; [done|]. intros _ Hf. simpl. by rewrite Hf. Qed.

Lemma comprehension_ext {A B} (f g : A → outcome B) (l : list A) :
  (∀ x, f x = g x) → comprehension f l = comprehension g l.
Proof. intros Hfg. induction l as [|x l IH]; simpl; [done|]. by rewrite Hfg, IH. Qed.

(** X9.  [test_architectures] takes its truth lists from
    [snp_deep_variant] and [indel_deep_variant] (lines 1825-1826), which
    only the branch for [args.deep_variant_vcf] assigns.  In an iteration
    that starts with the two names unset and no Deep Variant VCF given, it
    raises UnboundLocalError as soon as a class has a shared position, and
    gets through with empty lists only when neither has one.  With the VCF
    given the truth lists are those of the Deep Variant dictionaries over
    the shared keys. *)
Theorem test_architectures_reads_unset_truth (args : Args)
    (snp_vqsr indel_vqsr snp_rf indel_rf snp_single_sample indel_single_sample
       snp_loaded indel_loaded : gmap K (V * V)) :
  let result :=
    test_architectures_truth args snp_vqsr indel_vqsr snp_rf indel_rf
      snp_single_sample indel_single_sample snp_loaded indel_loaded None None in
  ∃ shared_snp_keys shared_indel_keys,
    set_intersection (gnomad_key_sets args snp_vqsr snp_rf snp_single_sample snp_loaded)
    = Returned shared_snp_keys
    ∧ set_intersection
        (gnomad_key_sets args indel_vqsr indel_rf indel_single_sample indel_loaded)
      = Returned shared_indel_keys
    ∧ (given (deep_variant_vcf args) = false →
       (shared_snp_keys ≠ ∅ → result = Raised (UnboundLocalError "snp_deep_variant"))
       ∧ (shared_snp_keys = ∅ → shared_indel_keys ≠ ∅ →
          result = Raised (UnboundLocalError "indel_deep_variant"))
       ∧ (shared_snp_keys = ∅ → shared_indel_keys = ∅ →
          result = Returned ((∅, []), (∅, []))))
    ∧ (given (deep_variant_vcf args) = true →
       ∃ snp_truth indel_truth,
         result = Returned ((shared_snp_keys, snp_truth), (shared_indel_keys, indel_truth))
         ∧ indexed (fun p => snd <$> snp_loaded !! p) (elements shared_snp_keys) snp_truth
         ∧ indexed (fun p => snd <$> indel_loaded !! p) (elements shared_indel_keys)
             indel_truth).
Proof.
  intros result. subst result. unfold test_architectures_truth.
  destruct (gnomad_key_sets_intersection args snp_vqsr snp_rf snp_single_sample snp_loaded)
    as (shared_snp & Hsnp & Hin_snp).
  destruct (gnomad_key_sets_intersection args indel_vqsr indel_rf indel_single_sample
              indel_loaded) as (shared_indel & Hindel & Hin_indel).
  exists shared_snp, shared_indel. split; [done|]. split; [done|].
  rewrite Hsnp, Hindel. cbn [mbind outcome_bind].
  split.
  - intros ->. cbn [load_fast mbind outcome_bind].
    assert (∀ name (shared : gset K),
              shared ≠ ∅ →
              comprehension (fun _ : K => Raised (UnboundLocalError name) : outcome V)
                (elements shared)
              = Raised (UnboundLocalError name)) as Hunset.
    { intros name shared Hne. apply comprehension_all_raise; [|done].
      by intros ?%elements_empty_inv%leibniz_equiv. }
    split; [|split].
    + intros Hne. by rewrite (Hunset "snp_deep_variant" shared_snp Hne).
    + intros -> Hne. rewrite elements_empty. simpl.
      by rewrite (Hunset "indel_deep_variant" shared_indel Hne).
    + intros -> ->. by rewrite elements_empty.
  - intros Hgiven. rewrite Hgiven.
    rewrite (comprehension_ext _ (truth_at snp_loaded) (elements shared_snp)) by done.
    rewrite (comprehension_ext _ (truth_at indel_loaded) (elements shared_indel)) by done.
    destruct (truth_list snp_loaded shared_snp) as (snp_truth & -> & Hsnp_truth).
    { intros p Hp%Hin_snp. tauto. }
    destruct (truth_list indel_loaded shared_indel) as (indel_truth & -> & Hindel_truth).
    { intros p Hp%Hin_indel. tauto. }
    by exists snp_truth, indel_truth.
Qed.

End ArchitectureTheorems.

(** ** Test arrays, subsets and extreme scores *)

Section ArrayTheorems.
Context {R : Type}.
Implicit Types (a value : list R) (zero : R).

Lemma slice_bound_inside n k : (0 <= k <= n)%Z → slice_bound n k = k.
Proof.
  intros Hk. unfold slice_bound. destruct (k <? 0)%Z eqn:Hneg; lia.
Qed.

(** Assigning a batch to the next window of an array that is filled up to
    the window and zero from it on. *)
Lemma setslice_next_window filled value zero (i bs rest : nat) :
  length filled = (i * bs)%nat →
  length value = bs →
  setslice (filled ++ replicate (bs + rest) zero)
    (Z.of_nat i * Z.of_nat bs) ((Z.of_nat i + 1) * Z.of_nat bs) value
  = Returned (filled ++ value ++ replicate rest zero).
Proof.
  intros Hfilled Hvalue. unfold setslice.
  rewrite length_app, length_replicate, Hfilled.
  rewrite !slice_bound_inside by nia.
  replace (Z.to_nat (Z.of_nat i * Z.of_nat bs)) with (i * bs)%nat by nia.
  replace (Z.to_nat ((Z.of_nat i + 1) * Z.of_nat bs)) with (i * bs + bs)%nat by nia.
  replace (i * bs + bs - i * bs)%nat with bs by lia.
  rewrite decide_True by done.
  rewrite take_app_length' by done.
  rewrite drop_app_ge by lia. rewrite Hfilled.
  replace (i * bs + bs - i * bs)%nat with bs by lia.
  by rewrite drop_replicate_add.
Qed.

End ArrayTheorems.

Section TestArrayTheorems.
Context {A B : Type}.

Lemma fill_test_arrays_windows (bs : nat) (zero_tensor : A) (zero_label : B)
    (k i : nat) (generate_test : list (list A * list B)) tensors labels :
  length tensors = (i * bs)%nat →
  length labels = (i * bs)%nat →
  (k ≤ length generate_test)%nat →
  Forall (fun batch => length batch.1 = bs ∧ length batch.2 = bs) (take k generate_test) →
  fill_test_arrays (Z.of_nat bs) generate_test (Z.of_nat <$> seq i k)
    (tensors ++ replicate (k * bs) zero_tensor)
    (labels ++ replicate (k * bs) zero_label)
  = Returned (tensors ++ concat (take k generate_test).*1,
              labels ++ concat (take k generate_test).*2).
Proof.
  revert i generate_test tensors labels.
  induction k as [|k IH]; intros i generate_test tensors labels Ht Hl Hk Hall.
  - by simpl.
  - destruct generate_test as [|[batch_tensors batch_labels] generate_test];
      [simpl in Hk; lia|].
    rewrite firstn_cons in Hall. apply Forall_cons in Hall as [[Hbt Hbl] Hall].
    simpl in Hbt, Hbl, Hk.
    cbn [seq fmap list_fmap fill_test_arrays fst snd].
    change (S k * bs)%nat with (bs + k * bs)%nat.
    replace (Z.of_nat i + 1)%Z with (Z.of_nat i + 1)%Z by done.
    rewrite (setslice_next_window tensors batch_tensors zero_tensor i bs (k * bs))
      by done.
    rewrite (setslice_next_window labels batch_labels zero_label i bs (k * bs))
      by done.
    cbn [mbind outcome_bind].
    rewrite !(assoc_L (++)).
    rewrite (IH (S i) generate_test (tensors ++ batch_tensors) (labels ++ batch_labels)).
    + rewrite firstn_cons. cbn [fmap list_fmap concat fst snd].
      by rewrite !(assoc_L (++)).
    + rewrite length_app. lia.
    + rewrite length_app. lia.
    + lia.
    + done.
Qed.

(** X10.  The loop that fills the test arrays (lines 314-320 and its copies)
    returns, when the generator yields at least [args.iterations] batches
    of [args.batch_size] rows each, the concatenation of those batches, in
    the order they were generated: no row of zeros is left and none is
    written twice, and the tensors and labels have
    [iterations * batch_size] rows each. *)
Theorem test_arrays_hold_the_batches (args : Args) (zero_tensor : A) (zero_label : B)
    (generate_test : list (list A * list B)) :
  let n := Z.to_nat (iterations args) in
  (0 <= iterations args)%Z →
  (0 <= batch_size args)%Z →
  (n ≤ length generate_test)%nat →
  Forall (fun batch => Z.of_nat (length batch.1) = batch_size args
                       ∧ Z.of_nat (length batch.2) = batch_size args)
         (take n generate_test) →
  test_arrays args zero_tensor zero_label generate_test
  = Returned (concat (take n generate_test).*1, concat (take n generate_test).*2)
  ∧ Z.of_nat (length (concat (take n generate_test).*1))
    = (iterations args * batch_size args)%Z
  ∧ length (concat (take n generate_test).*1) = length (concat (take n generate_test).*2).
Proof.
  intros n Hn Hbs Hlen Hall.
  assert (Forall (fun batch : list A * list B =>
                    length batch.1 = Z.to_nat (batch_size args)
                    ∧ length batch.2 = Z.to_nat (batch_size args))
                 (take n generate_test)) as Hall'.
  { eapply Forall_impl; [exact Hall|]. intros batch [? ?]. lia. }
  split.
  - unfold test_arrays, np_zeros.
    destruct (iterations args * batch_size args <? 0)%Z eqn:Hneg; [nia|].
    cbn [mbind outcome_bind]. unfold range. fold n.
    replace (Z.to_nat (iterations args * batch_size args))
      with (n * Z.to_nat (batch_size args))%nat by nia.
    rewrite <- (Z2Nat.id (batch_size args)) at 1 by done.
    by apply (fill_test_arrays_windows (Z.to_nat (batch_size args)) zero_tensor
                zero_label n 0 generate_test [] []).
  - assert (∀ {X} (l : list (list X)) m,
              Forall (fun x => length x = m) l → length (concat l) = (length l * m)%nat)
      as Hconcat.
    { intros X l m. induction 1 as [|x l Hx _ IH]; [done|].
      simpl. rewrite length_app, IH, Hx. lia. }
    rewrite (Hconcat _ _ (Z.to_nat (batch_size args))), (Hconcat _ _ (Z.to_nat (batch_size args))).
    + rewrite !length_fmap, length_take. split; [nia|done].
    + apply Forall_fmap. eapply Forall_impl; [exact Hall'|]. by intros ? [_ ?].
    + apply Forall_fmap. eapply Forall_impl; [exact Hall'|]. by intros ? [? _].
Qed.

End TestArrayTheorems.

Section SubsetTheorems.
Context {V : Type} (is_one : V → bool) (np_argmax : list V → outcome nat).

Lemma array_getitem_Returned {R} (a : list R) i r :
  array_getitem a i = Returned r → a !! i = Some r.
Proof. unfold array_getitem. destruct (a !! i); congruence. Qed.

Lemma subset_loop_rows predictions test_truth indices pred_subset truth_subset ps ts :
  subset_loop is_one np_argmax predictions test_truth indices pred_subset truth_subset
  = Returned (ps, ts) →
  let kept :=
    filter (fun i => reference_true_positive is_one np_argmax predictions test_truth i
                     = false) indices in
  ∃ new_p new_t,
    ps = pred_subset ++ new_p ∧ ts = truth_subset ++ new_t
    ∧ rows_at predictions kept new_p ∧ rows_at test_truth kept new_t.
Proof.
  revert pred_subset truth_subset.
  induction indices as [|i indices IH]; intros pred_subset truth_subset; simpl.
  - intros [= <- <-]. exists [], []. rewrite !app_nil_r. repeat split; constructor.
  - intros Hrun.
    apply outcome_bind_Returned in Hrun as (row & Hrow%array_getitem_Returned & Hrun).
    apply outcome_bind_Returned in Hrun as (t0 & Ht0%array_getitem_Returned & Hrun).
    apply outcome_bind_Returned in Hrun as (skip & Hskip & Hrun).
    destruct skip.
    + (* skipped *)
      destruct (is_one t0) eqn:Hone; [|discriminate Hskip].
      apply outcome_bind_Returned in Hskip as (p & Hp%array_getitem_Returned & Hskip).
      apply outcome_bind_Returned in Hskip as (k & Hk & Hskip).
      injection Hskip as Hk0. apply Nat.eqb_eq in Hk0 as ->.
      assert (reference_true_positive is_one np_argmax predictions test_truth i = true)
        as Href.
      { unfold reference_true_positive. by rewrite Hrow, Hp, Ht0, Hone, Hk. }
      rewrite filter_cons_False by (by rewrite Href).
      by apply IH.
    + apply outcome_bind_Returned in Hrun as (p & Hp%array_getitem_Returned & Hrun).
      apply outcome_bind_Returned in Hrun as (t & Ht%array_getitem_Returned & Hrun).
      assert (t = row) as -> by congruence.
      assert (reference_true_positive is_one np_argmax predictions test_truth i = false)
        as Href.
      { unfold reference_true_positive. rewrite Hrow, Hp, Ht0.
        destruct (is_one t0); [|done]. simpl.
        apply outcome_bind_Returned in Hskip as (p' & Hp'%array_getitem_Returned & Hskip).
        apply outcome_bind_Returned in Hskip as (k & Hk & Hskip).
        assert (p' = p) as -> by congruence. rewrite Hk.
        injection Hskip as Hk0. by destruct k. }
      rewrite filter_cons_True by done.
      apply IH in Hrun as (new_p & new_t & -> & -> & Hnew_p & Hnew_t).
      exists (p :: new_p), (row :: new_t).
      rewrite <- !(assoc_L (++)). repeat split; by constructor.
Qed.

Lemma subset_loop_returns predictions test_truth indices pred_subset truth_subset :
  Forall (fun i => (i < length predictions)%nat) indices →
  (length predictions ≤ length test_truth)%nat →
  Forall (fun t => t ≠ []) test_truth →
  Forall (fun p => ∃ k, np_argmax p = Returned k) predictions →
  ∃ r, subset_loop is_one np_argmax predictions test_truth indices
         pred_subset truth_subset = Returned r.
Proof.
  intros Hind Hlen Htruth Hmax. revert pred_subset truth_subset.
  induction Hind as [|i indices Hi _ IH]; intros pred_subset truth_subset; simpl.
  - by eexists.
  - destruct (lookup_lt_is_Some_2 predictions i Hi) as [p Hp].
    destruct (lookup_lt_is_Some_2 test_truth i) as [t Ht]; [lia|].
    pose proof (proj1 (Forall_lookup _ _) Htruth i t Ht) as Hne.
    destruct (proj1 (Forall_lookup _ _) Hmax i p Hp) as [k Hk].
    destruct t as [|t0 t]; [done|].
    unfold array_getitem. rewrite Ht. simpl.
    destruct (is_one t0); simpl; rewrite ?Hp; simpl; rewrite ?Hk; simpl;
      try destruct (Nat.eqb k 0); simpl; rewrite ?Hp, ?Ht; simpl; apply IH.
Qed.

(** X11.  The loop that drops the reference sites the network calls
    reference (lines 411-417 and its copies) keeps the prediction and the
    truth of exactly the other rows, in their order: the two subsets have
    one length, entry [j] of each is the row of the same index, and nothing
    is added.  It returns whenever the truth array has a row for every
    prediction, no row is empty and [np.argmax] returns. *)
Theorem subsets_stay_paired (predictions test_truth : list (list V)) :
  let kept :=
    filter (fun i => reference_true_positive is_one np_argmax predictions test_truth i
                     = false)
           (seq 0 (length predictions)) in
  ((length predictions ≤ length test_truth)%nat →
   Forall (fun t => t ≠ []) test_truth →
   Forall (fun p => ∃ k, np_argmax p = Returned k) predictions →
   ∃ r, no_reference_subsets is_one np_argmax predictions test_truth = Returned r)
  ∧ ∀ pred_subset truth_subset,
      no_reference_subsets is_one np_argmax predictions test_truth
      = Returned (pred_subset, truth_subset) →
      rows_at predictions kept pred_subset
      ∧ rows_at test_truth kept truth_subset
      ∧ length pred_subset = length truth_subset
      ∧ (length pred_subset ≤ length predictions)%nat.
Proof.
  intros kept. split.
  - intros Hlen Htruth Hmax. apply subset_loop_returns; [|done..].
    apply Forall_forall. intros i Hi%elem_of_seq. lia.
  - intros pred_subset truth_subset Hrun. unfold no_reference_subsets in Hrun.
    apply subset_loop_rows in Hrun as (new_p & new_t & -> & -> & Hp & Ht).
    fold kept in Hp, Ht. simpl. split; [done|]. split; [done|].
    pose proof (Forall2_length _ _ _ Hp) as Hlp.
    pose proof (Forall2_length _ _ _ Ht) as Hlt.
    split; [congruence|]. rewrite <- Hlp. subst kept.
    etrans; [apply length_filter|]. by rewrite length_seq.
Qed.

End SubsetTheorems.

Section ExtremeTheorems.
Context {K V : Type} (le : relation V) `{!RelDecision le}.
Implicit Types (s items : list (K * V)) (printed : list (string * (K * V))).

Lemma list_getitem_inside {R} (l : list R) (i : nat) x :
  l !! i = Some x → list_getitem l (Z.of_nat i) = Returned x.
Proof.
  intros Hx. pose proof (lookup_lt_Some _ _ _ Hx) as Hi. unfold list_getitem.
  destruct (Z.of_nat i <? 0)%Z eqn:Hneg; [lia|].
  destruct (0 <=? Z.of_nat i)%Z eqn:H0; [|lia].
  destruct (Z.of_nat i <? Z.of_nat (length l))%Z eqn:H1; [|lia].
  simpl. unfold array_getitem. by rewrite Nat2Z.id, Hx.
Qed.

Lemma list_getitem_beyond {R} (l : list R) (i : nat) :
  (length l ≤ i)%nat → list_getitem l (Z.of_nat i) = Raised IndexError.
Proof.
  intros Hi. unfold list_getitem.
  destruct (Z.of_nat i <? 0)%Z eqn:Hneg; [lia|].
  destruct (Z.of_nat i <? Z.of_nat (length l))%Z eqn:H1; [lia|].
  by rewrite andb_false_r.
Qed.

(** Printing the items at the positions an increasing function of a
    counter gives, while they are inside the list. *)
Lemma print_scores_inside label s (pos : nat → nat) (j k : nat) printed :
  (∀ c, (j ≤ c < j + k)%nat → (pos c < length s)%nat) →
  print_scores label s ((fun c => Z.of_nat (pos c)) <$> seq j k) printed
  = (Returned tt,
     printed ++ omap (fun c => (fun item => (label, item)) <$> s !! pos c) (seq j k)).
Proof.
  revert j printed. induction k as [|k IH]; intros j printed Hpos; simpl.
  - by rewrite app_nil_r.
  - destruct (lookup_lt_is_Some_2 s (pos j)) as [x Hx]; [apply Hpos; lia|].
    rewrite (list_getitem_inside _ _ _ Hx), Hx. simpl.
    rewrite IH by (intros c Hc; apply Hpos; lia).
    by rewrite <- (assoc_L (++)).
Qed.

Lemma print_scores_beyond label s (j k : nat) printed :
  (j ≤ length s < j + k)%nat →
  print_scores label s (Z.of_nat <$> seq j k) printed
  = (Raised IndexError, printed ++ ((fun item => (label, item)) <$> drop j s)).
Proof.
  revert j printed. induction k as [|k IH]; intros j printed Hj; [lia|]. simpl.
  destruct (decide (j = length s)) as [->|Hne].
  - rewrite list_getitem_beyond by done. by rewrite drop_all, app_nil_r.
  - destruct (lookup_lt_is_Some_2 s j) as [x Hx]; [lia|].
    rewrite (list_getitem_inside _ _ _ Hx).
    rewrite IH by lia. rewrite (drop_S _ _ _ Hx). simpl.
    by rewrite <- (assoc_L (++)).
Qed.

Lemma omap_lookup_seq {R X} (f : R → X) (l : list R) (j k : nat) :
  (j + k ≤ length l)%nat →
  omap (fun c => f <$> l !! c) (seq j k) = f <$> take k (drop j l).
Proof.
  revert j. induction k as [|k IH]; intros j Hk; [done|].
  destruct (lookup_lt_is_Some_2 l j) as [x Hx]; [lia|].
  simpl. rewrite Hx, (drop_S _ _ _ Hx). simpl. f_equal. apply IH. lia.
Qed.

Lemma omap_lookup_take {R X} (f : R → X) (l : list R) (k : nat) :
  (k ≤ length l)%nat →
  omap (fun c => f <$> l !! c) (seq 0 k) = f <$> take k l.
Proof. intros Hk. by rewrite omap_lookup_seq, drop_0 by lia. Qed.

(** X12.  The report of extreme scores (lines 1140-1144 and its copies)
    sorts the items by score and prints the five lowest, then the FOUR
    highest, from the highest down ([range(n-1, n-5, -1)] has four
    elements).  With fewer than five items it prints them all as bad ones
    and raises IndexError before any good one.  The order [le] on scores is
    total and transitive. *)
Theorem extreme_scores_print_five_and_four `{!Total le} `{!Transitive le}
    (bad good : string) (items : list (K * V)) :
  let s := sorted_by_score le items in
  s ≡ₚ items
  ∧ StronglySorted (by_score le) s
  ∧ ((length items < 5)%nat →
     print_extreme_scores le bad good items
     = (Raised IndexError, (fun item => (bad, item)) <$> s))
  ∧ ((5 ≤ length items)%nat →
     print_extreme_scores le bad good items
     = (Returned tt,
        ((fun item => (bad, item)) <$> take 5 s)
        ++ ((fun item => (good, item)) <$> take 4 (reverse s)))).
Proof.
  intros s.
  assert (s ≡ₚ items) as Hperm by apply merge_sort_Permutation.
  assert (length s = length items) as Hlen by by rewrite Hperm.
  split; [done|]. split.
  { apply StronglySorted_merge_sort.
    - intros a b c. unfold by_score. apply transitivity.
    - intros a b. unfold by_score. apply total. apply _. }
  unfold print_extreme_scores. fold s. rewrite Hlen. split.
  - intros Hfew. unfold range. change (Z.to_nat 5) with 5%nat.
    rewrite (print_scores_beyond bad s 0 5 []) by lia. by rewrite drop_0.
  - intros Hmany. unfold range. change (Z.to_nat 5) with 5%nat.
    assert (print_scores bad s (Z.of_nat <$> seq 0 5) []
            = (Returned tt,
               [] ++ omap (fun c => (fun item => (bad, item)) <$> s !! c) (seq 0 5)))
      as -> by (apply (print_scores_inside bad s (fun c => c) 0 5 []); intros; lia).
    rewrite app_nil_l, omap_lookup_take by lia.
    unfold range_down.
    replace (Z.to_nat (Z.of_nat (length items) - 1 - (Z.of_nat (length items) - 5)))
      with 4%nat by lia.
    assert ((fun k : nat => Z.of_nat (length items) - 1 - Z.of_nat k)%Z <$> seq 0 4
            = (fun c => Z.of_nat (length s - S c)) <$> seq 0 4) as ->.
    { simpl. rewrite Hlen. repeat f_equal; lia. }
    rewrite (print_scores_inside good s (fun c => (length s - S c)%nat) 0 4)
      by (intros; lia).
    f_equal. f_equal.
    rewrite <- (omap_lookup_take _ (reverse s) 4) by (rewrite length_reverse; lia).
    simpl. rewrite !reverse_lookup by lia. done.
Qed.

End ExtremeTheorems.

(** ** The loop of [inspect_architectures] and the score keys *)

Section InspectionTheorems.
Context `{Library}.
Implicit Types (d : gmap string string) (loc : inspect_locals).

Lemma wp_of_outcome {A} (o : outcome A) st Q : Q o st → wp (of_outcome o) st Q.
Proof. done. Qed.

Lemma inspect_branch_unknown a tensor_shape train_paths valid_paths test_paths
    per_class_max loc :
  a ∉ inspected_architectures →
  inspect_branch a tensor_shape train_paths valid_paths test_paths per_class_max loc
  = bind (print (unknown_architecture_line a)) (fun _ => ret loc).
Proof.
  intros Ha. unfold inspected_architectures in Ha.
  repeat (let Hne := fresh "Hne" in
          apply not_elem_of_cons in Ha as [Hne Ha];
          apply not_eq_sym, String.eqb_neq in Hne).
  unfold inspect_branch, unknown_architecture_line.
  repeat match goal with
         | Hne : String.eqb _ a = false |- _ => rewrite Hne; clear Hne; cbv iota
         end.
  by destruct (String.eqb "2d_2bit" a).
Qed.

Ltac inspect_step_tac :=
  first [ wp_step
        | apply wp_of_outcome; cbv beta iota;
          cbn [st_args st_world st_trace called logged] in * ].

Ltac observe_trace :=
  cbn [st_args st_world st_trace logged called
       tensor_map data_dir weights_hd5 window_size samples read_limit
       set_weights_hd5 set_data_dir set_input_symbols set_labels set_window_size
       set_tensor_map set_samples set_read_limit set_score_keys path_object];
  unfold printed, callees, train_calls, calls_of;
  rewrite <- ?app_assoc, ?omap_app; cbn [omap list_omap app].

Lemma inspect_step_unknown_unassigned d a directory st :
  a ∉ inspected_architectures →
  d !! a = Some directory →
  wp (inspect_step d a unassigned) st (fun o st' =>
    o = Raised (UnboundLocalError "model")
    ∧ after_unknown a directory st st' []
    ∧ train_calls (st_trace st') = train_calls (st_trace st)).
Proof.
  intros Ha Hd. unfold inspect_step.
  do 18 inspect_step_tac. unfold getitem. rewrite Hd.
  repeat inspect_step_tac.
  rewrite inspect_branch_unknown by done.
  repeat inspect_step_tac.
  cbn [load_fast loc_model unassigned].
  split; [done|]. unfold after_unknown. observe_trace.
  repeat split; try reflexivity.
  - by eexists.
  - by rewrite app_nil_r.
Qed.



Lemma keys_lookup {A} (m : gmap string A) a :
  a ∈ keys m → ∃ x, m !! a = Some x.
Proof. intros Ha. by apply elem_of_keys in Ha. Qed.

(** X13.  If the first architecture [inspect_architectures] meets is one its
    chain does not build (2d_2bit or an unknown name), the recipe prints
    the error line and then raises UnboundLocalError for [model] at line
    287: nothing is trained or inspected, the remaining architectures are
    not visited, and the namespace is left with [samples = 10] and the
    tensor map and data directory of that architecture. *)
Theorem inspect_architectures_unknown_first d a rest st :
  keys d = a :: rest →
  a ∉ inspected_architectures →
  ∃ st' directory,
    d !! a = Some directory
    ∧ inspect_architectures d st = (Raised (UnboundLocalError "model"), st')
    ∧ train_calls (st_trace st') = train_calls (st_trace st)
    ∧ callees (st_trace st')
      = callees (st_trace st)
        ++ ["defines.total_input_channels_from_args"; "td.get_train_valid_test_paths"]
    ∧ last (printed (st_trace st')) = Some (unknown_architecture_line a)
    ∧ samples (st_args st') = 10%Z
    ∧ tensor_map (st_args st') = a
    ∧ data_dir (st_args st') = directory.
Proof.
  intros Hkeys Ha.
  destruct (keys_lookup d a) as [directory Hd]; [rewrite Hkeys; apply list_elem_of_here|].
  assert (wp (inspect_architectures d) st (fun o st' =>
            o = Raised (UnboundLocalError "model")
            ∧ (train_calls (st_trace st') = train_calls (st_trace st)
               ∧ callees (st_trace st')
                 = callees (st_trace st)
                   ++ ["defines.total_input_channels_from_args";
                       "td.get_train_valid_test_paths"]
               ∧ last (printed (st_trace st')) = Some (unknown_architecture_line a)
               ∧ samples (st_args st') = 10%Z
               ∧ tensor_map (st_args st') = a
               ∧ data_dir (st_args st') = directory))) as Hwp.
  { unfold inspect_architectures. do 4 wp_step. rewrite Hkeys. cbn [for_with].
    do 2 wp_step.
    eapply wp_mono; [|by apply (inspect_step_unknown_unassigned d a directory)].
    cbv beta. intros o st' (-> & Hafter & Htrain).
    destruct Hafter as (Hmap & Hdir & _ & _ & Hsamples & _ & [shape Hprinted] & Hcallees).
    cbn [st_args st_trace samples set_samples] in *.
    split; [done|]. rewrite Htrain, Hcallees, Hprinted, app_nil_r.
    repeat split; try done.
    by apply last_app_Some; left. }
  apply wp_returns in Hwp as (st' & Hrun & Hst').
  exists st', directory. split; [exact Hd|]. split; [exact Hrun|]. exact Hst'.
Qed.


(** X15.  With [args.single_sample_vqsr] set, [plot_vcf_roc_gnomad_scores]
    appends 'VQSR Single Sample' to the list [args.score_keys] itself: the
    caller's namespace holds the longer list afterwards, and it is that
    list [td.scores_from_gnomad_vcf] receives.
    [plot_vcf_roc_gnomad_like_scores] appends to a list of its own and
    leaves the namespace as it was.  Without the flag neither changes
    anything. *)
Theorem gnomad_score_keys_grow_in_place (l : list pyobj) st :
  score_keys (st_args st) = OList l →
  let vqsr := OStr "VQSR Single Sample" in
  let single_sample := single_sample_vqsr (st_args st) in
  (∃ r st',
     plot_vcf_roc_gnomad_scores_read st = (Returned r, st')
     ∧ st_args st'
       = (if single_sample then set_score_keys (OList (l ++ [vqsr])) (st_args st)
          else st_args st)
     ∧ calls_of "td.scores_from_gnomad_vcf" (st_trace st')
       = calls_of "td.scores_from_gnomad_vcf" (st_trace st)
         ++ [([AArgs (st_args st');
               AObj (OList (if single_sample then l ++ [vqsr] else l))], [])])
  ∧ (∃ r st',
       plot_vcf_roc_gnomad_like_scores_read st = (Returned r, st')
       ∧ st_args st' = st_args st
       ∧ calls_of "td.scores_from_gnomad_like_vcf" (st_trace st')
         = calls_of "td.scores_from_gnomad_like_vcf" (st_trace st)
           ++ [([AArgs (st_args st);
                 AObj (OList ([OStr "AS_RF"; OStr "VQSLOD"; OStr "CNN_SCORE"]
                              ++ if single_sample then [vqsr] else []))], [])]).
Proof.
  intros Hkeys vqsr single_sample. subst single_sample. split.
  - apply wp_returns_some. unfold plot_vcf_roc_gnomad_scores_read.
    do 3 wp_step. destruct (single_sample_vqsr (st_args st)).
    + rewrite Hkeys. cbn [list_append]. repeat wp_step.
      cbn [st_args st_trace called logged score_keys set_score_keys].
      eexists; split; [reflexivity|]. split; [done|]. by rewrite calls_of_call.
    + repeat wp_step. cbn [st_args st_trace called logged]. rewrite Hkeys.
      eexists; split; [reflexivity|]. split; [done|]. by rewrite calls_of_call.
  - apply wp_returns_some. unfold plot_vcf_roc_gnomad_like_scores_read.
    cbv zeta. do 3 wp_step. destruct (single_sample_vqsr (st_args st)).
    + cbn [list_append app]. repeat wp_step. cbn [st_args st_trace called logged].
      eexists; split; [reflexivity|]. split; [done|]. by rewrite calls_of_call.
    + repeat wp_step. cbn [st_args st_trace called logged].
      eexists; split; [reflexivity|]. split; [done|]. by rewrite calls_of_call.
Qed.

End InspectionTheorems.

(** ** Modes and recipes *)



Lemma str_inj i j : str i = str j → i = j.
Proof.
  unfold str. intros Heq.
  assert (∀ z, Z.to_int z ≠ Decimal.Pos Decimal.Nil ∧ Z.to_int z ≠ Decimal.Neg Decimal.Nil)
    as Hnonnil.
  { intros [|p|p]; cbn [Z.to_int]; split; try done; intros [= Hnil];
      by apply DecimalPos.Unsigned.to_uint_nonnil in Hnil. }
  apply DecimalZ.to_int_inj.
  destruct (Hnonnil i) as [Hi1 Hi2]. destruct (Hnonnil j) as [Hj1 Hj2].
  pose proof (NilZero.isi _ Hi1 Hi2) as Hi.
  pose proof (NilZero.isi _ Hj1 Hj2) as Hj.
  rewrite Heq in Hi. congruence.
Qed.

Lemma string_app_inj (p s1 s2 : string) : p +:+ s1 = p +:+ s2 → s1 = s2.
Proof.
  induction p as [|c p IH]; [done|].
  intros Heq. apply IH. unfold String.app in Heq. cbn in Heq. by injection Heq.
Qed.

Lemma NoDup_range n : NoDup (range n).
Proof.
  unfold range. apply NoDup_fmap_2; [|apply NoDup_seq].
  intros i j. apply Nat2Z.inj.
Qed.

Section ReachTheorems.
Context `{Library}.





(** X17.  In a run with mode [roc_animation] the titles of the plots, one
    for each iteration, are pairwise distinct ([str] is injective, and the
    titles share the prefix [args.id]): no frame of the animation is
    plotted under the title of another. *)
Theorem roc_animation_titles_are_distinct (w : World) :
  mode (st_args (parsed w)) = "roc_animation" →
  NoDup (plot_titles (st_trace (run w).2))
  ∧ length (plot_titles (st_trace (run w).2))
    = Z.to_nat (iterations (st_args (parsed w)))
  ∧ ∀ i j title,
      plot_titles (st_trace (run w).2) !! i = Some title →
      plot_titles (st_trace (run w).2) !! j = Some title → i = j.
Proof.
  intros Hmode.
  assert (plot_titles (st_trace (run w).2)
          = (fun i => id_ (st_args (parsed w)) +:+ str i)
              <$> range (iterations (st_args (parsed w)))) as ->.
  { assert (∃ st', run w = (Returned tt, st')
              ∧ plot_titles (st_trace st')
                = (fun i => id_ (st_args (parsed w)) +:+ str i)
                    <$> range (iterations (st_args (parsed w)))) as (st' & -> & Hst').
    { rewrite run_unfold, dispatch_chain, Hmode, roc_animation_branch.
      apply wp_returns. cbn [exec_action].
      eapply wp_call_global; [exact roc_curve_through_learning_bound|].
      eapply wp_mono; [|apply (roc_with_bound_wp iterations)].
      cbv beta. by intros o st' (-> & _ & -> & _). }
    done. }
  assert (NoDup ((fun i => id_ (st_args (parsed w)) +:+ str i)
                   <$> range (iterations (st_args (parsed w))))) as Hnodup.
  { apply NoDup_fmap_2; [|apply NoDup_range].
    intros i j Heq. by apply str_inj, (string_app_inj (id_ (st_args (parsed w)))). }
  split; [done|]. split; [by rewrite length_fmap, length_range|].
  intros i j title Hi Hj. by apply (NoDup_lookup _ i j title Hnodup).
Qed.

End ReachTheorems.

(** ** The further statements on sample inputs *)

Lemma make_one_hot_rows_witness :
  KerasExample.make_one_hot [3; 0; -1]%Z 4
  = Returned [[0; 0; 0; 1]; [1; 0; 0; 0]; [0; 0; 0; 1]]%Z
  ∧ ∀ i k, [3; 0; -1]%Z !! i = Some k →
      [[0; 0; 0; 1]; [1; 0; 0; 0]; [0; 0; 0; 1]]%Z !! i = Some (one_hot_row 4 k).
Proof.
  split; [reflexivity|]. intros i k Hik.
  destruct (make_one_hot_rows [3; 0; -1]%Z 4
              [[0; 0; 0; 1]; [1; 0; 0; 0]; [0; 0; 0; 1]]%Z eq_refl) as [_ Hrows].
  by destruct (Hrows i k Hik) as [Hrow _].
Defined.

Lemma multiple_vcfs_without_extra_vcfs_witness :
  test_tensor_vs_multiple_vcfs (sample_args "test_tensor_multi_vcf" 3) sample_plain_name
    sample_cnn sample_cnn sample_gatk sample_gatk sample_heng_li sample_heng_li
    sample_gatk_scores sample_gatk_scores
  = (snp ← vcf_scores "VQSR " sample_cnn sample_gatk;
     indel ← vcf_scores "VQSR " sample_cnn sample_gatk;
     mret (snp, indel)).
Proof.
  exact (multiple_vcfs_without_extra_vcfs (sample_args "test_tensor_multi_vcf" 3)
           sample_plain_name sample_cnn sample_cnn sample_gatk sample_gatk
           sample_heng_li sample_heng_li sample_gatk_scores sample_gatk_scores
           eq_refl eq_refl).
Defined.

Lemma third_vcf_replaces_second_witness :
  ∃ snp_truth snp_scores indel_truth indel_scores,
    test_tensor_vs_multiple_vcfs three_vcf_args sample_plain_name
      sample_cnn sample_cnn sample_gatk sample_gatk sample_gatk sample_gatk
      sample_gatk_scores sample_gatk_scores
    = Returned ((snp_truth, snp_scores), (indel_truth, indel_scores))
    ∧ dom snp_scores = {["VQSR a.vcf"; "Neural Net"; "VQSR b.vcf"]}
    ∧ dom indel_scores = {["VQSR a.vcf"; "Neural Net"; "VQSR b.vcf"]}.
Proof.
  assert (∃ r, test_tensor_vs_multiple_vcfs three_vcf_args sample_plain_name
                 sample_cnn sample_cnn sample_gatk sample_gatk sample_gatk sample_gatk
                 sample_gatk_scores sample_gatk_scores = Returned r)
    as [[[snp_truth snp_scores] [indel_truth indel_scores]] Hrun]
    by (vm_compute; eexists; reflexivity).
  exists snp_truth, snp_scores, indel_truth, indel_scores. split; [exact Hrun|].
  destruct (third_vcf_replaces_second three_vcf_args sample_plain_name
              sample_cnn sample_cnn sample_gatk sample_gatk sample_gatk sample_gatk
              sample_gatk_scores sample_gatk_scores
              snp_truth indel_truth snp_scores indel_scores eq_refl Hrun)
    as (_ & _ & Hsnp & Hindel).
  split; [exact Hsnp|exact Hindel].
Defined.

Lemma test_arrays_hold_the_batches_witness :
  test_arrays (sample_args "train_calling_model" 2) 0%Z false sample_batches
  = Returned (replicate 32 1%Z ++ replicate 32 2%Z,
              replicate 32 true ++ replicate 32 false).
Proof.
  destruct (test_arrays_hold_the_batches (sample_args "train_calling_model" 2) 0%Z false
              sample_batches) as [Hrun _].
  - vm_compute. discriminate.
  - vm_compute. discriminate.
  - vm_compute. lia.
  - repeat constructor.
  - exact Hrun.
Defined.

Lemma extreme_scores_print_five_and_four_witness :
  print_extreme_scores Z.le "Got Bad SNP score:" "Got Good SNP score:" sample_items
  = (Returned tt,
     [("Got Bad SNP score:", ("chr1:20", (-3)%Z)); ("Got Bad SNP score:", ("chr3:1", 0%Z));
      ("Got Bad SNP score:", ("chr2:5", 17%Z)); ("Got Bad SNP score:", ("chr1:10", 40%Z));
      ("Got Bad SNP score:", ("chr3:7", 64%Z));
      ("Got Good SNP score:", ("chr2:8", 99%Z)); ("Got Good SNP score:", ("chr3:7", 64%Z));
      ("Got Good SNP score:", ("chr1:10", 40%Z));
      ("Got Good SNP score:", ("chr2:5", 17%Z))]).
Proof.
  destruct (extreme_scores_print_five_and_four Z.le "Got Bad SNP score:"
              "Got Good SNP score:" sample_items) as (_ & _ & _ & Hmany).
  rewrite Hmany by (vm_compute; lia). vm_compute. reflexivity.
Defined.

Lemma inspect_architectures_unknown_first_witness :
  ∃ st',
    @inspect_architectures (counting_library (sample_args "inspect_architectures" 3))
      unknown_then_known
      (@parsed (counting_library (sample_args "inspect_architectures" 3)) 0%N)
    = (Raised (UnboundLocalError "model"), st')
    ∧ train_calls (st_trace st') = []
    ∧ tensor_map (st_args st') = "unknown_net".
Proof.
  destruct (@inspect_architectures_unknown_first
              (counting_library (sample_args "inspect_architectures" 3))
              unknown_then_known "unknown_net" ["2d"]
              (@parsed (counting_library (sample_args "inspect_architectures" 3)) 0%N))
    as (st' & directory & _ & Hrun & Htrain & _ & _ & _ & Hmap & _).
  - vm_compute. reflexivity.
  - apply (bool_decide_unpack _). vm_compute. reflexivity.
  - exists st'. split; [exact Hrun|]. split; [exact Htrain|exact Hmap].
Defined.


Lemma gnomad_score_keys_grow_in_place_witness :
  ∃ r st',
    @plot_vcf_roc_gnomad_scores_read (counting_library (other_args "plot_vcf_roc_gnomad"))
      (@parsed (counting_library (other_args "plot_vcf_roc_gnomad")) 0%N)
    = (Returned r, st')
    ∧ score_keys (st_args st') = OList [OStr "VQSLOD"; OStr "VQSR Single Sample"].
Proof.
  destruct (@gnomad_score_keys_grow_in_place
              (counting_library (other_args "plot_vcf_roc_gnomad")) [OStr "VQSLOD"]
              (@parsed (counting_library (other_args "plot_vcf_roc_gnomad")) 0%N) eq_refl)
    as [(r & st' & Hrun & Hargs & _) _].
  exists r, st'. split; [exact Hrun|]. rewrite Hargs. reflexivity.
Defined.

Lemma roc_animation_titles_are_distinct_witness :
  NoDup (plot_titles
           (st_trace (@run (counting_library (sample_args "roc_animation" 3)) 0%N).2)).
Proof.
  destruct (@roc_animation_titles_are_distinct
              (counting_library (sample_args "roc_animation" 3)) 0%N eq_refl)
    as [Hnodup _].
  exact Hnodup.
Defined.

